(** * Room extraction geometry engine: a shallow embedding

    The development follows the Python sources of the room extractor:

    - [extract_skeleton.py]: layer classification ([analyze_layers],
      [identify_wall_layers], [clean_layers]), extents
      ([get_drawing_extents], [convert_walls_to_image]), the raster room
      detector ([identify_rooms], [simplify_polygon]) and the two drivers
      ([extract_walls_and_rooms], [extract_rooms_from_dwg]);
    - [extract_skeleton_1.py]: the vector room assembler
      ([entity_to_lines], [remove_doors_from_walls], [associate_walls]).

    Conventions.  A Python exception that leaves a function is the result
    [None] of an [option]; a value that may be Python's [None] is an
    [option] as well and the two uses are never mixed in one type.  The
    calls into OpenCV, scikit-image and Shapely are fields of the classes
    [CvOps] and [Shapely], and what ezdxf puts into the entity database of
    a document it builds is a field of the class [Ezdxf]: every statement
    below holds for all their implementations unless a hypothesis says
    otherwise. *)

From Stdlib Require Import List String Ascii ZArith QArith Qabs Bool Lia Arith.
Import ListNotations.

Local Open Scope Z_scope.

(** ** Numbers

    Python floats are modelled by exact rationals extended with the two
    infinities and NaN: rounding and overflow are not modelled, the special
    values follow IEEE 754.  Python integers that meet floats are injected
    with [Fin].  A statement that the program raises nothing, or about the
    exact value of an area, is made within explicit magnitudes, where the
    double arithmetic of the program neither overflows nor rounds. *)

Module Num.

Inductive num : Type :=
| NaN
| NInf
| Fin (q : Q)
| PInf.

Definition Qltb (a b : Q) : bool :=
  Qnum a * QDen b <? Qnum b * QDen a.

Definition Qzerob (a : Q) : bool := Qnum a =? 0.

Definition of_Z (z : Z) : num := Fin (inject_Z z).
Definition of_nat (n : nat) : num := of_Z (Z.of_nat n).

(** [a < b]; every comparison with NaN is false. *)
Definition lt (a b : num) : bool :=
  match a, b with
  | NaN, _ | _, NaN => false
  | NInf, NInf => false
  | NInf, _ => true
  | Fin x, Fin y => Qltb x y
  | Fin _, PInf => true
  | Fin _, NInf => false
  | PInf, _ => false
  end.

Definition gt (a b : num) : bool := lt b a.

(** [a <= b]. *)
Definition le (a b : num) : bool :=
  match a, b with
  | NaN, _ | _, NaN => false
  | _, _ => negb (lt b a)
  end.

Definition ge (a b : num) : bool := le b a.

Definition is_zero (a : num) : bool :=
  match a with
  | Fin q => Qzerob q
  | _ => false
  end.

Definition neg (a : num) : num :=
  match a with
  | NaN => NaN
  | NInf => PInf
  | Fin q => Fin (- q)
  | PInf => NInf
  end.

Definition abs (a : num) : num :=
  match a with
  | NaN => NaN
  | NInf | PInf => PInf
  | Fin q => Fin (Qabs q)
  end.

Definition add (a b : num) : num :=
  match a, b with
  | NaN, _ | _, NaN => NaN
  | PInf, NInf | NInf, PInf => NaN
  | PInf, _ | _, PInf => PInf
  | NInf, _ | _, NInf => NInf
  | Fin x, Fin y => Fin (x + y)
  end.

Definition sub (a b : num) : num := add a (neg b).

(** The sign of a number that is not NaN: [Lt], [Eq] (zero) or [Gt]. *)
Definition sign (a : num) : comparison :=
  match a with
  | NaN => Eq
  | NInf => Lt
  | PInf => Gt
  | Fin q => Qnum q ?= 0
  end.

Definition signed_inf (s1 s2 : comparison) : num :=
  match s1, s2 with
  | Eq, _ | _, Eq => NaN
  | Lt, Lt | Gt, Gt => PInf
  | _, _ => NInf
  end.

Definition mul (a b : num) : num :=
  match a, b with
  | NaN, _ | _, NaN => NaN
  | Fin x, Fin y => Fin (x * y)
  | _, _ => signed_inf (sign a) (sign b)
  end.

(** IEEE division, as NumPy performs it: a zero divisor gives an infinity
    or NaN and no exception. *)
Definition div (a b : num) : num :=
  match a, b with
  | NaN, _ | _, NaN => NaN
  | Fin x, Fin y =>
      if Qzerob y
      then match Qnum x ?= 0 with Eq => NaN | Lt => NInf | Gt => PInf end
      else Fin (x / y)
  | Fin _, _ => Fin 0
  | _, Fin y =>
      match sign a, Qnum y ?= 0 with
      | Lt, Lt | Gt, Gt | Gt, Eq => PInf
      | _, _ => NInf
      end
  | _, _ => NaN
  end.

End Num.

Export Num.

Declare Scope num_scope.
Delimit Scope num_scope with num.
Bind Scope num_scope with num.
Infix "+" := Num.add : num_scope.
Infix "-" := Num.sub : num_scope.
Infix "*" := Num.mul : num_scope.
Infix "<?" := Num.lt : num_scope.
Infix ">?" := Num.gt : num_scope.
Infix "<=?" := Num.le : num_scope.
Infix ">=?" := Num.ge : num_scope.

(** ** Python built-ins *)

Module Py.

(** Exceptions: [None] is a raised exception. *)
Definition bind {A B : Type} (m : option A) (k : A -> option B) : option B :=
  match m with
  | Some a => k a
  | None => None
  end.

(** [a / b] on Python floats: ZeroDivisionError on a zero divisor. *)
Definition div (a b : num) : option num :=
  if Num.is_zero b then None else Some (Num.div a b).

(** [min(a, b)]: the later argument wins only when it is strictly less. *)
Definition min (a b : num) : num := if (b <? a)%num then b else a.

(** [max(a, b)]: the later argument wins only when it is strictly greater. *)
Definition max (a b : num) : num := if (b >? a)%num then b else a.

(** [int(x)]: truncation towards zero; OverflowError on an infinity and
    ValueError on NaN. *)
Definition int (a : num) : option Z :=
  match a with
  | Fin q => Some (Z.quot (Qnum q) (QDen q))
  | _ => None
  end.

(** [s.lower()] on the ASCII letters; the keyword tables of the program
    hold ASCII letters and CJK characters only, and layer names with other
    cased letters are outside this model. *)
Definition lower_ascii (c : ascii) : ascii :=
  let n := nat_of_ascii c in
  if ((65 <=? n) && (n <=? 90))%nat then ascii_of_nat (n + 32) else c.

Fixpoint lower (s : string) : string :=
  match s with
  | EmptyString => EmptyString
  | String c s' => String (lower_ascii c) (lower s')
  end.

(** [sub in s] on strings; UTF-8 is self-synchronising, so the test on
    bytes agrees with the test on code points. *)
Definition contains (sub s : string) : bool :=
  match index 0 sub s with
  | Some _ => true
  | None => false
  end.

(** [x in l] on a list of strings. *)
Definition mem (x : string) (l : list string) : bool :=
  existsb (String.eqb x) l.

(** [l.remove(x)]: the first occurrence goes (the program only removes
    elements that are present). *)
Fixpoint remove (x : string) (l : list string) : list string :=
  match l with
  | [] => []
  | y :: l' => if String.eqb x y then l' else y :: remove x l'
  end.

(** [list(set(l))]: the elements of [l] once each; Python leaves the order
    unspecified and nothing below depends on it. *)
Definition list_set (l : list string) : list string :=
  nodup string_dec l.

(** Dictionaries with string keys keep their insertion order:
    [d[k] = v], [d.get(k)] and [k in d]. *)
Fixpoint dict_set {V : Type} (d : list (string * V)) (k : string) (v : V)
  : list (string * V) :=
  match d with
  | [] => [(k, v)]
  | (k', v') :: d' =>
      if String.eqb k k' then (k, v) :: d' else (k', v') :: dict_set d' k v
  end.

Fixpoint dict_get {V : Type} (d : list (string * V)) (k : string) : option V :=
  match d with
  | [] => None
  | (k', v) :: d' => if String.eqb k k' then Some v else dict_get d' k
  end.

Definition has_key {V : Type} (d : list (string * V)) (k : string) : bool :=
  match dict_get d k with
  | Some _ => true
  | None => false
  end.

(** [d.get(k, 0)] on a dict of counters. *)
Definition get (d : list (string * Z)) (k : string) : Z :=
  match dict_get d k with
  | Some v => v
  | None => 0
  end.

End Py.

Notation "x <- m ;; k" := (Py.bind m (fun x => k))
  (at level 61, m at next level, right associativity).
Notation "' p <- m ;; k" := (Py.bind m (fun x => match x with p => k end))
  (at level 61, p pattern, m at next level, right associativity).

(** ** The drawing

    What the program reads through ezdxf: a layer table, the entities of
    the model space and the entity database.  An entity carries its layer
    name and the geometry its DXF type gives access to: [get_points()]
    exists on LWPOLYLINE only, a [vertices] list of vertex entities on
    POLYLINE only; every other type is [OTHER].  The boundary paths of a
    hatch are kept with their vertices; ezdxf gives them no attribute
    [is_polyline_path].  The field [entitydb] lists, in the order of
    [doc.entitydb.values()], the database entries that have a layer: the
    entities of the model space, and also VERTEX, SEQEND, BLOCK and ENDBLK
    entries and the entities of block definitions and paper space. *)

Module Dxf.

Definition point : Type := num * num.

Record hatch_path : Type := {
  path_vertices : list point
}.

Inductive entity : Type :=
| LINE (layer : string) (start end_ : point)
| LWPOLYLINE (layer : string) (is_closed : bool) (points : list point)
| POLYLINE (layer : string) (is_closed : bool) (vertices : list point)
| HATCH (layer : string) (paths : list hatch_path)
| CIRCLE (layer : string) (center : point) (radius : num)
| OTHER (dxftype : string) (layer : string).

Definition dxftype (e : entity) : string :=
  match e with
  | LINE _ _ _ => "LINE"
  | LWPOLYLINE _ _ _ => "LWPOLYLINE"
  | POLYLINE _ _ _ => "POLYLINE"
  | HATCH _ _ => "HATCH"
  | CIRCLE _ _ _ => "CIRCLE"
  | OTHER t _ => t
  end.

Definition entity_layer (e : entity) : string :=
  match e with
  | LINE l _ _ | LWPOLYLINE l _ _ | POLYLINE l _ _
  | HATCH l _ | CIRCLE l _ _ | OTHER _ l => l
  end.

Record layer : Type := {
  layer_name : string;
  layer_color : Z;
  layer_linetype : string
}.

Record document : Type := {
  layers : list layer;
  entities : list entity;
  entitydb : list entity
}.

(** [layers.add(name, color, linetype)]. *)
Definition new_layer (name : string) (color : Z) (linetype : string) : layer :=
  {| layer_name := name; layer_color := color; layer_linetype := linetype |}.

(** The layer table of [ezdxf.new()]: the layers ["0"] and ["Defpoints"]. *)
Definition ezdxf_new_layers : list layer :=
  [new_layer "0" 7 "Continuous"; new_layer "Defpoints" 7 "Continuous"].

(** What ezdxf puts into the entity database of a document it builds:
    [new_entitydb] are the layered entries of [ezdxf.new()] (the BLOCK and
    ENDBLK entries of the two layouts), [copies_entitydb] the entries that
    come with the copies of [transform.copies] once they are added to the
    model space (the copies and their VERTEX and SEQEND entries).  Every
    statement holds for all such behaviours. *)
Class Ezdxf : Type := {
  new_entitydb : list entity;
  copies_entitydb : list entity -> list entity
}.

End Dxf.

Export Dxf.

(** ** Layer classifier: [analyze_layers], [identify_wall_layers],
    [clean_layers] *)

Module Layers.

Local Open Scope string_scope.

Record layer_info : Type := {
  entity_types : list (string * Z);
  color : Z;
  is_on : bool;
  is_frozen : bool;
  linetype : string
}.

Definition layers_dict : Type := list (string * layer_info).

Definition default_info : layer_info :=
  {| entity_types := []; color := 7; is_on := true; is_frozen := false;
     linetype := "CONTINUOUS" |}.

(** The entry of a layer of the layer table.  [layer.is_off] and
    [layer.is_frozen] are methods of ezdxf's layer objects and the program
    does not call them: ['is_on'] is [not layer.is_off], which is [False],
    and ['is_frozen'] is the method itself, which is true wherever the
    program tests it. *)
Definition info_of_layer (l : layer) : layer_info :=
  {| entity_types := [];
     color := if (layer_color l >? 0)%Z then layer_color l else 7;
     is_on := false;
     is_frozen := true;
     linetype := layer_linetype l |}.

Definition count_entity (d : layers_dict) (e : entity) : layers_dict :=
  let layer_name := entity_layer e in
  let entity_type := dxftype e in
  let d := if Py.has_key d layer_name then d
           else Py.dict_set d layer_name default_info in
  match Py.dict_get d layer_name with
  | Some info =>
      let types := entity_types info in
      let types' :=
        if Py.has_key types entity_type
        then Py.dict_set types entity_type (Py.get types entity_type + 1)%Z
        else Py.dict_set types entity_type 1%Z in
      Py.dict_set d layer_name
        {| entity_types := types'; color := color info; is_on := is_on info;
           is_frozen := is_frozen info; linetype := linetype info |}
  | None => d
  end.

(** [analyze_layers(doc)]: the layer table first, then every entry of
    [doc.entitydb.values()] that has a layer. *)
Definition analyze_layers (doc : document) : layers_dict :=
  let layers_info :=
    fold_left (fun d l => Py.dict_set d (layer_name l) (info_of_layer l))
              (layers doc) [] in
  fold_left count_entity (entitydb doc) layers_info.

(** The keyword tables of [identify_wall_layers]. *)
Definition wall_keywords : list string :=
  ["WALL"; "wall"; "墙"; "墙体"; "A-WALL"; "S-WALL"; "WALX"; "ARCH-WALL"; "墙线";
   "QA"; "QZ"; "MQ"; "QIANG"; "BZ"; "隔墙"; "砖墙"; "柱";
   "建-墙"; "结构-墙"; "建筑-墙"; "剪力墙"; "承重墙"; "隔墙-砖墙"; "隔墙—砖墙"; "I—隔墙"].

Definition door_window_keywords : list string :=
  ["DOOR"; "door"; "门"; "A-DOOR"; "WINDOW"; "window"; "窗"; "A-WINDOW";
   "DOOR_WINDOW"; "OPENING"; "建-窗"; "建-门"; "I—平面—门"; "I-平面-窗"; "门窗"].

Definition room_keywords : list string :=
  ["ROOM"; "Room"; "room"; "房间"; "房"; "SPACE"; "Space"; "space"; "空间";
   "AREA"; "Area"; "area"; "区域"; "ARCH-ROOM"; "A-ROOM"; "A-ZONE"].

Definition text_keywords : list string :=
  ["TEXT"; "DIM"; "TITLE"; "标注"; "文字"; "标题"; "编号"; "图框"; "图例";
   "ANNOTATION"; "LABEL"; "NUMBER"; "NOTE"; "备注"; "MARK"; "符号"; "SYMBOL"].

Definition exclude_keywords : list string :=
  ["FURN"; "furniture"; "家具"; "DESK"; "TABLE"; "CHAIR"; "BED"; "SOFA";
   "桌"; "椅"; "床"; "沙发"; "柜"; "橱"; "移动家具"; "室-家具"; "MOVABLE";
   "EQUIP"; "EQUIPMENT"; "设备"; "洁具"; "卫生间"; "装饰"; "灯"; "灯具";
   "电气"; "ELEC"; "暖通"; "HVAC"; "给排水"; "PLUMBING"; "空调"; "AC"; "AIR";
   "地坪"; "踏步"; "栏杆"; "分隔"; "填充"; "轮廓线"; "面层线"; "平顶";
   "CEILING"; "天花"; "FLOOR"; "地面"; "STAIR"; "楼梯"; "RAILING"; "扶手";
   "DECORATION"; "装饰"; "FINISHING"; "饰面"; "PATTERN"; "图案";
   "GRID"; "轴网"; "COLUMN"; "柱"; "BEAM"; "梁";
   "LANDSCAPE"; "景观"; "VEGETATION"; "植被";
   "SITE"; "场地"; "LINE"; "线条"; "LAYOUT"; "布局"].

Definition check_keywords (name : string) (keywords : list string) : bool :=
  let name_lower := Py.lower name in
  existsb (fun keyword => Py.contains (Py.lower keyword) name_lower) keywords.

Definition is_text_layer (name : string) : bool :=
  check_keywords name text_keywords
  || Py.contains "文字" name || Py.contains "编号" name.

(** The structural room test shared by [is_room_layer] and by
    [extract_walls_and_rooms]; the short-circuit [or] keeps the divisor of
    [polyline_count / line_count] away from zero. *)
Definition room_by_entities (info : layer_info) : bool :=
  let entity_types := entity_types info in
  if (Py.has_key entity_types "LWPOLYLINE" || Py.has_key entity_types "POLYLINE"
      || Py.has_key entity_types "HATCH") && negb (is_frozen info)
  then
    let line_count := Py.get entity_types "LINE" in
    let polyline_count :=
      (Py.get entity_types "LWPOLYLINE" + Py.get entity_types "POLYLINE")%Z in
    let hatch_count := Py.get entity_types "HATCH" in
    ((polyline_count >? 5)%Z || (hatch_count >? 0)%Z)
    && ((line_count =? 0)%Z
        || (Num.div (of_Z polyline_count) (of_Z line_count) >? Fin (1 # 2))%num)
  else false.

Definition is_room_layer (name : string) (info : layer_info) : bool :=
  if check_keywords name room_keywords then true else room_by_entities info.

(** The five lists the classifier fills. *)
Record classification : Type := {
  wall_layers : list string;
  door_window_layers : list string;
  room_layers : list string;
  excluded_layers : list string;
  text_layers : list string
}.

Definition no_layers : classification :=
  {| wall_layers := []; door_window_layers := []; room_layers := [];
     excluded_layers := []; text_layers := [] |}.

Definition with_wall (c : classification) (w : list string) : classification :=
  {| wall_layers := w; door_window_layers := door_window_layers c;
     room_layers := room_layers c; excluded_layers := excluded_layers c;
     text_layers := text_layers c |}.

Definition with_door (c : classification) (d : list string) : classification :=
  {| wall_layers := wall_layers c; door_window_layers := d;
     room_layers := room_layers c; excluded_layers := excluded_layers c;
     text_layers := text_layers c |}.

Definition with_room (c : classification) (r : list string) : classification :=
  {| wall_layers := wall_layers c; door_window_layers := door_window_layers c;
     room_layers := r; excluded_layers := excluded_layers c;
     text_layers := text_layers c |}.

Definition with_excluded (c : classification) (e : list string) : classification :=
  {| wall_layers := wall_layers c; door_window_layers := door_window_layers c;
     room_layers := room_layers c; excluded_layers := e;
     text_layers := text_layers c |}.

Definition with_text (c : classification) (t : list string) : classification :=
  {| wall_layers := wall_layers c; door_window_layers := door_window_layers c;
     room_layers := room_layers c; excluded_layers := excluded_layers c;
     text_layers := t |}.

(** Step 1: text layers and room layers. *)
Definition pre_classify (c : classification) (item : string * layer_info)
  : classification :=
  let '(layer_name, info) := item in
  if is_text_layer layer_name then
    with_excluded (with_text c (text_layers c ++ [layer_name]))
                  (excluded_layers c ++ [layer_name])
  else if is_room_layer layer_name info then
    with_room c (room_layers c ++ [layer_name])
  else c.

(** Step 2: wall, door-window and excluded layers. *)
Definition main_classify (c : classification) (item : string * layer_info)
  : classification :=
  let '(layer_name, info) := item in
  if Py.mem layer_name (text_layers c) then c
  else if Py.contains "隔墙" layer_name || Py.contains "砖墙" layer_name
          || check_keywords layer_name wall_keywords then
    with_wall c (wall_layers c ++ [layer_name])
  else if check_keywords layer_name door_window_keywords
          && negb (is_text_layer layer_name) then
    with_door c (door_window_layers c ++ [layer_name])
  else if check_keywords layer_name exclude_keywords
          && negb (check_keywords layer_name wall_keywords) then
    with_excluded c (excluded_layers c ++ [layer_name])
  else if existsb (fun keyword => Py.contains keyword layer_name)
            ["灯"; "洁具"; "栏杆"; "踏步"; "暖通";
             (if negb (Py.contains "墙" layer_name) then "隔断" else "");
             "家具"] then
    with_excluded c (excluded_layers c ++ [layer_name])
  else
    let entity_types := entity_types info in
    let line_count :=
      (Py.get entity_types "LINE" + Py.get entity_types "LWPOLYLINE"
       + Py.get entity_types "POLYLINE")%Z in
    let text_count :=
      (Py.get entity_types "TEXT" + Py.get entity_types "MTEXT")%Z in
    if (line_count >? 20)%Z
       && ((text_count =? 0)%Z
           || (Num.div (of_Z line_count) (of_Z text_count) >? of_Z 10)%num)
       && is_on info && negb (is_frozen info)
    then with_wall c (wall_layers c ++ [layer_name])
    else with_excluded c (excluded_layers c ++ [layer_name]).

(** Step 3: partition-wall layers come back from the excluded list. *)
Definition restore_wall (c : classification) (layer_name : string)
  : classification :=
  if Py.contains "隔墙" layer_name || Py.contains "砖墙" layer_name then
    let c := with_excluded c (Py.remove layer_name (excluded_layers c)) in
    if negb (Py.mem layer_name (wall_layers c))
    then with_wall c (wall_layers c ++ [layer_name])
    else c
  else c.

(** Step 4: consistency of the wall list, then of the door-window list. *)
Definition demote_wall (c : classification) (layer_name : string)
  : classification :=
  if is_text_layer layer_name
     || (Py.mem layer_name (excluded_layers c)
         && negb (Py.contains "隔墙" layer_name)
         && negb (Py.contains "砖墙" layer_name)) then
    let c := with_wall c (Py.remove layer_name (wall_layers c)) in
    if negb (Py.mem layer_name (excluded_layers c))
    then with_excluded c (excluded_layers c ++ [layer_name])
    else c
  else c.

Definition demote_door (c : classification) (layer_name : string)
  : classification :=
  if Py.mem layer_name (excluded_layers c) then
    with_door c (Py.remove layer_name (door_window_layers c))
  else if is_text_layer layer_name then
    let c := with_door c (Py.remove layer_name (door_window_layers c)) in
    if negb (Py.mem layer_name (excluded_layers c))
    then with_excluded c (excluded_layers c ++ [layer_name])
    else c
  else c.

(** The lists of [identify_wall_layers] when it reaches its [return]: each
    loop runs over a snapshot ([list(...)]) of the list it edits. *)
Definition classify (layers_info : layers_dict) : classification :=
  let c := fold_left pre_classify layers_info no_layers in
  let c := fold_left main_classify layers_info c in
  let c := fold_left restore_wall (excluded_layers c) c in
  let c := fold_left demote_wall (wall_layers c) c in
  fold_left demote_door (door_window_layers c) c.

Definition identify_wall_layers (layers_info : layers_dict) : list string :=
  let c := classify layers_info in
  Py.list_set (wall_layers c ++ door_window_layers c).

(** [clean_layers(doc, keep_layers)] first edits [keep_layers] in place. *)
Definition keep_with_default (keep_layers : list string) : list string :=
  if negb (Py.mem "0" keep_layers) then keep_layers ++ ["0"] else keep_layers.

Definition find_layer (doc : document) (name : string) : option layer :=
  find (fun l => String.eqb (layer_name l) name) (layers doc).

Definition copy_layer (doc : document) (table : list layer) (name : string)
  : list layer :=
  match find_layer doc name with
  | Some source_layer =>
      if negb (String.eqb name "0")
         && negb (existsb (fun l => String.eqb (layer_name l) name) table)
      then table ++ [new_layer name
                       (if (layer_color source_layer >? 0)%Z
                        then layer_color source_layer else 7)
                       (layer_linetype source_layer)]
      else table
  | None => table
  end.

(** The new document of [clean_layers]: the kept layer definitions and,
    through [transform.copies], the entities of the kept layers. *)
Definition clean_layers `{Ezdxf} (doc : document) (keep_layers : list string)
  : document :=
  let keep_layers := keep_with_default keep_layers in
  let entities_to_copy :=
    filter (fun e => Py.mem (entity_layer e) keep_layers) (entities doc) in
  {| layers := fold_left (copy_layer doc) keep_layers ezdxf_new_layers;
     entities := entities_to_copy;
     entitydb := new_entitydb ++ copies_entitydb entities_to_copy |}.

(** [preprocess_dwg]: [None] is the [return None] of its [except] branch,
    reached here through the cleaning-rate log line, which divides by the
    number of entities of the drawing. *)
Definition preprocess_dwg `{Ezdxf} (doc : document) : option document :=
  let layers_info := analyze_layers doc in
  let relevant_layers := identify_wall_layers layers_info in
  let original_entities := List.length (entities doc) in
  let cleaned_doc := clean_layers doc relevant_layers in
  if (original_entities =? 0)%nat then None else Some cleaned_doc.

End Layers.

Export Layers.

(** ** Extents and room validity *)

Module Extents.

Definition polygon : Type := list point.
Definition segment : Type := (point * point)%type.
Definition wall : Type := list segment.

(** [(min_x, min_y, max_x, max_y)] *)
Definition extents : Type := (num * num * num * num)%type.

(** The accumulators start at [float('inf')] and [float('-inf')]. *)
Definition empty_extents : extents := (PInf, PInf, NInf, NInf).

Definition default_extents : extents := (of_Z 0, of_Z 0, of_Z 1000, of_Z 1000).

Definition grow (e : extents) (p : point) : extents :=
  let '(min_x, min_y, max_x, max_y) := e in
  (Py.min min_x (fst p), Py.min min_y (snd p),
   Py.max max_x (fst p), Py.max max_y (snd p)).

(** One entity of [get_drawing_extents]: the extents and [entity_count]. *)
Definition extend_by_entity (acc : extents * nat) (e : entity) : extents * nat :=
  let '(ext, entity_count) := acc in
  match e with
  | LWPOLYLINE _ _ points =>
      (fold_left grow points ext, (entity_count + List.length points)%nat)
  | CIRCLE _ center radius =>
      let '(min_x, min_y, max_x, max_y) := ext in
      ((Py.min min_x (fst center - radius)%num,
        Py.min min_y (snd center - radius)%num,
        Py.max max_x (fst center + radius)%num,
        Py.max max_y (snd center + radius)%num),
       (entity_count + 1)%nat)
  | POLYLINE _ _ vertices =>
      (fold_left grow vertices ext, (entity_count + List.length vertices)%nat)
  | _ => acc
  end.

(** [get_drawing_extents(modelspace)]: [None] is Python's [None]. *)
Definition get_drawing_extents (modelspace : list entity) : option extents :=
  let '(ext, entity_count) :=
    fold_left extend_by_entity modelspace (empty_extents, 0%nat) in
  if (entity_count =? 0)%nat then None else Some ext.

(** [is_valid_room(vertices, min_area)]: the shoelace area against the
    threshold. *)
Definition shoelace (vertices : list point) : num :=
  let n := List.length vertices in
  fold_left
    (fun area i =>
       let j := ((i + 1) mod n)%nat in
       let vi := nth i vertices (of_Z 0, of_Z 0) in
       let vj := nth j vertices (of_Z 0, of_Z 0) in
       (area + fst vi * snd vj - fst vj * snd vi)%num)
    (seq 0 n) (of_Z 0).

Definition is_valid_room (vertices : list point) (min_area : num) : bool :=
  if (List.length vertices <? 3)%nat then false
  else
    let area := Num.div (Num.abs (shoelace vertices)) (of_Z 2) in
    (area >=? min_area)%num.

(** The extents loop of [convert_walls_to_image]:
    [min_x = min(min_x, start[0], end[0])] and so on. *)
Definition grow_segment (e : extents) (s : segment) : extents :=
  let '(min_x, min_y, max_x, max_y) := e in
  let '(start, end_) := s in
  (Py.min (Py.min min_x (fst start)) (fst end_),
   Py.min (Py.min min_y (snd start)) (snd end_),
   Py.max (Py.max max_x (fst start)) (fst end_),
   Py.max (Py.max max_y (snd start)) (snd end_)).

Definition walls_extents (walls : list wall) : extents :=
  fold_left (fun e w => fold_left grow_segment w e) walls empty_extents.

(** The extents block of [extract_walls_and_rooms] for the layer rooms. *)
Definition rooms_extents (rooms_from_layers : list polygon) : option extents :=
  match rooms_from_layers with
  | [] => None
  | _ =>
      let '(min_x, min_y, max_x, max_y) :=
        fold_left (fun e room => fold_left grow room e)
                  rooms_from_layers empty_extents in
      if (min_x <? PInf)%num && (min_y <? PInf)%num
         && (max_x >? NInf)%num && (max_y >? NInf)%num
      then Some (min_x, min_y, max_x, max_y)
      else None
  end.

(** Truth value of a variable holding [None] or a 4-tuple. *)
Definition truthy (e : option extents) : bool :=
  match e with
  | Some _ => true
  | None => false
  end.

(** The choice at the end of [extract_walls_and_rooms]. *)
Definition choose_room_wall_extents
  (extents_from_rooms extents_from_walls : option extents) : extents :=
  match extents_from_rooms with
  | Some e => e
  | None =>
      match extents_from_walls with
      | Some e => e
      | None => default_extents
      end
  end.

(** The choice in [extract_rooms_from_dwg]; its [extents_from_walls] is the
    third result of [extract_walls_and_rooms]. *)
Definition choose_final_extents
  (extents_from_drawing extents_from_walls : option extents) : extents :=
  match extents_from_drawing with
  | Some e => e
  | None =>
      match extents_from_walls with
      | Some e => e
      | None => default_extents
      end
  end.

(** Step 5 of [extract_walls_and_rooms]. *)
Definition reconcile (rooms_from_layers rooms_from_walls : list polygon)
  : list polygon :=
  let all_rooms : list polygon := [] in
  let all_rooms :=
    match rooms_from_layers with
    | [] => all_rooms
    | _ => all_rooms ++ rooms_from_layers
    end in
  if (List.length all_rooms <? 3)%nat
     && negb (match rooms_from_walls with [] => true | _ => false end)
  then all_rooms ++ rooms_from_walls
  else all_rooms.

End Extents.

Export Extents.

(** ** Rasterizer and raster room detector *)

Module Raster.

(** A grey-level or label image: rows of pixels, indexed [img[y, x]]; the
    program only builds square images of side [img.shape[0]]. *)
Definition image : Type := list (list Z).

Definition np_zeros (img_size : nat) : image :=
  repeat (repeat 0 img_size) img_size.

Definition pixel (img : image) (y x : nat) : Z :=
  nth x (nth y img []) 0.

(** What [measure.regionprops] reports for one connected component. *)
Record region : Type := {
  label : Z;
  area : Z;
  perimeter : num
}.

(** A contour of [measure.find_contours]: [(row, column)] pairs. *)
Definition contour : Type := list (num * num).

(** The calls into OpenCV and scikit-image. *)
Class CvOps : Type := {
  (** [cv2.line(img, p, q, color, thickness)] *)
  cv2_line : image -> Z * Z -> Z * Z -> Z -> Z -> image;
  (** [cv2.morphologyEx(img, cv2.MORPH_CLOSE, np.ones((3, 3)))] *)
  cv2_morph_close : image -> image;
  (** [measure.label(img, connectivity=2)] *)
  measure_label : image -> image;
  (** [measure.regionprops(labeled_img)] *)
  measure_regionprops : image -> list region;
  (** [measure.find_contours(labeled_img == label, 0.5)] *)
  measure_find_contours : image -> Z -> list contour;
  (** [cv2.approxPolyDP(contour, epsilon, True)] on the vertex list *)
  cv2_approxPolyDP : polygon -> num -> polygon
}.

Fixpoint fold_raise {A B : Type} (f : A -> B -> option A) (l : list B) (a : A)
  : option A :=
  match l with
  | [] => Some a
  | b :: l' => a' <- f a b ;; fold_raise f l' a'
  end.

Fixpoint map_raise {A B : Type} (f : A -> option B) (l : list A)
  : option (list B) :=
  match l with
  | [] => Some []
  | a :: l' => b <- f a ;; bs <- map_raise f l' ;; Some (b :: bs)
  end.

(** [int((c - lo) / (hi - lo + 1e-10) * (img_size - 1))] *)
Definition to_pixel (c lo hi : num) (img_size : nat) : option Z :=
  r <- Py.div (c - lo)%num (hi - lo + Fin (1 # 10000000000))%num ;;
  Py.int (r * of_Z (Z.of_nat img_size - 1))%num.

Definition draw_segment `{CvOps} (ext : extents) (img_size : nat) (line_thickness : Z)
  (img : image) (s : segment) : option image :=
  let '(min_x, min_y, max_x, max_y) := ext in
  let '(start, end_) := s in
  start_x <- to_pixel (fst start) min_x max_x img_size ;;
  start_y <- to_pixel (snd start) min_y max_y img_size ;;
  end_x <- to_pixel (fst end_) min_x max_x img_size ;;
  end_y <- to_pixel (snd end_) min_y max_y img_size ;;
  Some (cv2_line img (start_x, start_y) (end_x, end_y) 255 line_thickness).

(** [convert_walls_to_image(walls, img_size)] with [line_thickness=5]. *)
Definition convert_walls_to_image `{CvOps} (walls : list wall) (img_size : nat)
  : option (image * extents) :=
  let ext := walls_extents walls in
  let img := np_zeros img_size in
  img <- fold_raise (fun img w => fold_raise (draw_segment ext img_size 5) w img)
                    walls img ;;
  Some (img, ext).

(** [filled_img = np.ones_like(img); filled_img[img > 0] = 0] *)
Definition invert (img : image) : image :=
  map (map (fun v => if v >? 0 then 0 else 1)) img.

(** The set [edge_labels]. *)
Definition set_add (l : Z) (s : list Z) : list Z :=
  if existsb (Z.eqb l) s then s else s ++ [l].

Definition set_mem (l : Z) (s : list Z) : bool := existsb (Z.eqb l) s.

Definition add_if_floor (labeled_img : image) (y x : nat) (s : list Z) : list Z :=
  if pixel labeled_img y x >? 0 then set_add (pixel labeled_img y x) s else s.

Definition edge_labels (labeled_img : image) (img_size : nat) : list Z :=
  let s :=
    fold_left
      (fun s x => add_if_floor labeled_img (img_size - 1) x
                    (add_if_floor labeled_img 0 x s))
      (seq 0 img_size) [] in
  fold_left
    (fun s y => add_if_floor labeled_img y (img_size - 1)
                  (add_if_floor labeled_img y 0 s))
    (seq 0 img_size) s.

(** Filter 1: the two area tests. *)
Definition area_rejected (min_room_area_pixels max_room_area_pixels area : Z)
  : bool :=
  (area <? min_room_area_pixels) || (area >? max_room_area_pixels).

(** Filter 3.  [np.pi] is the double nearest to pi and [0.03] is read as
    3/100.  The division of the compactness formula is written with its
    failure case: [None] is a division by zero. *)
Definition np_pi : num := Fin (884279719003555 # 281474976710656).

Definition compactness (area : Z) (perimeter : num) : option num :=
  Py.div (of_Z 4 * np_pi * of_Z area)%num (perimeter * perimeter)%num.

Definition shape_rejected (area : Z) (perimeter : num) : option bool :=
  if (perimeter >? of_Z 0)%num then
    c <- compactness area perimeter ;;
    Some (c <? Fin (3 # 100))%num
  else Some false.

(** [max(contours, key=len)]: the first contour of greatest length. *)
Fixpoint longest_from (best : contour) (rest : list contour) : contour :=
  match rest with
  | [] => best
  | c :: rest' =>
      if (List.length best <? List.length c)%nat
      then longest_from c rest'
      else longest_from best rest'
  end.

(** Pixel coordinates back to drawing coordinates; the contour points are
    NumPy floats, so the division follows IEEE. *)
Definition to_drawing (ext : extents) (img_size : nat) (yx : num * num) : point :=
  let '(min_x, min_y, max_x, max_y) := ext in
  let '(y, x) := yx in
  let d := of_Z (Z.of_nat img_size - 1) in
  ((min_x + Num.div x d * (max_x - min_x))%num,
   (min_y + Num.div y d * (max_y - min_y))%num).

(** [simplify_polygon(points, tolerance)]; the conversion to [float32]
    belongs to the OpenCV call. *)
Definition simplify_polygon `{CvOps} (points : polygon) (tolerance : num) : polygon :=
  let epsilon := tolerance in
  cv2_approxPolyDP points epsilon.

(** Filter 4: the vertex count after simplification. *)
Definition vertices_rejected (room_poly : polygon) : bool :=
  (List.length room_poly <? 3)%nat || (100 <? List.length room_poly)%nat.

(** What the loop body of [identify_rooms] does with one region: one of
    the four filters drops it, or it has no contour, or its polygon is
    appended to [rooms].  The program counts filter 1 in [area_filtered],
    filter 2 in [edge_filtered] and both filter 3 ([ShapeFiltered]) and
    filter 4 ([VerticesFiltered]) in [shape_filtered]. *)
Inductive outcome : Type :=
| AreaFiltered
| EdgeFiltered
| ShapeFiltered
| VerticesFiltered
| NoContour
| Kept (label : Z) (room_poly : polygon).

Definition region_outcome `{CvOps} (labeled_img : image) (ext : extents)
  (img_size : nat) (min_room_area_pixels max_room_area_pixels : Z)
  (edges : list Z) (prop : region) : option outcome :=
  let area := area prop in
  let label := label prop in
  if area_rejected min_room_area_pixels max_room_area_pixels area
  then Some AreaFiltered
  else if set_mem label edges then Some EdgeFiltered
  else
    rejected <- shape_rejected area (perimeter prop) ;;
    if (rejected : bool) then Some ShapeFiltered
    else
      match measure_find_contours labeled_img label with
      | [] => Some NoContour
      | c :: contours =>
          let longest_contour := longest_from c contours in
          let room_poly := map (to_drawing ext img_size) longest_contour in
          let tolerance := if area >? 5000 then of_Z 2 else of_Z 1 in
          let room_poly :=
            if (3 <? List.length room_poly)%nat
            then simplify_polygon room_poly tolerance
            else room_poly in
          if vertices_rejected room_poly then Some VerticesFiltered
          else Some (Kept label room_poly)
      end.

Definition kept_rooms (outcomes : list outcome) : list (Z * polygon) :=
  flat_map (fun o => match o with
                     | Kept l p => [(l, p)]
                     | _ => []
                     end) outcomes.

(** The labelled floor mask of [identify_rooms]. *)
Definition labeled_floor `{CvOps} (img : image) : image :=
  measure_label (cv2_morph_close (invert img)).

(** The two area thresholds in pixels; the literal [0.6] is read as 3/5. *)
Definition min_pixels (min_room_area : num) (img_size : nat) : option Z :=
  Py.int (Num.div min_room_area (of_Z 100) * of_nat (img_size * img_size))%num.

Definition max_pixels (max_room_area : option num) (img_size : nat) : option Z :=
  match max_room_area with
  | None => Py.int (Fin (3 # 5) * of_nat img_size * of_nat img_size)%num
  | Some m => Py.int (Num.div m (of_Z 100) * of_nat (img_size * img_size))%num
  end.

(** [identify_rooms], every polygon with the label of its component. *)
Definition identify_rooms_labelled `{CvOps} (img : image) (ext : extents)
  (min_room_area : num) (max_room_area : option num)
  : option (list (Z * polygon)) :=
  let '(min_x, min_y, max_x, max_y) := ext in
  let img_size := List.length img in
  let total_area := ((max_x - min_x) * (max_y - min_y))%num in
  pixel_area_ratio <- Py.div total_area (of_nat (img_size * img_size)) ;;
  min_room_area_pixels <- min_pixels min_room_area img_size ;;
  max_room_area_pixels <- max_pixels max_room_area img_size ;;
  let labeled_img := labeled_floor img in
  let props := measure_regionprops labeled_img in
  let edges := edge_labels labeled_img img_size in
  outcomes <- map_raise (region_outcome labeled_img ext img_size
                           min_room_area_pixels max_room_area_pixels edges)
                        props ;;
  Some (kept_rooms outcomes).

Definition identify_rooms `{CvOps} (img : image) (ext : extents)
  (min_room_area : num) (max_room_area : option num) : option (list polygon) :=
  rooms <- identify_rooms_labelled img ext min_room_area max_room_area ;;
  Some (map snd rooms).

(** Pixel [(y, x)] of the labelled floor mask belongs to the connected
    component [l]: the components carry the positive labels, 0 is wall. *)
Definition component_pixel (labeled_img : image) (y x : nat) (l : Z) : Prop :=
  0 < l /\ pixel labeled_img y x = l.

(** Component [l] has a pixel on row 0, row [img_size - 1], column 0 or
    column [img_size - 1]. *)
Definition touches_border (labeled_img : image) (img_size : nat) (l : Z) : Prop :=
  exists i : nat,
    (i < img_size)%nat
    /\ (component_pixel labeled_img 0 i l
        \/ component_pixel labeled_img (img_size - 1) i l
        \/ component_pixel labeled_img i 0 l
        \/ component_pixel labeled_img i (img_size - 1) l).

End Raster.

Export Raster.

(** ** The drivers: [extract_walls_and_rooms], [extract_rooms_from_dwg] *)

Module Pipeline.

Local Open Scope string_scope.

(** The room layers as [extract_walls_and_rooms] recomputes them. *)
Definition room_name_keywords : list string :=
  ["room"; "room"; "房间"; "房"; "space"; "space"; "空间";
   "area"; "area"; "区域"; "arch-room"; "a-room"; "a-zone"].

Definition find_room_layers (layers_info : layers_dict) : list string :=
  fold_left
    (fun room_layers item =>
       let '(layer_name, info) := item in
       if existsb (fun keyword => Py.contains keyword (Py.lower layer_name))
                  room_name_keywords
       then (room_layers ++ [layer_name])%list
       else if room_by_entities info then (room_layers ++ [layer_name])%list
       else room_layers)
    layers_info [].

(** Step 1: rooms drawn on the room layers, over
    [msp.query('LWPOLYLINE POLYLINE HATCH')].  On a hatch the loop over
    [entity.paths] reads [path.is_polyline_path], which no boundary path of
    ezdxf has: the AttributeError of the first path is caught by the
    [except] of the branch, so a hatch gives no room, with or without
    paths. *)
Definition rooms_of_entity (room_layers : list string) (min_room_area : num)
  (e : entity) : list polygon :=
  if Py.mem (entity_layer e) room_layers then
    match e with
    | LWPOLYLINE _ is_closed points =>
        if is_closed
           && (3 <=? List.length points)%nat && is_valid_room points min_room_area
        then [points] else []
    | POLYLINE _ is_closed points =>
        if is_closed
           && (3 <=? List.length points)%nat && is_valid_room points min_room_area
        then [points] else []
    | HATCH _ paths =>
        match paths with
        | [] => []
        | _ :: _ => []
        end
    | _ => []
    end
  else [].

Definition layer_rooms (doc : document) (min_room_area : num) : list polygon :=
  match find_room_layers (analyze_layers doc) with
  | [] => []
  | room_layers =>
      flat_map (rooms_of_entity room_layers min_room_area) (entities doc)
  end.

(** Step 2: the wall lines, over [msp.query('LINE LWPOLYLINE POLYLINE')]. *)
Definition furniture_equipment_keywords : list string :=
  ["家具"; "FURN"; "furniture"; "设备"; "EQUIP"; "equipment";
   "标注"; "TEXT"; "text"; "ANNO"; "annotation"; "轴网";
   "GRID"; "grid"; "灯具"; "LIGHT"; "卫生"; "TOILET";
   "PLUMB"; "管道"; "PIPE"; "电气"; "ELEC"].

Definition find_exclude_layers (layers_info : layers_dict) : list string :=
  map fst
    (filter (fun item =>
               existsb (fun keyword => Py.contains keyword (fst item))
                       furniture_equipment_keywords)
            layers_info).

Fixpoint consecutive (points : list point) : list segment :=
  match points with
  | p :: ((q :: _) as rest) => (p, q) :: consecutive rest
  | _ => []
  end.

Definition polyline_segments (is_closed : bool) (points : list point) : list wall :=
  if (2 <=? List.length points)%nat then
    let segments := consecutive points in
    let segments :=
      if is_closed
      then (segments ++ [(last points (of_Z 0, of_Z 0), hd (of_Z 0, of_Z 0) points)])%list
      else segments in
    [segments]
  else [].

Definition walls_of_entity (exclude_layers : list string) (e : entity) : list wall :=
  if Py.mem (entity_layer e) exclude_layers then []
  else
    match e with
    | LINE _ start end_ => [[(start, end_)]]
    | LWPOLYLINE _ is_closed points => polyline_segments is_closed points
    | POLYLINE _ is_closed points => polyline_segments is_closed points
    | _ => []
    end.

Definition collect_walls (doc : document) : list wall :=
  flat_map (walls_of_entity (find_exclude_layers (analyze_layers doc)))
           (entities doc).

(** [extract_walls_and_rooms(doc, min_room_area, img_size)] returns
    [(walls, all_rooms, final_extents)].  Its call of
    [identify_wall_layers] has no effect on the results and is left out,
    as is the logging. *)
Definition extract_walls_and_rooms `{CvOps} (doc : document) (min_room_area : num)
  (img_size : nat) : option (list wall * list polygon * extents) :=
  let rooms_from_layers := layer_rooms doc min_room_area in
  let extents_from_rooms := rooms_extents rooms_from_layers in
  let walls := collect_walls doc in
  ' (walls_img, extents_from_walls) <- convert_walls_to_image walls img_size ;;
  rooms_from_walls <- identify_rooms walls_img extents_from_walls min_room_area None ;;
  let all_rooms := reconcile rooms_from_layers rooms_from_walls in
  let final_extents :=
    choose_room_wall_extents extents_from_rooms (Some extents_from_walls) in
  Some (walls, all_rooms, final_extents).

(** [extract_rooms_from_dwg] on a DXF document, from the preprocessing on;
    it returns [(rooms, final_extents)].  Reading and converting files and
    writing previews and per-room files are outside the model.  When
    [preprocess_dwg] returns [None] the program reads the input file again
    and goes on with the drawing as it is. *)
Definition preprocessed `{Ezdxf} (doc : document) : document :=
  match preprocess_dwg doc with
  | Some d => d
  | None => doc
  end.

Definition extract_rooms_from_dwg `{Ezdxf} `{CvOps} (doc : document)
  (img_size : nat)
  (min_room_area : num) : option (list polygon * extents) :=
  let preprocessed_doc := preprocessed doc in
  ' (walls, rooms, extents_from_walls) <-
      extract_walls_and_rooms preprocessed_doc min_room_area img_size ;;
  let extents_from_drawing := get_drawing_extents (entities preprocessed_doc) in
  let final_extents :=
    choose_final_extents extents_from_drawing (Some extents_from_walls) in
  Some (rooms, final_extents).

(** The extents of a run as a function of the three sources of
    [extract_rooms_from_dwg]. *)
Definition run_extents (extents_from_drawing extents_from_rooms
                        extents_from_walls : option extents) : extents :=
  choose_final_extents extents_from_drawing
    (Some (choose_room_wall_extents extents_from_rooms extents_from_walls)).

(** The first available source of a priority list, else the fallback. *)
Fixpoint first_available (sources : list (option extents)) (fallback : extents)
  : extents :=
  match sources with
  | [] => fallback
  | Some e :: _ => e
  | None :: rest => first_available rest fallback
  end.


End Pipeline.

Export Pipeline.

(** ** Vector room assembler ([extract_skeleton_1.py]) *)

Module Vector.

Local Open Scope string_scope.

(** The calls into Shapely. *)
Class Shapely : Type := {
  geom : Type;
  face : Type;
  (** [LineString(points)] *)
  LineString : list point -> geom;
  (** [a.intersects(b)], [a.difference(b)], [a.is_empty] *)
  intersects : geom -> geom -> bool;
  difference : geom -> geom -> geom;
  is_empty : geom -> bool;
  (** [g.geom_type] and [list(g.geoms)] *)
  geom_type : geom -> string;
  geoms : geom -> list geom;
  (** [unary_union(lines)] and [list(polygonize(g))] *)
  unary_union : list geom -> geom;
  polygonize : geom -> list face
}.

(** [entity_to_lines(ent)] of [extract_skeleton_1.py].  The outer [option]
    is the exception, the inner one Python's [None].  The points of
    [get_points()] are tuples and [p[:2]] is the pair of the first two
    coordinates; [ent.dxf.start], [ent.dxf.end] and [v.dxf.location] are
    ezdxf vectors, which refuse a slice with a TypeError: the function
    raises on every LINE and on every POLYLINE that has a vertex. *)
Definition entity_to_lines `{Shapely} (ent : entity) : option (option geom) :=
  match ent with
  | LINE _ a b => None
  | LWPOLYLINE _ _ pts =>
      if (2 <=? List.length pts)%nat then Some (Some (LineString pts))
      else Some None
  | POLYLINE _ _ vertices =>
      match vertices with
      | [] => Some None
      | _ :: _ => None
      end
  | _ => Some None
  end.

(** [[l for l in (entity_to_lines(e) for e in ents) if l]]: a geometry is
    true when it is not empty; an exception of [entity_to_lines] leaves the
    comprehension. *)
Fixpoint lines_of `{Shapely} (ents : list entity) : option (list geom) :=
  match ents with
  | [] => Some []
  | e :: rest =>
      l <- entity_to_lines e ;;
      lines <- lines_of rest ;;
      Some (match l with
            | Some l => if is_empty l then lines else l :: lines
            | None => lines
            end)
  end.

(** The inner loop of [remove_doors_from_walls], with its [break]. *)
Fixpoint cut_wall `{Shapely} (geom0 : geom) (door_lines : list geom) : geom :=
  match door_lines with
  | [] => geom0
  | d :: rest =>
      if intersects geom0 d then
        let geom1 := difference geom0 d in
        if is_empty geom1 then geom1 else cut_wall geom1 rest
      else cut_wall geom0 rest
  end.

(** What one cut wall adds to [result]. *)
Definition residue `{Shapely} (g : geom) : list geom :=
  if is_empty g then []
  else if String.eqb (geom_type g) "LineString" then [g]
  else if String.eqb (geom_type g) "MultiLineString" then geoms g
  else [].

Definition remove_doors_from_lines `{Shapely} (wall_lines door_lines : list geom)
  : list geom :=
  flat_map (fun w => residue (cut_wall w door_lines)) wall_lines.

Definition remove_doors_from_walls `{Shapely} (wall_ents door_ents : list entity)
  : option (list geom) :=
  wall_lines <- lines_of wall_ents ;;
  door_lines <- lines_of door_ents ;;
  Some (remove_doors_from_lines wall_lines door_lines).

(** [associate_walls(wall_lines)] returns [(polys, unioned)]. *)
Definition associate_walls `{Shapely} (wall_lines : list geom) : list face * geom :=
  let unioned := unary_union wall_lines in
  (polygonize unioned, unioned).

(** [main]: the closed polygons of a drawing's walls and doors. *)
Definition closed_polygons `{Shapely} (walls doors : list entity)
  : option (list face) :=
  clean_walls <- remove_doors_from_walls walls doors ;;
  Some (fst (associate_walls clean_walls)).

(** The door removal in the words of the specification: the successive
    set-difference of a wall line with every door line it intersects. *)
Definition spec_successive_difference `{Shapely} (w : geom) (door_lines : list geom)
  : geom :=
  fold_left (fun g d => if intersects g d then difference g d else g) door_lines w.

End Vector.

Export Vector.

(** ** Concrete drawings and library behaviours used in the examples *)

Module Demo.

Local Open Scope string_scope.

Definition pt (x y : Z) : point := (of_Z x, of_Z y).

(** The database entries of the two layouts of a document. *)
Definition layout_blocks : list entity :=
  [OTHER "BLOCK" "0"; OTHER "ENDBLK" "0"; OTHER "BLOCK" "0"; OTHER "ENDBLK" "0"].

(** An entity with the database entries of its vertices. *)
Definition with_sub_entities (e : entity) : list entity :=
  match e with
  | POLYLINE l _ vertices =>
      (e :: map (fun _ => OTHER "VERTEX" l) vertices ++ [OTHER "SEQEND" l])%list
  | _ => [e]
  end.

(** A drawing without block definitions and with an empty paper space. *)
Definition drawing (table : list layer) (modelspace : list entity) : document :=
  {| layers := table;
     entities := modelspace;
     entitydb := (layout_blocks ++ flat_map with_sub_entities modelspace)%list |}.

(** The database of a document that ezdxf builds, on the same lines. *)
Definition plain_ezdxf : Ezdxf :=
  {| new_entitydb := layout_blocks;
     copies_entitydb := flat_map with_sub_entities |}.

(** A drawing with the default layer and nothing drawn. *)
Definition empty_drawing : document :=
  drawing [new_layer "0" 7 "Continuous"] [].

(** A hatch around a 4 x 4 square and one wall line, both on the layer
    ["WALL-ROOM"], which is a wall layer and a room layer by its name:
    neither entity has [get_points] or [vertices]. *)
Definition hatch_and_line : document :=
  drawing [new_layer "0" 7 "Continuous"; new_layer "WALL-ROOM" 1 "Continuous"]
          [HATCH "WALL-ROOM"
                 [{| path_vertices := [pt 0 0; pt 4 0; pt 4 4; pt 0 4] |}];
           LINE "WALL-ROOM" (pt (-10) (-10)) (pt 10 10)].

(** Wall lines alone, on a wall layer: nothing counts for the drawing
    extents. *)
Definition two_wall_lines : document :=
  drawing [new_layer "0" 7 "Continuous"; new_layer "A-WALL" 1 "Continuous"]
          [LINE "A-WALL" (pt (-10) (-10)) (pt 10 10);
           LINE "A-WALL" (pt 0 5) (pt 20 5)].

(** One line of the model space on the layer ["PLAN"], which the layer
    table does not define, and a block definition with 21 more lines on
    that layer. *)
Definition lines_in_a_block : document :=
  {| layers := [new_layer "0" 7 "Continuous"];
     entities := [LINE "PLAN" (pt 0 0) (pt 10 0)];
     entitydb :=
       (layout_blocks ++ [LINE "PLAN" (pt 0 0) (pt 10 0)]
        ++ [OTHER "BLOCK" "0"] ++ repeat (LINE "PLAN" (pt 0 0) (pt 1 0)) 21
        ++ [OTHER "ENDBLK" "0"])%list |}.

(** Three rooms drawn as closed polylines on the layer ["WALL-ROOM"]. *)
Definition square (x y : Z) : entity :=
  LWPOLYLINE "WALL-ROOM" true
    [pt x y; pt (x + 4) y; pt (x + 4) (y + 4); pt x (y + 4)].

Definition three_polyline_rooms : document :=
  drawing [new_layer "0" 7 "Continuous"; new_layer "WALL-ROOM" 1 "Continuous"]
          [square 0 0; square 10 0; square 20 0].

Definition count_floor (img : image) : Z :=
  fold_left (fun n row => fold_left (fun n v => if v >? 0 then n + 1 else n)%Z row n)
            img 0%Z.

(** A stand-in for the image libraries that draws no line: the mask holds
    no wall pixel, closing changes nothing, the whole mask is the
    component 1, and it has no interior contour.  The examples use it where
    the raster rooms play no part in the stated result. *)
Definition wall_free_backend : CvOps :=
  {| cv2_line := fun img _ _ _ _ => img;
     cv2_morph_close := fun img => img;
     measure_label := fun img => img;
     measure_regionprops := fun img =>
       if (count_floor img >? 0)%Z
       then [{| label := 1; area := count_floor img;
                perimeter := of_Z (4 * (Z.of_nat (List.length img) - 1)) |}]
       else [];
     measure_find_contours := fun _ _ => [];
     cv2_approxPolyDP := fun p _ => p |}.

(** A 7 x 7 wall image: a closed wall ring around a 3 x 3 room. *)
Definition ring_image : image :=
  [[0; 0; 0; 0; 0; 0; 0];
   [0; 255; 255; 255; 255; 255; 0];
   [0; 255; 0; 0; 0; 255; 0];
   [0; 255; 0; 0; 0; 255; 0];
   [0; 255; 0; 0; 0; 255; 0];
   [0; 255; 255; 255; 255; 255; 0];
   [0; 0; 0; 0; 0; 0; 0]]%Z.

(** Its labelled floor mask: the outside is component 1, the room 2. *)
Definition ring_labels : image :=
  [[1; 1; 1; 1; 1; 1; 1];
   [1; 0; 0; 0; 0; 0; 1];
   [1; 0; 2; 2; 2; 0; 1];
   [1; 0; 2; 2; 2; 0; 1];
   [1; 0; 2; 2; 2; 0; 1];
   [1; 0; 0; 0; 0; 0; 1];
   [1; 1; 1; 1; 1; 1; 1]]%Z.

Definition half (n : Z) : num := Fin (n # 2).

Definition room_contour : contour :=
  [(half 3, of_Z 2); (half 3, of_Z 3); (half 3, of_Z 4);
   (of_Z 2, half 9); (of_Z 3, half 9); (of_Z 4, half 9);
   (half 9, of_Z 4); (half 9, of_Z 3); (half 9, of_Z 2);
   (of_Z 4, half 3); (of_Z 3, half 3); (of_Z 2, half 3);
   (half 3, of_Z 2)].

(** The image operations as they answer on [ring_image], written out by
    hand; the simplification keeps every vertex. *)
Definition ring_backend : CvOps :=
  {| cv2_line := fun img _ _ _ _ => img;
     cv2_morph_close := fun img => img;
     measure_label := fun _ => ring_labels;
     measure_regionprops := fun _ =>
       [{| label := 1; area := 24; perimeter := of_Z 24 |};
        {| label := 2; area := 9; perimeter := of_Z 8 |}];
     measure_find_contours := fun _ l =>
       if (l =? 2)%Z then [room_contour] else [];
     cv2_approxPolyDP := fun p _ => p |}.

(** A geometry of unit cells on one line: a geometry is the list of the
    cells it covers, a line string covers the cells between the abscissas
    of its first two points. *)
Definition abscissa (p : point) : Z :=
  match Py.int (fst p) with
  | Some z => z
  | None => 0%Z
  end.

Definition cells_between (a b : Z) : list Z :=
  map (fun i => (a + Z.of_nat i)%Z) (seq 0 (Z.to_nat (b - a))).

(** The maximal runs of consecutive cells of a geometry. *)
Fixpoint runs_from (cur : list Z) (last : Z) (l : list Z) : list (list Z) :=
  match l with
  | [] => [cur]
  | c :: l' =>
      if (c =? last + 1)%Z then runs_from (cur ++ [c]) c l'
      else cur :: runs_from [c] c l'
  end.

Definition runs (l : list Z) : list (list Z) :=
  match l with
  | [] => []
  | c :: l' => runs_from [c] c l'
  end.

Definition cell_geometry : Shapely :=
  {| geom := list Z;
     face := unit;
     LineString := fun pts =>
       match pts with
       | a :: b :: _ => cells_between (abscissa a) (abscissa b)
       | _ => []
       end;
     intersects := fun g d => existsb (fun c => existsb (Z.eqb c) d) g;
     difference := fun g d => filter (fun c => negb (existsb (Z.eqb c) d)) g;
     is_empty := fun g => match g with [] => true | _ => false end;
     geom_type := fun g =>
       if (List.length (runs g) <=? 1)%nat then "LineString"
       else "MultiLineString";
     geoms := runs;
     unary_union := fun gs => List.concat gs;
     polygonize := fun _ => [] |}.

(** Four walls on the line and two doors, as polylines of two points: the
    first door opens the first wall, the second door covers the second
    wall and shortens the fourth; the third wall meets no door. *)
Definition walls_on_a_line : list entity :=
  [LWPOLYLINE "wall" false [pt 0 0; pt 10 0];
   LWPOLYLINE "wall" false [pt 20 0; pt 22 0];
   LWPOLYLINE "wall" false [pt 40 0; pt 42 0];
   LWPOLYLINE "wall" false [pt 28 0; pt 33 0]].

Definition doors_on_a_line : list entity :=
  [LWPOLYLINE "door" false [pt 3 0; pt 5 0];
   LWPOLYLINE "door" false [pt 20 0; pt 30 0]].

End Demo.

(** ** Vocabulary for the properties of the extents and of the layer
    histogram *)

Module Bounds.

Definition finite (a : num) : Prop := exists q : Q, a = Fin q.

Definition finite_point (p : point) : Prop := finite (fst p) /\ finite (snd p).

(** Point [p] lies in the box [e], borders included. *)
Definition inside (e : extents) (p : point) : Prop :=
  let '(min_x, min_y, max_x, max_y) := e in
  (min_x <=? fst p)%num = true /\ (fst p <=? max_x)%num = true
  /\ (min_y <=? snd p)%num = true /\ (snd p <=? max_y)%num = true.

(** The end points of all the segments of a wall list. *)
Definition wall_points (walls : list wall) : list point :=
  flat_map (fun w : wall => flat_map (fun s : segment => [fst s; snd s]) w) walls.

(** The points [get_drawing_extents] reads from polylines. *)
Definition polyline_points (modelspace : list entity) : list point :=
  flat_map (fun e => match e with
                     | LWPOLYLINE _ _ pts => pts
                     | POLYLINE _ _ vs => vs
                     | _ => []
                     end) modelspace.

(** Every coordinate of the entity is a finite number. *)
Definition finite_entity (e : entity) : Prop :=
  match e with
  | LINE _ a b => finite_point a /\ finite_point b
  | LWPOLYLINE _ _ pts => Forall finite_point pts
  | POLYLINE _ _ pts => Forall finite_point pts
  | HATCH _ paths =>
      Forall (fun p => Forall finite_point (path_vertices p)) paths
  | CIRCLE _ c r => finite_point c /\ finite r
  | OTHER _ _ => True
  end.

(** Magnitudes at which the double arithmetic of the program does not
    overflow: the numbers of the model are exact, and a statement that the
    program raises nothing is made for coordinates up to [coordinate_limit],
    minimum areas up to [area_limit] and image sides up to [side_limit]. *)
Definition coordinate_limit : Q := inject_Z (10 ^ 300).

Definition area_limit : Q := inject_Z (10 ^ 100).

Definition side_limit : Z := 10 ^ 4.

(** Integers up to [exact_limit] in magnitude: their products and the sums
    of eight such products are integers below 2^53, which double arithmetic
    computes without rounding. *)
Definition exact_limit : Z := 2 ^ 24.

Definition in_range (limit : Q) (a : num) : Prop :=
  exists q : Q, a = Fin q /\ (Qabs q <= limit)%Q.

Definition point_in_range (p : point) : Prop :=
  in_range coordinate_limit (fst p) /\ in_range coordinate_limit (snd p).

(** Every coordinate of the entity is within [coordinate_limit]. *)
Definition entity_in_range (e : entity) : Prop :=
  match e with
  | LINE _ a b => point_in_range a /\ point_in_range b
  | LWPOLYLINE _ _ pts => Forall point_in_range pts
  | POLYLINE _ _ pts => Forall point_in_range pts
  | HATCH _ paths =>
      Forall (fun p => Forall point_in_range (path_vertices p)) paths
  | CIRCLE _ c r => point_in_range c /\ in_range coordinate_limit r
  | OTHER _ _ => True
  end.

(** What an entity adds to [entity_count] in [get_drawing_extents]. *)
Definition counted (e : entity) : nat :=
  match e with
  | LWPOLYLINE _ _ pts => List.length pts
  | POLYLINE _ _ vs => List.length vs
  | CIRCLE _ _ _ => 1
  | _ => 0
  end.

End Bounds.

Export Bounds.

Module Histogram.

(** The number of database entries of a drawing on a layer with a DXF
    type. *)
Definition count_on (doc : document) (layer_name entity_type : string) : Z :=
  Z.of_nat
    (List.length
       (filter (fun e => String.eqb (entity_layer e) layer_name
                         && String.eqb (dxftype e) entity_type)
               (entitydb doc))).

(** [layers_info[layer_name]['entity_types'].get(entity_type, 0)], and 0
    for a layer that is no key. *)
Definition recorded (d : layers_dict) (layer_name entity_type : string) : Z :=
  match Py.dict_get d layer_name with
  | Some info => Py.get (entity_types info) entity_type
  | None => 0
  end.

End Histogram.

Export Histogram.

(** ** Vocabulary for the invariants of the classifier and of the extents
    loops *)

Module Invariants.

Local Open Scope string_scope.

(** A partition-wall name, which the classifier protects. *)
Definition protected_name (name : string) : bool :=
  Py.contains "隔墙" name || Py.contains "砖墙" name.

(** The five lists hold layer names of [layers_info] only. *)
Definition within (keys : list string) (c : classification) : Prop :=
  incl (wall_layers c) keys /\ incl (door_window_layers c) keys
  /\ incl (room_layers c) keys /\ incl (excluded_layers c) keys
  /\ incl (text_layers c) keys.

(** The test under which step 3 of the classifier takes a layer out of the
    wall list. *)
Definition demotes_wall (c : classification) (x : string) : bool :=
  is_text_layer x
  || (Py.mem x (excluded_layers c) && negb (Py.contains "隔墙" x)
      && negb (Py.contains "砖墙" x)).

(** No door layer is a text layer. *)
Definition doors_not_text (c : classification) : Prop :=
  forall n, In n (door_window_layers c) -> is_text_layer n = false.

(** A layer is classified when one of the three lists holds it. *)
Definition classified (c : classification) (n : string) : Prop :=
  In n (wall_layers c) \/ In n (door_window_layers c)
  \/ In n (excluded_layers c).

(** The accumulators of an extents loop: a minimum is still [inf] or is
    finite, a maximum is still [-inf] or is finite. *)
Definition accumulating (e : extents) : Prop :=
  let '(min_x, min_y, max_x, max_y) := e in
  (min_x = PInf \/ finite min_x) /\ (min_y = PInf \/ finite min_y)
  /\ (max_x = NInf \/ finite max_x) /\ (max_y = NInf \/ finite max_y).

(** Box [e'] contains box [e]. *)
Definition wider (e e' : extents) : Prop :=
  let '(min_x, min_y, max_x, max_y) := e in
  let '(min_x', min_y', max_x', max_y') := e' in
  (min_x' <=? min_x)%num = true /\ (min_y' <=? min_y)%num = true
  /\ (max_x <=? max_x')%num = true /\ (max_y <=? max_y')%num = true.

End Invariants.

Export Invariants.

(** ** Vocabulary for polylines, rectangles and line conversion *)

Module Chains.

(** Each segment of the list starts where the segment before it ends. *)
Fixpoint chained (segments : list segment) : Prop :=
  match segments with
  | s :: ((t :: _) as rest) => snd s = fst t /\ chained rest
  | _ => True
  end.

(** The axis-parallel rectangle with corner [(x, y)], width [w] and height
    [h], as a vertex list. *)
Definition rectangle (x y w h : Q) : polygon :=
  [(Fin x, Fin y); (Fin (x + w), Fin y);
   (Fin (x + w), Fin (y + h)); (Fin x, Fin (y + h))].

(** The entities on which [entity_to_lines] of [extract_skeleton_1.py]
    slices an ezdxf vector: every LINE and every POLYLINE with a vertex. *)
Definition slices_vector (e : entity) : bool :=
  match e with
  | LINE _ _ _ => true
  | POLYLINE _ _ (_ :: _) => true
  | _ => false
  end.

End Chains.

Export Chains.

(** ** [query_walls_and_doors] of [extract_skeleton_1.py] and
    [extract_skeleton_2.py] *)

Module Query.

Local Open Scope string_scope.

(** [etype in ('LINE', 'LWPOLYLINE', 'POLYLINE')] *)
Definition is_line_type (ent : entity) : bool :=
  existsb (String.eqb (dxftype ent)) ["LINE"; "LWPOLYLINE"; "POLYLINE"].

(** [layer = ent.dxf.layer.lower()]: every entity of the model has a
    layer, so the [else ''] of the source is never taken. *)
Definition names_wall (ent : entity) : bool :=
  let layer := Py.lower (entity_layer ent) in
  Py.contains "wall" layer || Py.contains "墙" layer.

Definition names_door (ent : entity) : bool :=
  let layer := Py.lower (entity_layer ent) in
  Py.contains "door" layer || Py.contains "门" layer.

(** One turn of the loop of [query_walls_and_doors] on [(walls, doors)]. *)
Definition query_step (acc : list entity * list entity) (ent : entity)
  : list entity * list entity :=
  let '(walls, doors) := acc in
  if is_line_type ent then
    if names_wall ent then ((walls ++ [ent])%list, doors)
    else if names_door ent then (walls, (doors ++ [ent])%list)
    else acc
  else acc.

(** [query_walls_and_doors(doc)] on the model space of the document. *)
Definition query_walls_and_doors (msp : list entity)
  : list entity * list entity :=
  fold_left query_step msp ([], []).

End Query.

Export Query.

(** ** The drawing frame of the preview images: [create_preview_image],
    [create_rooms_overview], [create_overview_image] *)

Module Preview.

Record frame : Type := {
  origin_x : num;
  origin_y : num;
  scale : num;
  offset_x : num;
  offset_y : num
}.

(** From [extents] to [scale], [offset_x] and [offset_y]; [extents] is
    [None] or a 4-tuple. *)
Definition drawing_frame (extents : option extents) (img_size : nat)
  : option frame :=
  let extents :=
    match extents with
    | Some e => e
    | None => (of_Z 0, of_Z 0, of_Z 1000, of_Z 1000)
    end in
  let '(min_x, min_y, max_x, max_y) := extents in
  let '(min_x, min_y, max_x, max_y) :=
    if (max_x - min_x <? Fin (1 # 10000000000))%num
       || (max_y - min_y <? Fin (1 # 10000000000))%num
    then (of_Z 0, of_Z 0, of_Z 1000, of_Z 1000)
    else (min_x, min_y, max_x, max_y) in
  let width := (max_x - min_x)%num in
  let height := (max_y - min_y)%num in
  scale <-
    (if (width <? Fin (1 # 100000))%num || (height <? Fin (1 # 100000))%num
     then Some (of_Z 1)
     else
       a <- Py.div (of_nat img_size) width ;;
       b <- Py.div (of_nat img_size) height ;;
       Some (Py.min a b * Fin (9 # 10))%num) ;;
  offset_x <- Py.div (of_nat img_size - width * scale)%num (of_Z 2) ;;
  offset_y <- Py.div (of_nat img_size - height * scale)%num (of_Z 2) ;;
  Some {| origin_x := min_x; origin_y := min_y; scale := scale;
          offset_x := offset_x; offset_y := offset_y |}.

(** [max(0, min(x, img_size - 1))] on integers. *)
Definition clamp (x : Z) (img_size : nat) : Z :=
  Z.max 0 (Z.min x (Z.of_nat img_size - 1)).

(** [transform(point)]: an exception of [int] is caught and gives [(0, 0)]. *)
Definition transform (f : frame) (img_size : nat) (point : point) : Z * Z :=
  match Py.int (offset_x f + (fst point - origin_x f) * scale f)%num,
        Py.int (of_nat img_size
                - (offset_y f + (snd point - origin_y f) * scale f))%num with
  | Some x, Some y => (clamp x img_size, clamp y img_size)
  | _, _ => (0, 0)
  end.

End Preview.

Export Preview.

(** * Properties *)

(** ** Shared lemmas on the drivers *)

Lemma bind_some {A B : Type} (m : option A) (k : A -> option B) (b : B) :
  Py.bind m k = Some b -> exists a, m = Some a /\ k a = Some b.
Proof.
  destruct m as [a|]; simpl; intros E; [exists a; split; [reflexivity|exact E] | discriminate].
Qed.

Lemma convert_walls_to_image_extents (ops : CvOps) (walls : list wall)
  (img_size : nat) (img : image) (ext : extents) :
  convert_walls_to_image walls img_size = Some (img, ext) ->
  ext = walls_extents walls.
Proof.
  unfold convert_walls_to_image. intros E.
  apply bind_some in E. destruct E as [img' [_ E]].
  inversion E. reflexivity.
Qed.

(** What a returning call of [extract_walls_and_rooms] is made of. *)
Lemma extract_walls_and_rooms_inv (ops : CvOps) (doc : document)
  (min_room_area : num) (img_size : nat)
  (walls : list wall) (rooms : list polygon) (ext : extents) :
  extract_walls_and_rooms doc min_room_area img_size = Some (walls, rooms, ext) ->
  exists img rooms_from_walls,
    identify_rooms img (walls_extents (collect_walls doc)) min_room_area None
      = Some rooms_from_walls
    /\ walls = collect_walls doc
    /\ rooms = reconcile (layer_rooms doc min_room_area) rooms_from_walls
    /\ ext = choose_room_wall_extents
               (rooms_extents (layer_rooms doc min_room_area))
               (Some (walls_extents (collect_walls doc))).
Proof.
  unfold extract_walls_and_rooms. intros E.
  apply bind_some in E. destruct E as [[img e] [Hc E]].
  apply bind_some in E. destruct E as [raster [Hi E]].
  pose proof (convert_walls_to_image_extents _ _ _ _ _ Hc) as ->.
  inversion E; subst. exists img, raster. repeat split. exact Hi.
Qed.

Lemma extract_rooms_from_dwg_inv (lib : Ezdxf) (ops : CvOps) (doc : document)
  (img_size : nat) (min_room_area : num) (rooms : list polygon) (ext : extents) :
  extract_rooms_from_dwg doc img_size min_room_area = Some (rooms, ext) ->
  exists walls inner,
    extract_walls_and_rooms (preprocessed doc) min_room_area img_size
      = Some (walls, rooms, inner)
    /\ ext = choose_final_extents
               (get_drawing_extents (entities (preprocessed doc))) (Some inner).
Proof.
  unfold extract_rooms_from_dwg. intros E.
  apply bind_some in E. destruct E as [[[walls rooms'] inner] [Hx E]].
  inversion E; subst. exists walls, inner. split; [exact Hx | reflexivity].
Qed.

(** A drawing without entities is not preprocessed: the log line of
    [preprocess_dwg] divides by the entity count. *)
Lemma preprocessed_empty (lib : Ezdxf) (ls : list layer) (db : list entity) :
  preprocessed {| layers := ls; entities := []; entitydb := db |}
  = {| layers := ls; entities := []; entitydb := db |}.
Proof. reflexivity. Qed.

(** ** C1: reconciliation of layer rooms and raster rooms *)

Lemma reconcile_cases (rooms_from_layers rooms_from_walls : list polygon) :
  reconcile rooms_from_layers rooms_from_walls
  = if (List.length rooms_from_layers <? 3)%nat
    then rooms_from_layers ++ rooms_from_walls
    else rooms_from_layers.
Proof.
  unfold reconcile.
  destruct rooms_from_layers as [|a v]; destruct rooms_from_walls as [|b r];
    cbn [app negb]; try reflexivity;
    destruct (List.length (a :: v) <? 3)%nat; cbn [andb];
    rewrite ?app_nil_r; reflexivity.
Qed.

(** C1. For all lists of layer rooms and raster rooms, the reconciliation
    of [extract_walls_and_rooms] returns exactly the layer rooms when there
    are three or more of them, and appends the raster rooms when there are
    fewer than three; five layer rooms and ten raster rooms give the five
    layer rooms. *)
Theorem reconcile_prefers_layer_rooms :
  forall rooms_from_layers rooms_from_walls : list polygon,
    (3 <= List.length rooms_from_layers ->
     reconcile rooms_from_layers rooms_from_walls = rooms_from_layers)%nat
    /\ (List.length rooms_from_layers < 3 ->
        reconcile rooms_from_layers rooms_from_walls
        = rooms_from_layers ++ rooms_from_walls)%nat
    /\ (List.length rooms_from_layers = 5 -> List.length rooms_from_walls = 10 ->
        reconcile rooms_from_layers rooms_from_walls = rooms_from_layers)%nat.
Proof.
  intros v r. rewrite reconcile_cases. repeat split.
  - intros H. apply Nat.ltb_ge in H. rewrite H. reflexivity.
  - intros H. apply Nat.ltb_lt in H. rewrite H. reflexivity.
  - intros H _. rewrite H. reflexivity.
Qed.

(** The room list of a returning [extract_walls_and_rooms] is this
    reconciliation of its two sources. *)
Lemma extract_walls_and_rooms_reconciles (ops : CvOps) (doc : document)
  (min_room_area : num) (img_size : nat)
  (walls : list wall) (rooms : list polygon) (ext : extents) :
  extract_walls_and_rooms doc min_room_area img_size = Some (walls, rooms, ext) ->
  exists rooms_from_walls,
    rooms = reconcile (layer_rooms doc min_room_area) rooms_from_walls.
Proof.
  intros E. apply extract_walls_and_rooms_inv in E.
  destruct E as [img [raster [_ [_ [Hr _]]]]]. exists raster. exact Hr.
Qed.

Example three_layer_rooms_suppress_raster :
  option_map fst
    (@extract_rooms_from_dwg Demo.plain_ezdxf Demo.wall_free_backend
       Demo.three_polyline_rooms 4 (of_Z 1))
  = Some (layer_rooms Demo.three_polyline_rooms (of_Z 1))
  /\ List.length (layer_rooms Demo.three_polyline_rooms (of_Z 1)) = 3%nat.
Proof. vm_compute. split; reflexivity. Qed.

(** ** C2: priority of the extents sources *)

Lemma run_extents_priority (d r w : option extents) :
  run_extents d r w = first_available [d; r; w] default_extents.
Proof. destruct d, r, w; reflexivity. Qed.

Lemma extract_rooms_from_dwg_extents (lib : Ezdxf) (ops : CvOps) (doc : document)
  (img_size : nat) (min_room_area : num) (rooms : list polygon) (ext : extents) :
  extract_rooms_from_dwg doc img_size min_room_area = Some (rooms, ext) ->
  ext = run_extents
          (get_drawing_extents (entities (preprocessed doc)))
          (rooms_extents (layer_rooms (preprocessed doc) min_room_area))
          (Some (walls_extents (collect_walls (preprocessed doc)))).
Proof.
  intros E. apply extract_rooms_from_dwg_inv in E.
  destruct E as [walls [inner [Hx ->]]].
  apply extract_walls_and_rooms_inv in Hx.
  destruct Hx as [img [raster [_ [_ [_ ->]]]]]. reflexivity.
Qed.










(** The two cases on drawings: wall lines alone give the wall extents,
    polyline rooms give the drawing extents. *)
Example wall_lines_give_the_extents :
  get_drawing_extents
    (entities (@preprocessed Demo.plain_ezdxf Demo.two_wall_lines)) = None
  /\ option_map snd
       (@extract_rooms_from_dwg Demo.plain_ezdxf Demo.wall_free_backend
          Demo.two_wall_lines 4 (of_Z 1))
     = Some (of_Z (-10), of_Z (-10), of_Z 20, of_Z 10).
Proof. vm_compute. split; reflexivity. Qed.

Example polyline_rooms_give_the_extents :
  option_map snd
    (@extract_rooms_from_dwg Demo.plain_ezdxf Demo.wall_free_backend
       Demo.three_polyline_rooms 4 (of_Z 1))
  = Some (of_Z 0, of_Z 0, of_Z 24, of_Z 4).
Proof. vm_compute. reflexivity. Qed.

(** ** C3: the drawing without entities *)

Lemma layer_rooms_no_entities (ls : list layer) (db : list entity)
  (min_room_area : num) :
  layer_rooms {| layers := ls; entities := []; entitydb := db |} min_room_area
  = [].
Proof.
  unfold layer_rooms. cbn [entities].
  destruct (find_room_layers _); reflexivity.
Qed.

(** C3 at its failing input. Whenever the pipeline returns on a drawing
    without entities, the extents it returns are the untouched accumulators
    (inf, inf, -inf, -inf) of [convert_walls_to_image], not the default
    (0, 0, 1000, 1000): the tuple is true in Python, so neither default
    branch is taken. *)
Theorem empty_drawing_extents :
  forall (lib : Ezdxf) (ops : CvOps) (ls : list layer) (db : list entity)
         (img_size : nat) (min_room_area : num)
         (rooms : list polygon) (ext : extents),
    extract_rooms_from_dwg {| layers := ls; entities := []; entitydb := db |}
                           img_size min_room_area
      = Some (rooms, ext) ->
    ext = (PInf, PInf, NInf, NInf) /\ ext <> default_extents.
Proof.
  intros lib ops ls db img_size m rooms ext E.
  apply extract_rooms_from_dwg_extents in E.
  rewrite preprocessed_empty, layer_rooms_no_entities in E.
  cbn in E. subst ext. split; [reflexivity | discriminate].
Qed.

Lemma empty_drawing_extents_witness :
  @extract_rooms_from_dwg Demo.plain_ezdxf Demo.wall_free_backend
     {| layers := [new_layer "0" 7 "Continuous"]; entities := [];
        entitydb := Demo.layout_blocks |} 4 (of_Z 1)
  = Some ([], (PInf, PInf, NInf, NInf))
  /\ ((PInf, PInf, NInf, NInf) = (PInf, PInf, NInf, NInf)
      /\ (PInf, PInf, NInf, NInf) <> default_extents).
Proof.
  split.
  - vm_compute. reflexivity.
  - apply (empty_drawing_extents Demo.plain_ezdxf Demo.wall_free_backend
             [new_layer "0" 7 "Continuous"] Demo.layout_blocks 4 (of_Z 1) []).
    vm_compute. reflexivity.
Defined.

(** ** Shared lemmas on the raster room detector *)

Lemma map_raise_In {A B : Type} (f : A -> option B) (l : list A) (bs : list B) :
  map_raise f l = Some bs ->
  forall b, In b bs -> exists a, In a l /\ f a = Some b.
Proof.
  revert bs. induction l as [|a l IH]; simpl; intros bs E b Hb.
  - inversion E; subst. destruct Hb.
  - apply bind_some in E. destruct E as [b0 [Hf E]].
    apply bind_some in E. destruct E as [bs0 [Hm E]].
    inversion E; subst. destruct Hb as [<- | Hb].
    + exists a. split; [left; reflexivity | exact Hf].
    + destruct (IH bs0 Hm b Hb) as [a' [Ha' Hfa']].
      exists a'. split; [right; exact Ha' | exact Hfa'].
Qed.

Lemma kept_rooms_In (outcomes : list outcome) (l : Z) (p : polygon) :
  In (l, p) (kept_rooms outcomes) -> In (Kept l p) outcomes.
Proof.
  unfold kept_rooms. rewrite in_flat_map. intros [o [Ho Hin]].
  destruct o; simpl in Hin; try contradiction.
  destruct Hin as [E | []]. inversion E; subst. exact Ho.
Qed.

(** A region whose polygon is appended passed the four filters. *)
Lemma region_outcome_kept (ops : CvOps) (labeled_img : image) (ext : extents)
  (img_size : nat) (min_px max_px : Z) (edges : list Z) (prop : region)
  (l : Z) (p : polygon) :
  region_outcome labeled_img ext img_size min_px max_px edges prop
    = Some (Kept l p) ->
  l = label prop
  /\ area_rejected min_px max_px (area prop) = false
  /\ set_mem (label prop) edges = false
  /\ shape_rejected (area prop) (perimeter prop) = Some false
  /\ vertices_rejected p = false.
Proof.
  unfold region_outcome.
  destruct (area_rejected min_px max_px (area prop)); [discriminate|].
  destruct (set_mem (label prop) edges); [discriminate|].
  destruct (shape_rejected (area prop) (perimeter prop)) as [[|]|];
    cbn [Py.bind]; try discriminate.
  destruct (measure_find_contours labeled_img (label prop)) as [|c cs];
    [discriminate|].
  match goal with
  | |- context [vertices_rejected ?q] => destruct (vertices_rejected q) eqn:V
  end; [discriminate|].
  intros E. inversion E; subst. repeat split. exact V.
Qed.

(** Every labelled room of [identify_rooms_labelled] comes from a region
    of the labelled floor mask that the loop body kept. *)
Lemma identify_rooms_labelled_In (ops : CvOps) (img : image) (ext : extents)
  (min_room_area : num) (max_room_area : option num)
  (rooms : list (Z * polygon)) (l : Z) (p : polygon) :
  identify_rooms_labelled img ext min_room_area max_room_area = Some rooms ->
  In (l, p) rooms ->
  exists min_px max_px prop,
    In prop (measure_regionprops (labeled_floor img))
    /\ region_outcome (labeled_floor img) ext (List.length img) min_px max_px
         (edge_labels (labeled_floor img) (List.length img)) prop
       = Some (Kept l p).
Proof.
  unfold identify_rooms_labelled. destruct ext as [[[min_x min_y] max_x] max_y].
  intros E Hin.
  apply bind_some in E. destruct E as [ratio [_ E]].
  apply bind_some in E. destruct E as [min_px [_ E]].
  apply bind_some in E. destruct E as [max_px [_ E]].
  apply bind_some in E. destruct E as [outcomes [Hm E]].
  inversion E; subst. apply kept_rooms_In in Hin.
  destruct (map_raise_In _ _ _ Hm _ Hin) as [prop [Hp Ho]].
  exists min_px, max_px, prop. split; assumption.
Qed.

Lemma vertices_rejected_false (p : polygon) :
  vertices_rejected p = false -> (3 <= List.length p <= 100)%nat.
Proof.
  unfold vertices_rejected. intros H.
  apply orb_false_iff in H. destruct H as [H1 H2].
  apply Nat.ltb_ge in H1. apply Nat.ltb_ge in H2. lia.
Qed.

Lemma identify_rooms_vertex_counts (ops : CvOps) (img : image) (ext : extents)
  (min_room_area : num) (max_room_area : option num) (rooms : list polygon) :
  identify_rooms img ext min_room_area max_room_area = Some rooms ->
  Forall (fun p => (3 <= List.length p <= 100)%nat) rooms.
Proof.
  unfold identify_rooms. intros E.
  apply bind_some in E. destruct E as [labelled [Hl E]].
  inversion E; subst. apply Forall_forall. intros p Hp.
  apply in_map_iff in Hp. destruct Hp as [[l p'] [<- Hin]].
  destruct (identify_rooms_labelled_In _ _ _ _ _ _ _ _ Hl Hin)
    as [min_px [max_px [prop [_ Ho]]]].
  apply region_outcome_kept in Ho.
  apply vertices_rejected_false. apply Ho.
Qed.

(** ** C4: no room on the image border *)

Lemma set_mem_add_same (l : Z) (s : list Z) : set_mem l (set_add l s) = true.
Proof.
  unfold set_add, set_mem. destruct (existsb (Z.eqb l) s) eqn:E; [exact E|].
  rewrite existsb_app. simpl. rewrite Z.eqb_refl, orb_true_r. reflexivity.
Qed.

Lemma set_mem_add_other (l l' : Z) (s : list Z) :
  set_mem l s = true -> set_mem l (set_add l' s) = true.
Proof.
  unfold set_add, set_mem. intros H.
  destruct (existsb (Z.eqb l') s); [exact H|].
  rewrite existsb_app, H. reflexivity.
Qed.

Lemma add_if_floor_keeps (labeled_img : image) (y x : nat) (l : Z) (s : list Z) :
  set_mem l s = true -> set_mem l (add_if_floor labeled_img y x s) = true.
Proof.
  unfold add_if_floor. intros H.
  destruct (pixel labeled_img y x >? 0); [apply set_mem_add_other|]; exact H.
Qed.

Lemma add_if_floor_hits (labeled_img : image) (y x : nat) (l : Z) (s : list Z) :
  component_pixel labeled_img y x l ->
  set_mem l (add_if_floor labeled_img y x s) = true.
Proof.
  unfold add_if_floor, component_pixel. intros [Hpos E]. rewrite E.
  destruct (Z.gtb_spec l 0) as [_|Hle]; [|lia].
  apply set_mem_add_same.
Qed.

Lemma fold_left_set_mem {A : Type} (f : list Z -> A -> list Z) (l : Z)
  (hit : A -> Prop) :
  (forall s x, set_mem l s = true -> set_mem l (f s x) = true) ->
  (forall s x, hit x -> set_mem l (f s x) = true) ->
  forall xs s,
    set_mem l s = true \/ (exists x, In x xs /\ hit x) ->
    set_mem l (fold_left f xs s) = true.
Proof.
  intros Hkeep Hhit. induction xs as [|x xs IH]; simpl; intros s H.
  - destruct H as [H | [x [[] _]]]. exact H.
  - apply IH. destruct H as [H | [x' [[<- | Hin] Hx]]].
    + left. apply Hkeep. exact H.
    + left. apply Hhit. exact Hx.
    + right. exists x'. split; assumption.
Qed.

(** The set [edge_labels] holds the label of every component with a pixel
    on one of the four border lines. *)
Lemma edge_labels_complete (labeled_img : image) (img_size : nat) (l : Z) :
  touches_border labeled_img img_size l ->
  set_mem l (edge_labels labeled_img img_size) = true.
Proof.
  intros [i [Hi H]]. unfold edge_labels.
  assert (Hin : In i (seq 0 img_size)) by (apply in_seq; lia).
  apply (fold_left_set_mem _ l
           (fun y => component_pixel labeled_img y 0 l
                     \/ component_pixel labeled_img y (img_size - 1) l)).
  - intros s y Hs. now apply add_if_floor_keeps, add_if_floor_keeps.
  - intros s y [Hy | Hy].
    + now apply add_if_floor_keeps, add_if_floor_hits.
    + now apply add_if_floor_hits.
  - destruct H as [H | [H | [H | H]]].
    + left.
      apply (fold_left_set_mem _ l
               (fun x => component_pixel labeled_img 0 x l
                         \/ component_pixel labeled_img (img_size - 1) x l)).
      * intros s x Hs. now apply add_if_floor_keeps, add_if_floor_keeps.
      * intros s x [Hx | Hx].
        -- now apply add_if_floor_keeps, add_if_floor_hits.
        -- now apply add_if_floor_hits.
      * right. exists i. split; [exact Hin | left; exact H].
    + left.
      apply (fold_left_set_mem _ l
               (fun x => component_pixel labeled_img 0 x l
                         \/ component_pixel labeled_img (img_size - 1) x l)).
      * intros s x Hs. now apply add_if_floor_keeps, add_if_floor_keeps.
      * intros s x [Hx | Hx].
        -- now apply add_if_floor_keeps, add_if_floor_hits.
        -- now apply add_if_floor_hits.
      * right. exists i. split; [exact Hin | right; exact H].
    + right. exists i. split; [exact Hin | left; exact H].
    + right. exists i. split; [exact Hin | right; exact H].
Qed.

(** C4. For every wall image and extents, no polygon returned by
    [identify_rooms] belongs to a connected component with a pixel on row
    0, row size-1, column 0 or column size-1 of the labelled floor mask;
    the loop body rejects every such component (by area or as an edge
    region) before it looks at its shape. *)
Theorem raster_rooms_avoid_border :
  forall (ops : CvOps) (img : image) (ext : extents)
         (min_room_area : num) (max_room_area : option num),
    match identify_rooms_labelled img ext min_room_area max_room_area with
    | Some rooms =>
        identify_rooms img ext min_room_area max_room_area = Some (map snd rooms)
        /\ Forall (fun lp => ~ touches_border (labeled_floor img)
                                (List.length img) (fst lp)) rooms
    | None => identify_rooms img ext min_room_area max_room_area = None
    end
    /\ (forall (min_px max_px : Z) (prop : region),
           touches_border (labeled_floor img) (List.length img) (label prop) ->
           region_outcome (labeled_floor img) ext (List.length img) min_px max_px
             (edge_labels (labeled_floor img) (List.length img)) prop
           = Some (if area_rejected min_px max_px (area prop)
                   then AreaFiltered else EdgeFiltered)).
Proof.
  intros ops img ext m mx. split.
  - destruct (identify_rooms_labelled img ext m mx) as [rooms|] eqn:E.
    + split; [unfold identify_rooms; rewrite E; reflexivity|].
      apply Forall_forall. intros [l p] Hin Hb. cbn [fst] in Hb.
      destruct (identify_rooms_labelled_In _ _ _ _ _ _ _ _ E Hin)
        as [min_px [max_px [prop [_ Ho]]]].
      apply region_outcome_kept in Ho. destruct Ho as [-> [_ [Hm _]]].
      apply edge_labels_complete in Hb. congruence.
    + unfold identify_rooms. rewrite E. reflexivity.
  - intros min_px max_px prop Hb. unfold region_outcome.
    destruct (area_rejected min_px max_px (area prop)); [reflexivity|].
    rewrite (edge_labels_complete _ _ _ Hb). reflexivity.
Qed.

Example ring_room_is_kept :
  option_map (map (fun lp => (fst lp, List.length (snd lp))))
    (@identify_rooms_labelled Demo.ring_backend Demo.ring_image
       (of_Z 0, of_Z 0, of_Z 60, of_Z 60) (of_Z 1) None)
  = Some [(2, 13%nat)]
  /\ edge_labels Demo.ring_labels 7 = [1].
Proof. vm_compute. split; reflexivity. Qed.

(** ** C5: the area filter at its bounds *)

Lemma region_outcome_area (ops : CvOps) (labeled_img : image) (ext : extents)
  (img_size : nat) (min_px max_px : Z) (edges : list Z) (prop : region) :
  area_rejected min_px max_px (area prop) = true <->
  region_outcome labeled_img ext img_size min_px max_px edges prop
    = Some AreaFiltered.
Proof.
  unfold region_outcome.
  destruct (area_rejected min_px max_px (area prop)); split; try reflexivity;
    try discriminate.
  destruct (set_mem (label prop) edges); [discriminate|].
  destruct (shape_rejected (area prop) (perimeter prop)) as [[|]|];
    cbn [Py.bind]; try discriminate.
  destruct (measure_find_contours labeled_img (label prop)); [discriminate|].
  match goal with
  | |- context [vertices_rejected ?q] => destruct (vertices_rejected q)
  end; discriminate.
Qed.

(** C5, as stated, fails when the minimum exceeds the maximum: with
    [min_room_area = 70] (percent) on a 10 x 10 image the thresholds are 70
    and 60 pixels, and a component of exactly 70 pixels is rejected by the
    upper test. *)
Lemma area_filter_counterexample :
  min_pixels (of_Z 70) 10 = Some 70
  /\ max_pixels None 10 = Some 60
  /\ area_rejected 70 60 70 = true
  /\ @region_outcome Demo.ring_backend Demo.ring_labels
       (of_Z 0, of_Z 0, of_Z 60, of_Z 60) 10 70 60 []
       {| label := 2; area := 70; perimeter := of_Z 40 |}
     = Some AreaFiltered.
Proof. vm_compute. repeat split. Qed.

(** C5, amended. For every component and all thresholds: a pixel area of
    exactly [min_room_area_pixels - 1] is rejected; a pixel area of exactly
    [min_room_area_pixels] is not rejected by the lower test and passes the
    area filter exactly when [min_room_area_pixels <= max_room_area_pixels];
    a pixel area of exactly [max_room_area_pixels] passes the upper test;
    a pixel area strictly greater than [max_room_area_pixels] is rejected. *)
Theorem area_filter_bounds :
  forall min_px max_px : Z,
    area_rejected min_px max_px (min_px - 1) = true
    /\ (min_px <? min_px) = false
    /\ (area_rejected min_px max_px min_px = false <-> min_px <= max_px)
    /\ (max_px >? max_px) = false
    /\ (forall a : Z, max_px < a -> area_rejected min_px max_px a = true)
    /\ (forall (ops : CvOps) (labeled_img : image) (ext : extents)
               (img_size : nat) (edges : list Z) (prop : region),
           area_rejected min_px max_px (area prop) = true <->
           region_outcome labeled_img ext img_size min_px max_px edges prop
             = Some AreaFiltered).
Proof.
  intros min_px max_px. unfold area_rejected. repeat split.
  - apply orb_true_iff. left. apply Z.ltb_lt. lia.
  - apply Z.ltb_irrefl.
  - intros H. apply orb_false_iff in H. destruct H as [_ H].
    destruct (Z.gtb_spec min_px max_px); [discriminate | assumption].
  - intros H. apply orb_false_iff. split; [apply Z.ltb_irrefl|].
    destruct (Z.gtb_spec min_px max_px); [lia | reflexivity].
  - destruct (Z.gtb_spec max_px max_px); [lia | reflexivity].
  - intros a H. apply orb_true_iff. right.
    destruct (Z.gtb_spec a max_px); [reflexivity | lia].
  - apply (proj1 (region_outcome_area ops labeled_img ext img_size
                    min_px max_px edges prop)).
  - apply (proj2 (region_outcome_area ops labeled_img ext img_size
                    min_px max_px edges prop)).
Qed.

(** ** C8: vertex counts of the raster rooms *)

(** C8. Every polygon returned by [identify_rooms] has between 3 and 100
    vertices after simplification; a polygon with fewer than 3 or more than
    100 vertices is rejected by the fourth filter, and a region is kept
    only with a polygon this filter accepts. *)
Theorem raster_rooms_vertex_count :
  forall (ops : CvOps) (img : image) (ext : extents)
         (min_room_area : num) (max_room_area : option num),
    match identify_rooms img ext min_room_area max_room_area with
    | Some rooms => Forall (fun p => (3 <= List.length p <= 100)%nat) rooms
    | None => True
    end
    /\ (forall p : polygon,
           vertices_rejected p = true <->
           (List.length p < 3 \/ 100 < List.length p)%nat)
    /\ (forall (labeled_img : image) (img_size : nat) (min_px max_px : Z)
               (edges : list Z) (prop : region) (l : Z) (p : polygon),
           region_outcome labeled_img ext img_size min_px max_px edges prop
             = Some (Kept l p) ->
           vertices_rejected p = false).
Proof.
  intros ops img ext m mx. repeat split.
  - destruct (identify_rooms img ext m mx) as [rooms|] eqn:E; [|exact I].
    apply (identify_rooms_vertex_counts _ _ _ _ _ _ E).
  - unfold vertices_rejected. intros H. apply orb_true_iff in H.
    destruct H as [H | H]; apply Nat.ltb_lt in H; [left | right]; exact H.
  - unfold vertices_rejected. intros H. apply orb_true_iff.
    destruct H as [H | H]; apply Nat.ltb_lt in H; [left | right]; exact H.
  - intros labeled_img img_size min_px max_px edges prop l p Ho.
    apply region_outcome_kept in Ho. apply Ho.
Qed.

(** ** C10: the guard of the compactness division *)

Lemma positive_square_nonzero (perimeter : num) :
  (perimeter >? of_Z 0)%num = true ->
  Num.is_zero (perimeter * perimeter)%num = false.
Proof.
  destruct perimeter as [| |q|]; cbn; try discriminate; try reflexivity.
  unfold Num.Qltb, Num.Qzerob. cbn. intros H.
  apply Z.ltb_lt in H. apply Z.eqb_neq. nia.
Qed.

Lemma shape_rejected_returns (area : Z) (perimeter : num) :
  exists rejected : bool, shape_rejected area perimeter = Some rejected.
Proof.
  unfold shape_rejected, compactness, Py.div.
  destruct (perimeter >? of_Z 0)%num eqn:G.
  - rewrite (positive_square_nonzero _ G). cbn [Py.bind]. eexists. reflexivity.
  - exists false. reflexivity.
Qed.

Lemma region_outcome_returns (ops : CvOps) (labeled_img : image) (ext : extents)
  (img_size : nat) (min_px max_px : Z) (edges : list Z) (prop : region) :
  exists o : outcome,
    region_outcome labeled_img ext img_size min_px max_px edges prop = Some o.
Proof.
  unfold region_outcome.
  destruct (area_rejected min_px max_px (area prop)); [eexists; reflexivity|].
  destruct (set_mem (label prop) edges); [eexists; reflexivity|].
  destruct (shape_rejected_returns (area prop) (perimeter prop)) as [b ->].
  cbn [Py.bind]. destruct b; [eexists; reflexivity|].
  destruct (measure_find_contours labeled_img (label prop));
    [eexists; reflexivity|].
  match goal with
  | |- context [vertices_rejected ?q] => destruct (vertices_rejected q)
  end; eexists; reflexivity.
Qed.

(** C10. The compactness division happens only under the guard
    [perimeter > 0], where its divisor [perimeter * perimeter] is not zero,
    so the shape filter always returns and no division by zero is reached
    (the division itself fails at perimeter 0); a component whose perimeter
    is not positive, in particular 0, skips the compactness test and is
    never counted by the shape filter. *)
Theorem compactness_division_guarded :
  forall (area : Z) (perimeter : num),
    ((perimeter >? of_Z 0)%num = true ->
     Num.is_zero (perimeter * perimeter)%num = false
     /\ shape_rejected area perimeter
        = option_map (fun c => (c <? Fin (3 # 100))%num)
                     (compactness area perimeter))
    /\ (exists rejected : bool, shape_rejected area perimeter = Some rejected)
    /\ compactness area (of_Z 0) = None
    /\ ((perimeter >? of_Z 0)%num = false ->
        shape_rejected area perimeter = Some false)
    /\ shape_rejected area (of_Z 0) = Some false
    /\ (forall (ops : CvOps) (labeled_img : image) (ext : extents)
               (img_size : nat) (min_px max_px : Z) (edges : list Z)
               (prop : region),
           (exists o : outcome,
               region_outcome labeled_img ext img_size min_px max_px edges prop
               = Some o)
           /\ (Raster.perimeter prop = of_Z 0 ->
               region_outcome labeled_img ext img_size min_px max_px edges prop
               <> Some ShapeFiltered)).
Proof.
  intros area perimeter. repeat split.
  - apply positive_square_nonzero. assumption.
  - unfold shape_rejected. rewrite H.
    destruct (compactness area perimeter); reflexivity.
  - apply shape_rejected_returns.
  - unfold shape_rejected. intros ->. reflexivity.
  - apply region_outcome_returns.
  - intros Hp. unfold region_outcome. rewrite Hp.
    destruct (area_rejected min_px max_px (Raster.area prop)); [discriminate|].
    destruct (set_mem (label prop) edges); [discriminate|].
    cbn [shape_rejected Py.bind].
    change (shape_rejected (Raster.area prop) (of_Z 0)) with (Some false).
    cbn [Py.bind].
    destruct (measure_find_contours labeled_img (label prop)); [discriminate|].
    match goal with
    | |- context [vertices_rejected ?q] => destruct (vertices_rejected q)
    end; discriminate.
Qed.

Example zero_perimeter_skips_compactness :
  @region_outcome Demo.ring_backend Demo.ring_labels
     (of_Z 0, of_Z 0, of_Z 60, of_Z 60) 7 0 29 [1]
     {| label := 2; area := 1; perimeter := of_Z 0 |}
  = Some (Kept 2 (map (to_drawing (of_Z 0, of_Z 0, of_Z 60, of_Z 60) 7)
                      Demo.room_contour)).
Proof. vm_compute. reflexivity. Qed.

(** ** C9: every returned room has at least three vertices *)

Lemma rooms_of_entity_vertex_counts (room_layers : list string)
  (min_room_area : num) (e : entity) :
  Forall (fun p => (3 <= List.length p)%nat)
         (rooms_of_entity room_layers min_room_area e).
Proof.
  unfold rooms_of_entity.
  destruct (Py.mem (entity_layer e) room_layers); [|constructor].
  destruct e as [l a b | l c pts | l c pts | l paths | l c r | t l];
    try constructor.
  - destruct c; cbn [andb]; [|constructor].
    destruct (3 <=? List.length pts)%nat eqn:L; cbn [andb]; [|constructor].
    destruct (is_valid_room pts min_room_area); constructor; [|constructor].
    apply Nat.leb_le. exact L.
  - destruct c; cbn [andb]; [|constructor].
    destruct (3 <=? List.length pts)%nat eqn:L; cbn [andb]; [|constructor].
    destruct (is_valid_room pts min_room_area); constructor; [|constructor].
    apply Nat.leb_le. exact L.
  - destruct paths; constructor.
Qed.

Lemma layer_rooms_vertex_counts (doc : document) (min_room_area : num) :
  Forall (fun p => (3 <= List.length p)%nat) (layer_rooms doc min_room_area).
Proof.
  unfold layer_rooms.
  destruct (find_room_layers (analyze_layers doc)) as [|r rs]; [constructor|].
  apply Forall_forall. intros p Hp. apply in_flat_map in Hp.
  destruct Hp as [e [_ Hp]].
  pose proof (rooms_of_entity_vertex_counts (r :: rs) min_room_area e) as F.
  rewrite Forall_forall in F. apply F. exact Hp.
Qed.

Lemma reconcile_Forall (P : polygon -> Prop) (v r : list polygon) :
  Forall P v -> Forall P r -> Forall P (reconcile v r).
Proof.
  intros Hv Hr. rewrite reconcile_cases.
  destruct (List.length v <? 3)%nat; [apply Forall_app; split|]; assumption.
Qed.

(** C9. Every room polygon in the list returned by
    [extract_walls_and_rooms], from the room layers or from the raster
    detection, has at least three vertices. *)
Theorem returned_rooms_have_three_vertices :
  forall (ops : CvOps) (doc : document) (min_room_area : num) (img_size : nat),
    match extract_walls_and_rooms doc min_room_area img_size with
    | Some (_, rooms, _) => Forall (fun p => (3 <= List.length p)%nat) rooms
    | None => True
    end.
Proof.
  intros ops doc m img_size.
  destruct (extract_walls_and_rooms doc m img_size) as [[[walls rooms] ext]|] eqn:E;
    [|exact I].
  apply extract_walls_and_rooms_inv in E.
  destruct E as [img [raster [Hi [_ [-> _]]]]].
  apply reconcile_Forall.
  - apply layer_rooms_vertex_counts.
  - apply identify_rooms_vertex_counts in Hi.
    apply Forall_forall. intros p Hp. rewrite Forall_forall in Hi.
    apply (Hi p Hp).
Qed.

Example returned_rooms_example :
  option_map (fun r => map (@List.length point) (snd (fst r)))
    (@extract_walls_and_rooms Demo.wall_free_backend Demo.three_polyline_rooms
       (of_Z 1) 4)
  = Some [4; 4; 4]%nat.
Proof. vm_compute. reflexivity. Qed.

(** ** C6: door removal and polygonization *)

Section DoorRemoval.

Context {S : Shapely}.

(** In Shapely an empty geometry intersects nothing. *)
Hypothesis empty_disjoint :
  forall g d : geom, is_empty g = true -> intersects g d = false.

Lemma spec_successive_difference_empty (g : geom) (door_lines : list geom) :
  is_empty g = true -> spec_successive_difference g door_lines = g.
Proof.
  intros E. unfold spec_successive_difference.
  induction door_lines as [|d rest IH]; simpl; [reflexivity|].
  rewrite (empty_disjoint g d E). exact IH.
Qed.

(** The loop with its [break] computes the successive difference. *)
Lemma cut_wall_successive_difference (w : geom) (door_lines : list geom) :
  cut_wall w door_lines = spec_successive_difference w door_lines.
Proof.
  revert w. induction door_lines as [|d rest IH]; intros w; [reflexivity|].
  cbn [cut_wall]. unfold spec_successive_difference. cbn [fold_left].
  destruct (intersects w d).
  - destruct (is_empty (difference w d)) eqn:E.
    + symmetry. apply (spec_successive_difference_empty _ rest E).
    + apply IH.
  - apply IH.
Qed.

End DoorRemoval.

(** C6. When the conversion of the wall and door entities raises nothing,
    door removal computes for each wall line the successive set-difference
    with every door line it intersects; a wall line whose difference is
    empty adds nothing to the pool, a remaining LineString is added as it
    is and a remaining MultiLineString through its parts; the closed
    polygons are those of polygonizing the union of the pool. *)
Theorem door_removal_then_polygonize :
  forall (S : Shapely),
    (forall g d : geom, is_empty g = true -> intersects g d = false) ->
    forall (wall_ents door_ents : list entity) (wall_lines door_lines : list geom),
      lines_of wall_ents = Some wall_lines ->
      lines_of door_ents = Some door_lines ->
      let remaining := fun w => spec_successive_difference w door_lines in
      let pool :=
        flat_map
          (fun w =>
             if is_empty (remaining w) then []
             else if String.eqb (geom_type (remaining w)) "LineString"
                  then [remaining w]
             else if String.eqb (geom_type (remaining w)) "MultiLineString"
                  then geoms (remaining w)
             else [])
          wall_lines in
      remove_doors_from_walls wall_ents door_ents = Some pool
      /\ closed_polygons wall_ents door_ents
         = Some (polygonize (unary_union pool)).
Proof.
  intros S law wall_ents door_ents wall_lines door_lines Hw Hd remaining pool.
  assert (E : remove_doors_from_walls wall_ents door_ents = Some pool).
  { unfold remove_doors_from_walls. rewrite Hw, Hd. cbn [Py.bind].
    f_equal. unfold remove_doors_from_lines, pool.
    apply flat_map_ext. intros w.
    rewrite (cut_wall_successive_difference law). reflexivity. }
  split; [exact E|].
  unfold closed_polygons. rewrite E. reflexivity.
Qed.

Lemma cell_geometry_empty_disjoint :
  forall g d : @geom Demo.cell_geometry,
    @is_empty Demo.cell_geometry g = true ->
    @intersects Demo.cell_geometry g d = false.
Proof. intros g d. destruct g; [reflexivity | discriminate]. Qed.

Lemma door_removal_then_polygonize_witness :
  @remove_doors_from_walls Demo.cell_geometry
     Demo.walls_on_a_line Demo.doors_on_a_line
  = Some [[0; 1; 2]; [5; 6; 7; 8; 9]; [40; 41]; [30; 31; 32]]
  /\ @closed_polygons Demo.cell_geometry
       Demo.walls_on_a_line Demo.doors_on_a_line
     = Some (@polygonize Demo.cell_geometry
               (@unary_union Demo.cell_geometry
                  [[0; 1; 2]; [5; 6; 7; 8; 9]; [40; 41]; [30; 31; 32]])).
Proof.
  apply (door_removal_then_polygonize Demo.cell_geometry
           cell_geometry_empty_disjoint
           Demo.walls_on_a_line Demo.doors_on_a_line
           [[0; 1; 2; 3; 4; 5; 6; 7; 8; 9]; [20; 21]; [40; 41];
            [28; 29; 30; 31; 32]]
           [[3; 4]; [20; 21; 22; 23; 24; 25; 26; 27; 28; 29]]).
  - vm_compute. reflexivity.
  - vm_compute. reflexivity.
Defined.

(** ** C7: the keep-set of the layer classifier *)

Lemma mem_In (x : string) (l : list string) : Py.mem x l = true <-> In x l.
Proof.
  unfold Py.mem. rewrite existsb_exists. split.
  - intros [y [Hy E]]. apply String.eqb_eq in E. subst. exact Hy.
  - intros H. exists x. split; [exact H | apply String.eqb_refl].
Qed.

Lemma keep_with_default_In (keep : list string) (n : string) :
  In n (keep_with_default keep) <-> In n keep \/ n = "0"%string.
Proof.
  unfold keep_with_default. destruct (Py.mem "0" keep) eqn:M; cbn [negb].
  - apply mem_In in M. split; [intros H; left; exact H|].
    intros [H | ->]; assumption.
  - rewrite in_app_iff. cbn [In]. split.
    + intros [H | [<- | []]]; [left; exact H | right; reflexivity].
    + intros [H | ->]; [left; exact H | right; left; reflexivity].
Qed.

(** C7, as stated, fails: for the drawing [Demo.hatch_and_line], with the
    layers ["0"] and ["WALL-ROOM"], the classifier returns the wall layer
    only, and for a drawing that holds nothing but the layer ["0"] it
    returns the empty list; [clean_layers] is what adds ["0"]. *)
Lemma keep_set_counterexample :
  identify_wall_layers (analyze_layers Demo.hatch_and_line)
  = ["WALL-ROOM"%string]
  /\ Py.mem "0" (identify_wall_layers (analyze_layers Demo.hatch_and_line)) = false
  /\ identify_wall_layers (analyze_layers Demo.empty_drawing) = []
  /\ keep_with_default (identify_wall_layers (analyze_layers Demo.hatch_and_line))
     = ["WALL-ROOM"%string; "0"%string].
Proof. vm_compute. repeat split. Qed.

(** C7, amended. For every layer-information mapping the keep-set returned
    by [identify_wall_layers] holds exactly the wall layers and the
    door-window layers, each once; the default layer ["0"] is added by
    [clean_layers], whose keep-set is the classifier's keep-set with ["0"]
    and whose document keeps exactly the entities on those layers. *)
Theorem keep_set_is_wall_union_door :
  forall (layers_info : layers_dict) (n : string),
    (In n (identify_wall_layers layers_info) <->
     In n (wall_layers (classify layers_info))
     \/ In n (door_window_layers (classify layers_info)))
    /\ NoDup (identify_wall_layers layers_info)
    /\ In "0"%string (keep_with_default (identify_wall_layers layers_info))
    /\ (In n (keep_with_default (identify_wall_layers layers_info)) <->
        In n (identify_wall_layers layers_info) \/ n = "0"%string)
    /\ (forall (lib : Ezdxf) (doc : document) (e : entity),
           In e (entities (clean_layers doc (identify_wall_layers layers_info))) <->
           In e (entities doc)
           /\ (In (entity_layer e) (identify_wall_layers layers_info)
               \/ entity_layer e = "0"%string)).
Proof.
  intros layers_info n. unfold identify_wall_layers, Py.list_set.
  split; [|split; [|split; [|split]]].
  - rewrite nodup_In, in_app_iff. reflexivity.
  - apply NoDup_nodup.
  - apply keep_with_default_In. right. reflexivity.
  - apply keep_with_default_In.
  - intros lib doc e. unfold clean_layers. cbn [entities].
    rewrite filter_In, mem_In, keep_with_default_In. reflexivity.
Qed.

Example classifier_on_named_layers :
  let lines := fun n : Z =>
    {| entity_types := [("LINE"%string, n)]; color := 7; is_on := true;
       is_frozen := false; linetype := "CONTINUOUS"%string |} in
  let c := classify [("A-WALL"%string, lines 50); ("标注"%string, lines 50);
                     ("A-DOOR"%string, lines 3); ("0"%string, lines 3)] in
  wall_layers c = ["A-WALL"%string]
  /\ door_window_layers c = ["A-DOOR"%string]
  /\ text_layers c = ["标注"%string]
  /\ excluded_layers c = ["标注"%string; "0"%string].
Proof. vm_compute. repeat split. Qed.

(** * Further properties *)

Ltac finite_goal :=
  repeat first [ apply Forall_nil | apply Forall_cons | split
               | exact I | (eexists; reflexivity) ].

(** ** Further properties: the layer histogram of [analyze_layers] *)

Lemma dict_get_set_same {V : Type} (d : list (string * V)) (k : string) (v : V) :
  Py.dict_get (Py.dict_set d k v) k = Some v.
Proof.
  induction d as [|[k' v'] d IH]; simpl.
  - rewrite String.eqb_refl. reflexivity.
  - destruct (String.eqb k k') eqn:E; simpl.
    + rewrite String.eqb_refl. reflexivity.
    + rewrite E. exact IH.
Qed.

Lemma dict_get_set_other {V : Type} (d : list (string * V)) (k k' : string) (v : V) :
  k <> k' -> Py.dict_get (Py.dict_set d k v) k' = Py.dict_get d k'.
Proof.
  intros N. induction d as [|[k0 v0] d IH]; simpl.
  - apply String.eqb_neq in N. rewrite String.eqb_sym, N. reflexivity.
  - destruct (String.eqb k k0) eqn:E; simpl.
    + apply String.eqb_eq in E. subst k0.
      apply String.eqb_neq in N. rewrite String.eqb_sym, N. reflexivity.
    + destruct (String.eqb k' k0); [reflexivity | exact IH].
Qed.

Lemma get_bumped (types : list (string * Z)) (t t' : string) :
  Py.get (if Py.has_key types t
          then Py.dict_set types t (Py.get types t + 1)
          else Py.dict_set types t 1) t'
  = Py.get types t' + (if String.eqb t t' then 1 else 0).
Proof.
  unfold Py.has_key, Py.get.
  destruct (String.eqb t t') eqn:E.
  - apply String.eqb_eq in E. subst t'.
    destruct (Py.dict_get types t) eqn:G; rewrite dict_get_set_same; lia.
  - apply String.eqb_neq in E.
    destruct (Py.dict_get types t); rewrite (dict_get_set_other _ _ _ _ E); lia.
Qed.

Lemma recorded_count_entity (d : layers_dict) (e : entity) (l t : string) :
  recorded (count_entity d e) l t
  = recorded d l t
    + (if String.eqb (entity_layer e) l && String.eqb (dxftype e) t
       then 1 else 0).
Proof.
  unfold count_entity, recorded. cbv zeta.
  set (ln := entity_layer e). set (et := dxftype e).
  match goal with
  | |- context [Py.dict_get (if ?c then ?a else ?b) ln] =>
      set (d1 := if c then a else b)
  end.
  assert (H : exists info,
             Py.dict_get d1 ln = Some info
             /\ Py.get (entity_types info) t
                = match Py.dict_get d ln with
                  | Some i => Py.get (entity_types i) t
                  | None => 0
                  end).
  { unfold d1, Py.has_key. destruct (Py.dict_get d ln) as [i|] eqn:G.
    - exists i. split; [exact G | reflexivity].
    - exists default_info. split; [apply dict_get_set_same | reflexivity]. }
  destruct H as [info [Hget Hcount]]. rewrite Hget.
  destruct (String.eqb ln l) eqn:E; cbn [andb].
  - apply String.eqb_eq in E. subst l. rewrite dict_get_set_same.
    cbn [entity_types]. rewrite get_bumped, Hcount.
    rewrite (String.eqb_sym et t). reflexivity.
  - apply String.eqb_neq in E. rewrite (dict_get_set_other _ _ _ _ E).
    unfold d1, Py.has_key. destruct (Py.dict_get d ln) eqn:G.
    + lia.
    + rewrite (dict_get_set_other _ _ _ _ E). lia.
Qed.

Lemma recorded_fold (es : list entity) (d : layers_dict) (l t : string) :
  recorded (fold_left count_entity es d) l t
  = recorded d l t
    + Z.of_nat
        (List.length
           (filter (fun e => String.eqb (entity_layer e) l
                             && String.eqb (dxftype e) t) es)).
Proof.
  revert d. induction es as [|e es IH]; intros d; cbn [fold_left filter].
  - cbn. lia.
  - rewrite IH, recorded_count_entity.
    destruct (String.eqb (entity_layer e) l && String.eqb (dxftype e) t);
      cbn [List.length]; lia.
Qed.

Lemma dict_get_set {V : Type} (d : list (string * V)) (k k' : string) (v : V) :
  Py.dict_get (Py.dict_set d k v) k'
  = if String.eqb k k' then Some v else Py.dict_get d k'.
Proof.
  destruct (String.eqb k k') eqn:E.
  - apply String.eqb_eq in E. subst. apply dict_get_set_same.
  - apply String.eqb_neq in E. apply dict_get_set_other. exact E.
Qed.

Lemma table_has_no_counts (ls : list layer) (d : layers_dict) (l t : string) :
  recorded d l t = 0 ->
  recorded
    (fold_left (fun d x => Py.dict_set d (layer_name x) (info_of_layer x)) ls d)
    l t = 0.
Proof.
  revert d. induction ls as [|x ls IH]; intros d H; cbn [fold_left]; [exact H|].
  apply IH. unfold recorded. rewrite dict_get_set.
  destruct (String.eqb (layer_name x) l); [reflexivity | exact H].
Qed.

(** X1. The histogram of [analyze_layers] is exact over the entity
    database: for every layer name and DXF type, the recorded count (0 when
    the layer or the type is no key) is the number of database entries on
    that layer with that type, the entries outside the model space
    included. *)
Theorem analyze_layers_counts_entities :
  forall (doc : document) (layer_name entity_type : string),
    recorded (analyze_layers doc) layer_name entity_type
    = count_on doc layer_name entity_type.
Proof.
  intros doc l t. unfold analyze_layers, count_on.
  rewrite recorded_fold, table_has_no_counts; [lia | reflexivity].
Qed.

Lemma dict_set_keys {V : Type} (d : list (string * V)) (k : string) (v : V) :
  map fst (Py.dict_set d k v)
  = if Py.has_key d k then map fst d else map fst d ++ [k].
Proof.
  unfold Py.has_key. induction d as [|[k' v'] d IH]; cbn [Py.dict_set Py.dict_get map fst app].
  - reflexivity.
  - destruct (String.eqb k k') eqn:E.
    + apply String.eqb_eq in E. subst. reflexivity.
    + cbn [map fst]. rewrite IH. destruct (Py.dict_get d k); reflexivity.
Qed.

Lemma has_key_In {V : Type} (d : list (string * V)) (k : string) :
  Py.has_key d k = true <-> In k (map fst d).
Proof.
  unfold Py.has_key. induction d as [|[k' v'] d IH]; cbn [Py.dict_get map fst In].
  - split; [discriminate | intros []].
  - destruct (String.eqb k k') eqn:E.
    + apply String.eqb_eq in E. subst. split; [left; reflexivity | reflexivity].
    + apply String.eqb_neq in E. rewrite IH. split.
      * intros H. right. exact H.
      * intros [H | H]; [congruence | exact H].
Qed.

Lemma dict_set_keys_In {V : Type} (d : list (string * V)) (k k' : string) (v : V) :
  In k' (map fst (Py.dict_set d k v)) <-> k = k' \/ In k' (map fst d).
Proof.
  rewrite dict_set_keys. destruct (Py.has_key d k) eqn:H.
  - apply has_key_In in H. split; [intros X; right; exact X|].
    intros [<- | X]; assumption.
  - rewrite in_app_iff. cbn [In]. split.
    + intros [X | [X | []]]; [right | left]; assumption.
    + intros [X | X]; [right; left | left]; assumption.
Qed.

Lemma dict_set_keys_NoDup {V : Type} (d : list (string * V)) (k : string) (v : V) :
  NoDup (map fst d) -> NoDup (map fst (Py.dict_set d k v)).
Proof.
  intros N. rewrite dict_set_keys. destruct (Py.has_key d k) eqn:H; [exact N|].
  apply NoDup_app; [exact N | constructor; [intros [] | constructor] |].
  intros x Hx [<- | []]. apply has_key_In in Hx. congruence.
Qed.

Lemma count_entity_keys (d : layers_dict) (e : entity) :
  (forall l, In l (map fst (count_entity d e)) <->
             entity_layer e = l \/ In l (map fst d))
  /\ (NoDup (map fst d) -> NoDup (map fst (count_entity d e))).
Proof.
  unfold count_entity. cbv zeta.
  match goal with
  | |- context [Py.dict_get (if ?c then ?a else ?b) (entity_layer e)] =>
      set (d1 := if c then a else b)
  end.
  assert (K : forall l, In l (map fst d1) <->
                        entity_layer e = l \/ In l (map fst d)).
  { intros l. unfold d1. destruct (Py.has_key d (entity_layer e)) eqn:H.
    - apply has_key_In in H. split; [intros X; right; exact X|].
      intros [<- | X]; assumption.
    - apply dict_set_keys_In. }
  assert (N : NoDup (map fst d) -> NoDup (map fst d1)).
  { intros X. unfold d1. destruct (Py.has_key d (entity_layer e));
      [exact X | apply dict_set_keys_NoDup; exact X]. }
  destruct (Py.dict_get d1 (entity_layer e)) as [info|].
  - split.
    + intros l. rewrite dict_set_keys_In, K. tauto.
    + intros X. apply dict_set_keys_NoDup, N, X.
  - split; [exact K | exact N].
Qed.

Lemma count_entities_keys (es : list entity) (d : layers_dict) :
  (forall l, In l (map fst (fold_left count_entity es d)) <->
             In l (map entity_layer es) \/ In l (map fst d))
  /\ (NoDup (map fst d) -> NoDup (map fst (fold_left count_entity es d))).
Proof.
  revert d. induction es as [|e es IH]; intros d; cbn [fold_left map In].
  - split; [intros l; tauto | trivial].
  - destruct (IH (count_entity d e)) as [K N].
    destruct (count_entity_keys d e) as [K1 N1]. split.
    + intros l. rewrite K, K1. tauto.
    + intros X. apply N, N1, X.
Qed.

Lemma table_keys (ls : list layer) (d : layers_dict) :
  (forall l,
      In l (map fst (fold_left
                       (fun d x => Py.dict_set d (layer_name x) (info_of_layer x))
                       ls d)) <->
      In l (map layer_name ls) \/ In l (map fst d))
  /\ (NoDup (map fst d) ->
      NoDup (map fst (fold_left
                        (fun d x => Py.dict_set d (layer_name x) (info_of_layer x))
                        ls d))).
Proof.
  revert d. induction ls as [|x ls IH]; intros d; cbn [fold_left map In].
  - split; [intros l; tauto | trivial].
  - destruct (IH (Py.dict_set d (layer_name x) (info_of_layer x))) as [K N].
    split.
    + intros l. rewrite K, dict_set_keys_In. tauto.
    + intros X. apply N, dict_set_keys_NoDup, X.
Qed.

(** X2. The keys of [analyze_layers] are the layers of the layer table
    together with every layer a database entry names (a layer missing from
    the table is added), and no layer is listed twice. *)
Theorem analyze_layers_keys :
  forall (doc : document) (l : string),
    (In l (map fst (analyze_layers doc)) <->
     In l (map layer_name (layers doc)) \/ In l (map entity_layer (entitydb doc)))
    /\ NoDup (map fst (analyze_layers doc)).
Proof.
  intros doc l. unfold analyze_layers.
  destruct (count_entities_keys (entitydb doc)
              (fold_left (fun d x => Py.dict_set d (layer_name x) (info_of_layer x))
                         (layers doc) [])) as [K N].
  destruct (table_keys (layers doc) []) as [K0 N0]. split.
  - rewrite K, K0. cbn [map In]. tauto.
  - apply N, N0. constructor.
Qed.

(** ** Further properties: the layer classifier *)

Lemma fold_left_invariant {A B : Type} (P : A -> Prop) (f : A -> B -> A)
  (l : list B) (a : A) :
  P a -> (forall a x, P a -> In x l -> P (f a x)) -> P (fold_left f l a).
Proof.
  revert a. induction l as [|x l IH]; intros a Ha Hf; cbn [fold_left]; [exact Ha|].
  apply IH.
  - apply Hf; [exact Ha | left; reflexivity].
  - intros a' y Ha' Hy. apply Hf; [exact Ha' | right; exact Hy].
Qed.

Lemma remove_subset (x n : string) (l : list string) :
  In n (Py.remove x l) -> In n l.
Proof.
  induction l as [|y l IH]; cbn [Py.remove]; [trivial|].
  destruct (String.eqb x y).
  - intros H. right. exact H.
  - intros [H | H]; [left; exact H | right; apply IH, H].
Qed.

Lemma remove_keeps_others (x n : string) (l : list string) :
  x <> n -> In n l -> In n (Py.remove x l).
Proof.
  intros N. induction l as [|y l IH]; cbn [Py.remove In]; [trivial|].
  destruct (String.eqb x y) eqn:E.
  - apply String.eqb_eq in E. subst y. intros [H | H]; [congruence | exact H].
  - intros [H | H]; [left; exact H | right; apply IH, H].
Qed.

Lemma count_remove_same (x : string) (l : list string) :
  count_occ string_dec (Py.remove x l) x = Nat.pred (count_occ string_dec l x).
Proof.
  induction l as [|y l IH]; cbn [Py.remove count_occ]; [reflexivity|].
  destruct (String.eqb x y) eqn:E.
  - apply String.eqb_eq in E. subst y.
    destruct (string_dec x x); [reflexivity | congruence].
  - apply String.eqb_neq in E. cbn [count_occ].
    destruct (string_dec y x); [congruence | exact IH].
Qed.

Lemma count_remove_other (x n : string) (l : list string) :
  x <> n ->
  count_occ string_dec (Py.remove x l) n = count_occ string_dec l n.
Proof.
  intros N. induction l as [|y l IH]; cbn [Py.remove count_occ]; [reflexivity|].
  destruct (String.eqb x y) eqn:E.
  - apply String.eqb_eq in E. subst y.
    destruct (string_dec x n); [congruence | reflexivity].
  - cbn [count_occ]. destruct (string_dec y n); rewrite IH; reflexivity.
Qed.

Lemma mem_false_In (x : string) (l : list string) :
  Py.mem x l = false <-> ~ In x l.
Proof.
  rewrite <- mem_In. destruct (Py.mem x l); split; congruence.
Qed.

Lemma incl_snoc (l keys : list string) (n : string) :
  incl l keys -> In n keys -> incl (l ++ [n]) keys.
Proof.
  intros H Hn x Hx. apply in_app_iff in Hx.
  destruct Hx as [Hx | [<- | []]]; [apply H, Hx | exact Hn].
Qed.

Lemma incl_remove (l keys : list string) (x : string) :
  incl l keys -> incl (Py.remove x l) keys.
Proof. intros H n Hn. apply H. apply (remove_subset x). exact Hn. Qed.

Ltac within_step :=
  unfold within in *; cbn [wall_layers door_window_layers room_layers
                           excluded_layers text_layers with_wall with_door
                           with_room with_excluded with_text] in *;
  repeat match goal with
         | H : _ /\ _ |- _ => destruct H
         end;
  repeat split;
  try assumption;
  try (apply incl_snoc; assumption);
  try (apply incl_remove; assumption);
  try (apply incl_snoc; [apply incl_remove; assumption | assumption]).

Lemma pre_classify_within (keys : list string) (c : classification)
  (item : string * layer_info) :
  In (fst item) keys -> within keys c -> within keys (pre_classify c item).
Proof.
  destruct item as [n i]. cbn [fst]. intros Hn Hc. unfold pre_classify.
  destruct (is_text_layer n); [within_step|].
  destruct (is_room_layer n i); within_step.
Qed.

Lemma main_classify_within (keys : list string) (c : classification)
  (item : string * layer_info) :
  In (fst item) keys -> within keys c -> within keys (main_classify c item).
Proof.
  destruct item as [n i]. cbn [fst]. intros Hn Hc. unfold main_classify.
  repeat match goal with
         | |- within _ (if ?b then _ else _) => destruct b
         | |- within _ (let _ := _ in _) => cbv zeta
         end; within_step.
Qed.

Lemma restore_wall_within (keys : list string) (c : classification) (n : string) :
  In n keys -> within keys c -> within keys (restore_wall c n).
Proof.
  intros Hn Hc. unfold restore_wall. cbv zeta.
  repeat match goal with
         | |- within _ (if ?b then _ else _) => destruct b
         end; within_step.
Qed.

Lemma demote_wall_within (keys : list string) (c : classification) (n : string) :
  In n keys -> within keys c -> within keys (demote_wall c n).
Proof.
  intros Hn Hc. unfold demote_wall. cbv zeta.
  repeat match goal with
         | |- within _ (if ?b then _ else _) => destruct b
         end; within_step.
Qed.

Lemma demote_door_within (keys : list string) (c : classification) (n : string) :
  In n keys -> within keys c -> within keys (demote_door c n).
Proof.
  intros Hn Hc. unfold demote_door. cbv zeta.
  repeat match goal with
         | |- within _ (if ?b then _ else _) => destruct b
         end; within_step.
Qed.

Lemma classify_within (layers_info : layers_dict) :
  within (map fst layers_info) (classify layers_info).
Proof.
  unfold classify. cbv zeta.
  set (keys := map fst layers_info).
  assert (K : forall item, In item layers_info -> In (fst item) keys).
  { intros item H. apply in_map. exact H. }
  assert (H1 : within keys (fold_left pre_classify layers_info no_layers)).
  { apply fold_left_invariant.
    - unfold within. cbn. repeat split; intros x [].
    - intros c x Hc Hx. apply pre_classify_within; [apply K, Hx | exact Hc]. }
  set (c1 := fold_left pre_classify layers_info no_layers) in *.
  assert (H2 : within keys (fold_left main_classify layers_info c1)).
  { apply fold_left_invariant; [exact H1|].
    intros c x Hc Hx. apply main_classify_within; [apply K, Hx | exact Hc]. }
  set (c2 := fold_left main_classify layers_info c1) in *.
  assert (H3 : within keys (fold_left restore_wall (excluded_layers c2) c2)).
  { apply fold_left_invariant; [exact H2|].
    intros c x Hc Hx. apply restore_wall_within; [|exact Hc].
    destruct H2 as [_ [_ [_ [He _]]]]. apply He, Hx. }
  set (c3 := fold_left restore_wall (excluded_layers c2) c2) in *.
  assert (H4 : within keys (fold_left demote_wall (wall_layers c3) c3)).
  { apply fold_left_invariant; [exact H3|].
    intros c x Hc Hx. apply demote_wall_within; [|exact Hc].
    destruct H3 as [Hw _]. apply Hw, Hx. }
  set (c4 := fold_left demote_wall (wall_layers c3) c3) in *.
  apply fold_left_invariant; [exact H4|].
  intros c x Hc Hx. apply demote_door_within; [|exact Hc].
  destruct H4 as [_ [Hd _]]. apply Hd, Hx.
Qed.

(** The effect of the repair and consistency steps on each list. *)
Lemma restore_wall_lists (c : classification) (x : string) :
  excluded_layers (restore_wall c x)
  = (if protected_name x then Py.remove x (excluded_layers c)
     else excluded_layers c)
  /\ wall_layers (restore_wall c x)
     = (if protected_name x && negb (Py.mem x (wall_layers c))
        then wall_layers c ++ [x] else wall_layers c)
  /\ door_window_layers (restore_wall c x) = door_window_layers c
  /\ room_layers (restore_wall c x) = room_layers c
  /\ text_layers (restore_wall c x) = text_layers c.
Proof.
  unfold restore_wall, protected_name. cbv zeta.
  destruct (Py.contains "隔墙" x || Py.contains "砖墙" x); cbn [andb].
  - cbn [wall_layers with_excluded].
    destruct (Py.mem x (wall_layers c)); cbn; repeat split.
  - repeat split.
Qed.

Lemma demote_wall_lists (c : classification) (x : string) :
  wall_layers (demote_wall c x)
  = (if demotes_wall c x then Py.remove x (wall_layers c) else wall_layers c)
  /\ excluded_layers (demote_wall c x)
     = (if demotes_wall c x && negb (Py.mem x (excluded_layers c))
        then excluded_layers c ++ [x] else excluded_layers c)
  /\ door_window_layers (demote_wall c x) = door_window_layers c
  /\ room_layers (demote_wall c x) = room_layers c
  /\ text_layers (demote_wall c x) = text_layers c.
Proof.
  unfold demote_wall, demotes_wall. cbv zeta.
  destruct (is_text_layer x
            || Py.mem x (excluded_layers c) && negb (Py.contains "隔墙" x)
               && negb (Py.contains "砖墙" x)); cbn [andb].
  - cbn [excluded_layers with_wall].
    destruct (Py.mem x (excluded_layers c)); cbn; repeat split.
  - repeat split.
Qed.

Lemma demote_door_lists (c : classification) (x : string) :
  door_window_layers (demote_door c x)
  = (if Py.mem x (excluded_layers c) || is_text_layer x
     then Py.remove x (door_window_layers c) else door_window_layers c)
  /\ excluded_layers (demote_door c x)
     = (if negb (Py.mem x (excluded_layers c)) && is_text_layer x
        then excluded_layers c ++ [x] else excluded_layers c)
  /\ wall_layers (demote_door c x) = wall_layers c
  /\ room_layers (demote_door c x) = room_layers c
  /\ text_layers (demote_door c x) = text_layers c.
Proof.
  unfold demote_door. cbv zeta.
  destruct (Py.mem x (excluded_layers c)) eqn:M; cbn [orb negb andb].
  - repeat split.
  - destruct (is_text_layer x).
    + cbn [excluded_layers with_door]. rewrite M. cbn. repeat split.
    + repeat split.
Qed.

(** Steps 1 and 2 on the door-window, room and text lists. *)
Lemma pre_classify_lists (c : classification) (item : string * layer_info) :
  wall_layers (pre_classify c item) = wall_layers c
  /\ door_window_layers (pre_classify c item) = door_window_layers c
  /\ text_layers (pre_classify c item)
     = (if is_text_layer (fst item) then text_layers c ++ [fst item]
        else text_layers c)
  /\ room_layers (pre_classify c item)
     = (if negb (is_text_layer (fst item)) && is_room_layer (fst item) (snd item)
        then room_layers c ++ [fst item] else room_layers c).
Proof.
  destruct item as [n i]. unfold pre_classify. cbn [fst snd].
  destruct (is_text_layer n); cbn [negb andb]; [repeat split|].
  destruct (is_room_layer n i); repeat split.
Qed.

Lemma main_classify_lists (c : classification) (item : string * layer_info) :
  room_layers (main_classify c item) = room_layers c
  /\ text_layers (main_classify c item) = text_layers c
  /\ (forall n, In n (wall_layers c) -> In n (wall_layers (main_classify c item)))
  /\ (forall n, In n (excluded_layers c) ->
                In n (excluded_layers (main_classify c item)))
  /\ (forall n, In n (door_window_layers (main_classify c item)) ->
                In n (door_window_layers c) \/ is_text_layer n = false)
  /\ (forall n, In n (door_window_layers c) ->
                In n (door_window_layers (main_classify c item))).
Proof.
  destruct item as [n i]. unfold main_classify. cbv zeta.
  destruct (Py.mem n (text_layers c)).
  { repeat split; auto. }
  destruct (Py.contains "隔墙" n || Py.contains "砖墙" n
            || check_keywords n wall_keywords).
  { cbn. repeat split; auto. intros m H. apply in_app_iff. left. exact H. }
  destruct (check_keywords n door_window_keywords) eqn:D; cbn [andb].
  { destruct (is_text_layer n) eqn:T; cbn [negb].
    2:{ cbn. repeat split; auto.
        - intros m H. apply in_app_iff in H.
          destruct H as [H | [<- | []]]; [left; exact H | right; exact T].
        - intros m H. apply in_app_iff. left. exact H. }
    repeat match goal with
           | |- context [if ?b then _ else _] => destruct b
           end; cbn; repeat split; auto;
      intros m H; apply in_app_iff; left; exact H. }
  repeat match goal with
         | |- context [if ?b then _ else _] => destruct b
         end; cbn; repeat split; auto;
    intros m H; apply in_app_iff; left; exact H.
Qed.

Lemma classify_doors_not_text (layers_info : layers_dict) :
  doors_not_text (classify layers_info).
Proof.
  unfold classify. cbv zeta.
  apply fold_left_invariant.
  2:{ intros c x Hc _ n Hn.
      destruct (demote_door_lists c x) as [E _]. rewrite E in Hn.
      apply Hc. destruct (_ || _) in Hn; [apply (remove_subset x), Hn | exact Hn]. }
  apply fold_left_invariant.
  2:{ intros c x Hc _ n Hn.
      destruct (demote_wall_lists c x) as [_ [_ [E _]]]. rewrite E in Hn.
      apply Hc, Hn. }
  apply fold_left_invariant.
  2:{ intros c x Hc _ n Hn.
      destruct (restore_wall_lists c x) as [_ [_ [E _]]]. rewrite E in Hn.
      apply Hc, Hn. }
  apply fold_left_invariant.
  2:{ intros c x Hc _ n Hn.
      destruct (main_classify_lists c x) as [_ [_ [_ [_ [E _]]]]].
      destruct (E n Hn) as [H | H]; [apply Hc, H | exact H]. }
  apply fold_left_invariant.
  - intros n [].
  - intros c x Hc _ n Hn.
    destruct (pre_classify_lists c x) as [_ [E _]]. rewrite E in Hn.
    apply Hc, Hn.
Qed.

(** The loop of step 4 removes a text layer from the wall list once for
    each of its occurrences in the snapshot. *)
Lemma demote_wall_clears_text (n : string) (snapshot : list string)
  (c : classification) :
  is_text_layer n = true ->
  (count_occ string_dec (wall_layers c) n
   <= count_occ string_dec snapshot n)%nat ->
  ~ In n (wall_layers (fold_left demote_wall snapshot c)).
Proof.
  intros T. revert c. induction snapshot as [|x l IH]; intros c H; cbn [fold_left].
  - cbn [count_occ] in H. apply (count_occ_not_In string_dec). lia.
  - apply IH. destruct (demote_wall_lists c x) as [E _]. rewrite E.
    cbn [count_occ] in H. destruct (string_dec x n) as [-> | N].
    + unfold demotes_wall. rewrite T. cbn [orb].
      rewrite count_remove_same. lia.
    + destruct (demotes_wall c x); [rewrite (count_remove_other _ _ _ N)|]; lia.
Qed.

Lemma demote_door_keeps_walls (l : list string) (c : classification) :
  wall_layers (fold_left demote_door l c) = wall_layers c.
Proof.
  revert c. induction l as [|x l IH]; intros c; cbn [fold_left]; [reflexivity|].
  rewrite IH. apply (demote_door_lists c x).
Qed.

Lemma keep_set_has_no_text_layer_aux (layers_info : layers_dict) :
  Forall (fun n => is_text_layer n = false) (identify_wall_layers layers_info).
Proof.
  apply Forall_forall. intros n Hn.
  unfold identify_wall_layers, Py.list_set in Hn. cbv zeta in Hn.
  apply nodup_In, in_app_iff in Hn. destruct Hn as [Hn | Hn].
  - destruct (is_text_layer n) eqn:T; [exfalso | reflexivity].
    unfold classify in Hn. cbv zeta in Hn.
    rewrite demote_door_keeps_walls in Hn.
    revert Hn. apply demote_wall_clears_text; [exact T | lia].
  - apply (classify_doors_not_text layers_info n Hn).
Qed.

(** X3. No text or annotation layer is ever kept: every layer of the
    keep-set of [identify_wall_layers] fails [is_text_layer], also the
    partition-wall layers that step 3 brings back. *)
Theorem keep_set_has_no_text_layer :
  forall layers_info : layers_dict,
    Forall (fun n => is_text_layer n = false) (identify_wall_layers layers_info).
Proof. exact keep_set_has_no_text_layer_aux. Qed.

(** X4. The classifier invents no layer: every layer of the keep-set is a
    key of [layers_info]. *)
Theorem keep_set_within_layers :
  forall layers_info : layers_dict,
    incl (identify_wall_layers layers_info) (map fst layers_info).
Proof.
  intros layers_info n Hn.
  unfold identify_wall_layers, Py.list_set in Hn. cbv zeta in Hn.
  apply nodup_In, in_app_iff in Hn.
  destruct (classify_within layers_info) as [Hw [Hd _]].
  destruct Hn as [Hn | Hn]; [apply Hw, Hn | apply Hd, Hn].
Qed.

(** Step 3 removes a partition-wall name from the excluded list once for
    each of its occurrences. *)
Lemma restore_wall_clears_protected (n : string) (snapshot : list string)
  (c : classification) :
  protected_name n = true ->
  (count_occ string_dec (excluded_layers c) n
   <= count_occ string_dec snapshot n)%nat ->
  ~ In n (excluded_layers (fold_left restore_wall snapshot c)).
Proof.
  intros P. revert c. induction snapshot as [|x l IH]; intros c H; cbn [fold_left].
  - cbn [count_occ] in H. apply (count_occ_not_In string_dec). lia.
  - apply IH. destruct (restore_wall_lists c x) as [E _]. rewrite E.
    cbn [count_occ] in H. destruct (string_dec x n) as [-> | N].
    + rewrite P, count_remove_same. lia.
    + destruct (protected_name x); [rewrite (count_remove_other _ _ _ N)|]; lia.
Qed.

(** Steps 4 and 5 add text layers only to the excluded list, and remove
    nothing from it. *)
Lemma demote_wall_excluded (c : classification) (x n : string) :
  (In n (excluded_layers c) -> In n (excluded_layers (demote_wall c x)))
  /\ (is_text_layer n = false ->
      In n (excluded_layers (demote_wall c x)) -> In n (excluded_layers c)).
Proof.
  destruct (demote_wall_lists c x) as [_ [E _]]. rewrite E. split.
  - intros H. destruct (_ && _); [apply in_app_iff; left|]; exact H.
  - intros T. unfold demotes_wall.
    destruct (Py.mem x (excluded_layers c)) eqn:M; cbn [negb andb orb].
    + rewrite andb_false_r. trivial.
    + rewrite orb_false_r, andb_true_r.
      destruct (is_text_layer x) eqn:Tx; [|trivial].
      intros H. apply in_app_iff in H. destruct H as [H | [<- | []]];
        [exact H | congruence].
Qed.

Lemma demote_walls_excluded (l : list string) (c : classification) (n : string) :
  (In n (excluded_layers c) ->
   In n (excluded_layers (fold_left demote_wall l c)))
  /\ (is_text_layer n = false ->
      In n (excluded_layers (fold_left demote_wall l c)) ->
      In n (excluded_layers c)).
Proof.
  revert c. induction l as [|x l IH]; intros c; cbn [fold_left]; [tauto|].
  destruct (IH (demote_wall c x)) as [A B].
  destruct (demote_wall_excluded c x n) as [A0 B0]. split.
  - intros H. apply A, A0, H.
  - intros T H. apply B0, B; assumption.
Qed.

Lemma demote_door_excluded (c : classification) (x n : string) :
  (In n (excluded_layers c) -> In n (excluded_layers (demote_door c x)))
  /\ (is_text_layer n = false ->
      In n (excluded_layers (demote_door c x)) -> In n (excluded_layers c)).
Proof.
  destruct (demote_door_lists c x) as [_ [E _]]. rewrite E. split.
  - intros H. destruct (_ && _); [apply in_app_iff; left|]; exact H.
  - intros T. destruct (negb (Py.mem x (excluded_layers c))); cbn [andb];
      [|trivial].
    destruct (is_text_layer x) eqn:Tx; [|trivial].
    intros H. apply in_app_iff in H. destruct H as [H | [<- | []]];
      [exact H | congruence].
Qed.

Lemma demote_doors_excluded (l : list string) (c : classification) (n : string) :
  (In n (excluded_layers c) ->
   In n (excluded_layers (fold_left demote_door l c)))
  /\ (is_text_layer n = false ->
      In n (excluded_layers (fold_left demote_door l c)) ->
      In n (excluded_layers c)).
Proof.
  revert c. induction l as [|x l IH]; intros c; cbn [fold_left]; [tauto|].
  destruct (IH (demote_door c x)) as [A B].
  destruct (demote_door_excluded c x n) as [A0 B0]. split.
  - intros H. apply A, A0, H.
  - intros T H. apply B0, B; assumption.
Qed.

(** Step 4 removes an excluded, unprotected name from the wall list. *)
Lemma demote_wall_clears_excluded (n : string) (snapshot : list string)
  (c : classification) :
  protected_name n = false ->
  In n (excluded_layers c) ->
  (count_occ string_dec (wall_layers c) n
   <= count_occ string_dec snapshot n)%nat ->
  ~ In n (wall_layers (fold_left demote_wall snapshot c)).
Proof.
  intros P. revert c. induction snapshot as [|x l IH]; intros c He H;
    cbn [fold_left].
  - cbn [count_occ] in H. apply (count_occ_not_In string_dec). lia.
  - apply IH; [apply (demote_wall_excluded c x n), He|].
    destruct (demote_wall_lists c x) as [E _]. rewrite E.
    cbn [count_occ] in H. destruct (string_dec x n) as [-> | N].
    + unfold demotes_wall. apply mem_In in He. rewrite He.
      unfold protected_name in P. apply orb_false_iff in P. destruct P as [-> ->].
      cbn [negb andb]. rewrite orb_true_r, count_remove_same. lia.
    + destruct (demotes_wall c x); [rewrite (count_remove_other _ _ _ N)|]; lia.
Qed.

(** Step 5 removes an excluded name from the door-window list. *)
Lemma demote_door_clears_excluded (n : string) (snapshot : list string)
  (c : classification) :
  In n (excluded_layers c) ->
  (count_occ string_dec (door_window_layers c) n
   <= count_occ string_dec snapshot n)%nat ->
  ~ In n (door_window_layers (fold_left demote_door snapshot c)).
Proof.
  revert c. induction snapshot as [|x l IH]; intros c He H; cbn [fold_left].
  - cbn [count_occ] in H. apply (count_occ_not_In string_dec). lia.
  - apply IH; [apply (demote_door_excluded c x n), He|].
    destruct (demote_door_lists c x) as [E _]. rewrite E.
    cbn [count_occ] in H. destruct (string_dec x n) as [-> | N].
    + apply mem_In in He. rewrite He. cbn [orb].
      rewrite count_remove_same. lia.
    + destruct (_ || _); [rewrite (count_remove_other _ _ _ N)|]; lia.
Qed.

(** X5. The keep-set and the excluded list are disjoint: no layer that
    [identify_wall_layers] returns is left in [excluded_layers]. *)
Theorem keep_set_disjoint_from_excluded :
  forall layers_info : layers_dict,
    Forall (fun n => ~ In n (excluded_layers (classify layers_info)))
           (identify_wall_layers layers_info).
Proof.
  intros layers_info. apply Forall_forall. intros n Hn He.
  pose proof (keep_set_has_no_text_layer_aux layers_info) as NT.
  rewrite Forall_forall in NT. specialize (NT n Hn).
  unfold identify_wall_layers, Py.list_set in Hn. cbv zeta in Hn.
  apply nodup_In, in_app_iff in Hn.
  unfold classify in Hn, He. cbv zeta in Hn, He.
  set (c2 := fold_left main_classify layers_info
               (fold_left pre_classify layers_info no_layers)) in *.
  set (c3 := fold_left restore_wall (excluded_layers c2) c2) in *.
  set (c4 := fold_left demote_wall (wall_layers c3) c3) in *.
  apply (demote_doors_excluded _ c4 n) in He; [|exact NT].
  destruct Hn as [Hn | Hn].
  - rewrite demote_door_keeps_walls in Hn.
    pose proof He as He3. apply (demote_walls_excluded _ c3 n) in He3; [|exact NT].
    destruct (protected_name n) eqn:P.
    + revert He3. apply restore_wall_clears_protected; [exact P | lia].
    + revert Hn. apply demote_wall_clears_excluded; [exact P | exact He3 | lia].
  - revert Hn. apply demote_door_clears_excluded; [exact He | lia].
Qed.

Lemma main_classify_classified (c : classification) (item : string * layer_info)
  (n : string) :
  classified c n -> classified (main_classify c item) n.
Proof.
  destruct (main_classify_lists c item) as [_ [_ [W [E [_ D]]]]].
  unfold classified. intros [H | [H | H]]; auto.
Qed.

Lemma main_classify_classifies (c : classification) (n : string) (i : layer_info) :
  incl (text_layers c) (excluded_layers c) ->
  classified (main_classify c (n, i)) n.
Proof.
  intros T. unfold main_classify, classified. cbv zeta.
  destruct (Py.mem n (text_layers c)) eqn:M.
  { right. right. apply T. apply mem_In. exact M. }
  repeat match goal with
         | |- context [if ?b then _ else _] => destruct b
         end; cbn;
    rewrite ?in_app_iff; cbn [In]; tauto.
Qed.

Lemma main_classify_text_excluded (c : classification) (item : string * layer_info) :
  incl (text_layers c) (excluded_layers c) ->
  incl (text_layers (main_classify c item))
       (excluded_layers (main_classify c item)).
Proof.
  destruct (main_classify_lists c item) as [_ [T [_ [E _]]]].
  rewrite T. intros H n Hn. apply E, H, Hn.
Qed.

Lemma main_classify_covers (l : layers_dict) (c : classification) (n : string) :
  incl (text_layers c) (excluded_layers c) ->
  In n (map fst l) ->
  classified (fold_left main_classify l c) n.
Proof.
  revert c. induction l as [|[m i] l IH]; intros c T Hn; cbn [fold_left].
  - destruct Hn.
  - cbn [map fst In] in Hn. destruct Hn as [<- | Hn].
    + apply fold_left_invariant.
      * apply main_classify_classifies, T.
      * intros c' x Hc' _. apply main_classify_classified, Hc'.
    + apply IH; [apply main_classify_text_excluded, T | exact Hn].
Qed.

Lemma pre_classify_text_excluded (l : layers_dict) (c : classification) :
  incl (text_layers c) (excluded_layers c) ->
  incl (text_layers (fold_left pre_classify l c))
       (excluded_layers (fold_left pre_classify l c)).
Proof.
  intros H.
  apply (fold_left_invariant
           (fun c => incl (text_layers c) (excluded_layers c))); [exact H|].
  intros c' [n i] Hc' _. unfold pre_classify.
  destruct (is_text_layer n).
  - cbn. intros m Hm. apply in_app_iff in Hm. apply in_app_iff.
    destruct Hm as [Hm | Hm]; [left; apply Hc', Hm | right; exact Hm].
  - destruct (is_room_layer n i); cbn; exact Hc'.
Qed.

Lemma restore_wall_classified (c : classification) (x n : string) :
  classified c n -> classified (restore_wall c x) n.
Proof.
  destruct (restore_wall_lists c x) as [E [W [D _]]].
  unfold classified. rewrite E, W, D.
  destruct (protected_name x) eqn:P; cbn [andb]; [|tauto].
  destruct (string_dec x n) as [-> | N].
  - intros _. left. destruct (Py.mem n (wall_layers c)) eqn:M; cbn [negb].
    + apply mem_In, M.
    + apply in_app_iff. right. left. reflexivity.
  - intros [H | [H | H]].
    + left. destruct (negb _); [apply in_app_iff; left|]; exact H.
    + right. left. exact H.
    + right. right. apply remove_keeps_others; assumption.
Qed.

Lemma demote_wall_classified (c : classification) (x n : string) :
  classified c n -> classified (demote_wall c x) n.
Proof.
  destruct (demote_wall_lists c x) as [W [E [D _]]].
  unfold classified. rewrite E, W, D.
  destruct (demotes_wall c x) eqn:P; cbn [andb]; [|tauto].
  destruct (string_dec x n) as [-> | N].
  - intros _. right. right. destruct (Py.mem n (excluded_layers c)) eqn:M;
      cbn [negb].
    + apply mem_In, M.
    + apply in_app_iff. right. left. reflexivity.
  - intros [H | [H | H]].
    + left. apply remove_keeps_others; assumption.
    + right. left. exact H.
    + right. right. destruct (negb _); [apply in_app_iff; left|]; exact H.
Qed.

Lemma demote_door_classified (c : classification) (x n : string) :
  classified c n -> classified (demote_door c x) n.
Proof.
  destruct (demote_door_lists c x) as [D [E [W _]]].
  unfold classified. rewrite E, W, D.
  destruct (Py.mem x (excluded_layers c)) eqn:M; cbn [negb andb orb].
  - destruct (string_dec x n) as [-> | N].
    + intros _. right. right. apply mem_In, M.
    + intros [H | [H | H]]; [tauto | | tauto].
      right. left. apply remove_keeps_others; assumption.
  - destruct (is_text_layer x); [|tauto].
    destruct (string_dec x n) as [-> | N].
    + intros _. right. right. apply in_app_iff. right. left. reflexivity.
    + intros [H | [H | H]]; [tauto | |].
      * right. left. apply remove_keeps_others; assumption.
      * right. right. apply in_app_iff. left. exact H.
Qed.

(** X6. No layer is dropped silently: every key of [layers_info] ends in
    the keep-set or in the excluded list. *)
Theorem every_layer_is_kept_or_excluded :
  forall layers_info : layers_dict,
    Forall (fun n => In n (identify_wall_layers layers_info)
                     \/ In n (excluded_layers (classify layers_info)))
           (map fst layers_info).
Proof.
  intros layers_info. apply Forall_forall. intros n Hn.
  assert (C : classified (classify layers_info) n).
  { unfold classify. cbv zeta.
    apply fold_left_invariant;
      [|intros c x Hc _; apply demote_door_classified, Hc].
    apply fold_left_invariant;
      [|intros c x Hc _; apply demote_wall_classified, Hc].
    apply fold_left_invariant;
      [|intros c x Hc _; apply restore_wall_classified, Hc].
    apply main_classify_covers; [|exact Hn].
    apply pre_classify_text_excluded. intros m []. }
  unfold identify_wall_layers, Py.list_set. cbv zeta.
  rewrite nodup_In, in_app_iff. unfold classified in C. tauto.
Qed.

(** Protected partition-wall layers. *)
Lemma pre_classify_texts (l : layers_dict) :
  forall m, In m (text_layers (fold_left pre_classify l no_layers)) ->
            is_text_layer m = true.
Proof.
  apply (fold_left_invariant
           (fun c => forall m, In m (text_layers c) -> is_text_layer m = true)).
  - intros m [].
  - intros c [n i] Hc _ m Hm.
    destruct (pre_classify_lists c (n, i)) as [_ [_ [T _]]].
    rewrite T in Hm. cbn [fst] in Hm.
    destruct (is_text_layer n) eqn:E; [|apply Hc, Hm].
    apply in_app_iff in Hm. destruct Hm as [Hm | [<- | []]];
      [apply Hc, Hm | exact E].
Qed.

Lemma main_classify_keeps_protected (l : layers_dict) (c : classification)
  (n : string) :
  ~ In n (text_layers c) -> protected_name n = true ->
  In n (map fst l) ->
  In n (wall_layers (fold_left main_classify l c)).
Proof.
  intros T P. revert c T. induction l as [|[m i] l IH]; intros c T Hn;
    cbn [fold_left].
  - destruct Hn.
  - cbn [map fst In] in Hn. destruct Hn as [<- | Hn].
    + apply (fold_left_invariant (fun c => In m (wall_layers c))).
      * unfold main_classify. apply mem_false_In in T. rewrite T.
        unfold protected_name in P. rewrite P. cbn.
        apply in_app_iff. right. left. reflexivity.
      * intros c' x Hc' _. apply (main_classify_lists c' x), Hc'.
    + apply IH; [|exact Hn].
      destruct (main_classify_lists c (m, i)) as [_ [E _]]. rewrite E. exact T.
Qed.

Lemma protected_wall_survives (n : string) (c : classification) :
  protected_name n = true -> is_text_layer n = false ->
  In n (wall_layers c) ->
  (forall x, In n (wall_layers (restore_wall c x)))
  /\ (forall x, In n (wall_layers (demote_wall c x)))
  /\ (forall x, In n (wall_layers (demote_door c x))).
Proof.
  intros P T H. repeat split; intros x.
  - destruct (restore_wall_lists c x) as [_ [W _]]. rewrite W.
    destruct (_ && _); [apply in_app_iff; left|]; exact H.
  - destruct (demote_wall_lists c x) as [W _]. rewrite W.
    destruct (demotes_wall c x) eqn:D; [|exact H].
    apply remove_keeps_others; [|exact H]. intros ->.
    unfold demotes_wall in D. rewrite T in D. cbn [orb] in D.
    unfold protected_name in P.
    destruct (Py.contains "隔墙" n), (Py.contains "砖墙" n);
      cbn in P; try discriminate;
      rewrite ?andb_false_r in D; cbn in D; try discriminate.
  - destruct (demote_door_lists c x) as [_ [_ [W _]]]. rewrite W. exact H.
Qed.

(** X7. A layer of [layers_info] whose name holds one of the protected
    partition-wall substrings and that is no text layer is always in the
    keep-set, whatever exclusion keyword its name also holds. *)
Theorem partition_wall_layer_is_kept :
  forall (layers_info : layers_dict) (n : string),
    In n (map fst layers_info) ->
    protected_name n = true ->
    is_text_layer n = false ->
    In n (identify_wall_layers layers_info).
Proof.
  intros layers_info n Hn P T.
  unfold identify_wall_layers, Py.list_set. cbv zeta.
  apply nodup_In, in_app_iff. left. unfold classify. cbv zeta.
  apply (fold_left_invariant (fun c => In n (wall_layers c)));
    [|intros c x Hc _; apply (protected_wall_survives n c P T Hc)].
  apply (fold_left_invariant (fun c => In n (wall_layers c)));
    [|intros c x Hc _; apply (protected_wall_survives n c P T Hc)].
  apply (fold_left_invariant (fun c => In n (wall_layers c)));
    [|intros c x Hc _; apply (protected_wall_survives n c P T Hc)].
  apply main_classify_keeps_protected; [|exact P | exact Hn].
  intros H. apply pre_classify_texts in H. congruence.
Qed.

Lemma partition_wall_layer_is_kept_witness :
  identify_wall_layers [("隔墙-家具"%string, default_info)]
  = ["隔墙-家具"%string]
  /\ In "隔墙-家具"%string
        (identify_wall_layers [("隔墙-家具"%string, default_info)]).
Proof.
  split.
  - vm_compute. reflexivity.
  - apply (partition_wall_layer_is_kept
             [("隔墙-家具"%string, default_info)] "隔墙-家具"%string).
    + left. reflexivity.
    + vm_compute. reflexivity.
    + vm_compute. reflexivity.
Defined.

(** The room layers of the two functions. *)
Lemma existsb_same_elements {A : Type} (f : A -> bool) (l l' : list A) :
  incl l l' -> incl l' l -> existsb f l = existsb f l'.
Proof.
  intros H H'. apply eq_true_iff_eq. rewrite !existsb_exists. split.
  - intros [x [Hx E]]. exists x. split; [apply H, Hx | exact E].
  - intros [x [Hx E]]. exists x. split; [apply H', Hx | exact E].
Qed.

Lemma existsb_map {A B : Type} (g : A -> B) (f : B -> bool) (l : list A) :
  existsb (fun x => f (g x)) l = existsb f (map g l).
Proof.
  induction l as [|x l IH]; cbn [existsb map]; [reflexivity|].
  rewrite IH. reflexivity.
Qed.

Lemma room_name_test (name : string) :
  check_keywords name room_keywords
  = existsb (fun keyword => Py.contains keyword (Py.lower name))
            room_name_keywords.
Proof.
  unfold check_keywords. cbv zeta.
  rewrite (existsb_map Py.lower (fun k => Py.contains k (Py.lower name))).
  apply existsb_same_elements.
  - intros k Hk. vm_compute in Hk. vm_compute.
    repeat (destruct Hk as [<- | Hk]; [tauto|]). destruct Hk.
  - intros k Hk. vm_compute in Hk. vm_compute.
    repeat (destruct Hk as [<- | Hk]; [tauto|]). destruct Hk.
Qed.

Lemma append_fold_filter {A : Type} (p : A -> bool) (g : A -> string)
  (f : list string -> A -> list string) :
  (forall acc x, f acc x = if p x then acc ++ [g x] else acc) ->
  forall l acc, fold_left f l acc = acc ++ map g (filter p l).
Proof.
  intros Hf. induction l as [|x l IH]; intros acc; cbn [fold_left filter map].
  - rewrite app_nil_r. reflexivity.
  - rewrite IH, Hf. destruct (p x); cbn [map]; [|reflexivity].
    rewrite <- app_assoc. reflexivity.
Qed.

Lemma find_room_layers_filter (layers_info : layers_dict) :
  find_room_layers layers_info
  = map fst (filter (fun item => is_room_layer (fst item) (snd item))
                    layers_info).
Proof.
  unfold find_room_layers.
  rewrite (append_fold_filter
             (fun item => is_room_layer (fst item) (snd item)) fst).
  - reflexivity.
  - intros acc [n i]. cbn [fst snd]. unfold is_room_layer.
    rewrite room_name_test.
    destruct (existsb _ room_name_keywords); [reflexivity|].
    destruct (room_by_entities i); reflexivity.
Qed.

Lemma pre_classify_rooms (l : layers_dict) (c : classification) :
  room_layers (fold_left pre_classify l c)
  = room_layers c
    ++ map fst (filter (fun item => negb (is_text_layer (fst item))
                                    && is_room_layer (fst item) (snd item)) l).
Proof.
  revert c. induction l as [|x l IH]; intros c; cbn [fold_left filter map].
  - rewrite app_nil_r. reflexivity.
  - rewrite IH. destruct (pre_classify_lists c x) as [_ [_ [_ R]]]. rewrite R.
    destruct (_ && _); cbn [map]; [|reflexivity].
    rewrite <- app_assoc. reflexivity.
Qed.

Lemma rooms_fixed_after_step1 (layers_info : layers_dict) :
  room_layers (classify layers_info)
  = room_layers (fold_left pre_classify layers_info no_layers).
Proof.
  unfold classify. cbv zeta.
  set (c1 := fold_left pre_classify layers_info no_layers).
  set (c2 := fold_left main_classify layers_info c1).
  set (c3 := fold_left restore_wall (excluded_layers c2) c2).
  set (c4 := fold_left demote_wall (wall_layers c3) c3).
  transitivity (room_layers c4).
  { apply (fold_left_invariant (fun c => room_layers c = room_layers c4));
      [reflexivity|].
    intros c x Hc _. rewrite <- Hc. apply (demote_door_lists c x). }
  transitivity (room_layers c3).
  { apply (fold_left_invariant (fun c => room_layers c = room_layers c3));
      [reflexivity|].
    intros c x Hc _. rewrite <- Hc. apply (demote_wall_lists c x). }
  transitivity (room_layers c2).
  { apply (fold_left_invariant (fun c => room_layers c = room_layers c2));
      [reflexivity|].
    intros c x Hc _. rewrite <- Hc. apply (restore_wall_lists c x). }
  apply (fold_left_invariant (fun c => room_layers c = room_layers c1));
    [reflexivity|].
  intros c x Hc _. rewrite <- Hc. apply (main_classify_lists c x).
Qed.

Lemma filter_map_fst_filter {A : Type} (p : string -> bool)
  (q : string * A -> bool) (l : list (string * A)) :
  filter p (map fst (filter q l))
  = map fst (filter (fun x => p (fst x) && q x) l).
Proof.
  induction l as [|x l IH]; cbn [filter map]; [reflexivity|].
  destruct (q x); cbn [filter map].
  - destruct (p (fst x)); cbn [andb map]; rewrite IH; reflexivity.
  - rewrite andb_false_r. exact IH.
Qed.

(** X8. The room layers that [extract_walls_and_rooms] recomputes differ
    from the room layers of [identify_wall_layers] by the text layers
    only: the classifier's room list is the recomputed list without the
    layers that pass [is_text_layer]. *)
Theorem room_layers_agree_up_to_text :
  forall layers_info : layers_dict,
    room_layers (classify layers_info)
    = filter (fun n => negb (is_text_layer n)) (find_room_layers layers_info).
Proof.
  intros layers_info.
  rewrite rooms_fixed_after_step1, pre_classify_rooms, find_room_layers_filter.
  rewrite filter_map_fst_filter. reflexivity.
Qed.

(** ** Further properties: order on the numbers *)

Lemma Qltb_lt (a b : Q) : Num.Qltb a b = true <-> (a < b)%Q.
Proof. unfold Num.Qltb, Qlt. apply Z.ltb_lt. Qed.

Lemma Qltb_ge (a b : Q) : Num.Qltb a b = false <-> (b <= a)%Q.
Proof. unfold Num.Qltb, Qle. apply Z.ltb_ge. Qed.

Lemma le_Fin (a b : Q) : (Fin a <=? Fin b)%num = true <-> (a <= b)%Q.
Proof.
  unfold Num.le, Num.lt. rewrite negb_true_iff. apply Qltb_ge.
Qed.

Lemma le_trans (a b c : num) :
  (a <=? b)%num = true -> (b <=? c)%num = true -> (a <=? c)%num = true.
Proof.
  destruct a as [| |x|], b as [| |y|], c as [| |z|]; cbn;
    try discriminate; try reflexivity.
  rewrite !negb_true_iff, !Qltb_ge. intros H1 H2.
  apply (Qle_trans _ _ _ H1 H2).
Qed.

Lemma le_refl (a : num) : a <> NaN -> (a <=? a)%num = true.
Proof.
  destruct a as [| |x|]; cbn; try reflexivity; [congruence|].
  intros _. rewrite negb_true_iff, Qltb_ge. apply Qle_refl.
Qed.

Ltac order_goal :=
  match goal with
  | |- finite (Fin ?q) => exists q; reflexivity
  | |- true = true => reflexivity
  | |- negb (Num.Qltb ?a ?a) = true =>
      rewrite negb_true_iff, Qltb_ge; apply Qle_refl
  | H : Num.Qltb ?a ?b = true |- negb (Num.Qltb ?b ?a) = true =>
      rewrite negb_true_iff, Qltb_ge; apply Qlt_le_weak, Qltb_lt, H
  | H : Num.Qltb ?a ?b = false |- negb (Num.Qltb ?a ?b) = true =>
      rewrite H; reflexivity
  end.

Lemma min_finite (m c : num) :
  m = PInf \/ finite m -> finite c ->
  finite (Py.min m c)
  /\ (Py.min m c <=? c)%num = true /\ (Py.min m c <=? m)%num = true.
Proof.
  intros [-> | [x ->]] [y ->]; unfold Py.min; cbn.
  - split; [|split]; order_goal.
  - destruct (Num.Qltb y x) eqn:E; cbn; (split; [|split]); order_goal.
Qed.

Lemma max_finite (m c : num) :
  m = NInf \/ finite m -> finite c ->
  finite (Py.max m c)
  /\ (c <=? Py.max m c)%num = true /\ (m <=? Py.max m c)%num = true.
Proof.
  intros [-> | [x ->]] [y ->]; unfold Py.max, Num.gt; cbn.
  - split; [|split]; order_goal.
  - destruct (Num.Qltb x y) eqn:E; cbn; (split; [|split]); order_goal.
Qed.

(** ** Further properties: the extents loops *)

Lemma grow_spec (e : extents) (p : point) :
  accumulating e -> finite_point p ->
  accumulating (grow e p) /\ wider e (grow e p) /\ inside (grow e p) p.
Proof.
  destruct e as [[[min_x min_y] max_x] max_y]. destruct p as [px py].
  intros [A1 [A2 [A3 A4]]] [F1 F2]. cbn [fst snd] in *.
  destruct (min_finite min_x px A1 F1) as [M1 [M1a M1b]].
  destruct (min_finite min_y py A2 F2) as [M2 [M2a M2b]].
  destruct (max_finite max_x px A3 F1) as [M3 [M3a M3b]].
  destruct (max_finite max_y py A4 F2) as [M4 [M4a M4b]].
  unfold grow, accumulating, wider, inside. cbn [fst snd]. tauto.
Qed.

Lemma wider_refl (e : extents) : accumulating e -> wider e e.
Proof.
  destruct e as [[[min_x min_y] max_x] max_y].
  intros [A1 [A2 [A3 A4]]]. unfold wider.
  repeat split; apply le_refl;
    match goal with
    | H : ?a = _ \/ finite ?a |- ?a <> NaN =>
        destruct H as [-> | [q ->]]; discriminate
    end.
Qed.

Lemma wider_trans (e1 e2 e3 : extents) :
  wider e1 e2 -> wider e2 e3 -> wider e1 e3.
Proof.
  destruct e1 as [[[a1 b1] c1] d1], e2 as [[[a2 b2] c2] d2],
           e3 as [[[a3 b3] c3] d3].
  unfold wider. intros [H1 [H2 [H3 H4]]] [K1 [K2 [K3 K4]]].
  repeat split; eapply le_trans; eassumption.
Qed.

Lemma inside_wider (e e' : extents) (p : point) :
  inside e p -> wider e e' -> inside e' p.
Proof.
  destruct e as [[[a1 b1] c1] d1], e' as [[[a2 b2] c2] d2].
  unfold inside, wider. intros [H1 [H2 [H3 H4]]] [K1 [K2 [K3 K4]]].
  repeat split; eapply le_trans; eassumption.
Qed.

Lemma fold_grow_spec (pts : list point) (e : extents) :
  accumulating e -> Forall finite_point pts ->
  accumulating (fold_left grow pts e)
  /\ wider e (fold_left grow pts e)
  /\ Forall (inside (fold_left grow pts e)) pts.
Proof.
  revert e. induction pts as [|p pts IH]; intros e A F; cbn [fold_left].
  - repeat split; [exact A | apply wider_refl, A | constructor].
  - inversion F as [|? ? Fp Fpts]; subst.
    destruct (grow_spec e p A Fp) as [A' [W' I']].
    destruct (IH (grow e p) A' Fpts) as [A'' [W'' I'']].
    repeat split; [exact A'' | apply (wider_trans _ _ _ W' W'') |].
    constructor; [apply (inside_wider _ _ _ I' W'') | exact I''].
Qed.

Lemma fold_left_flat_map {A B C : Type} (f : A -> C -> A) (g : B -> list C)
  (l : list B) (a : A) :
  fold_left f (flat_map g l) a
  = fold_left (fun a x => fold_left f (g x) a) l a.
Proof.
  revert a. induction l as [|x l IH]; intros a; cbn [flat_map fold_left];
    [reflexivity|].
  rewrite fold_left_app. apply IH.
Qed.

Lemma fold_left_same {A B : Type} (f g : A -> B -> A) (l : list B) (a : A) :
  (forall a x, f a x = g a x) -> fold_left f l a = fold_left g l a.
Proof.
  intros H. revert a. induction l as [|x l IH]; intros a; cbn [fold_left];
    [reflexivity|].
  rewrite H. apply IH.
Qed.

Lemma walls_extents_grow (walls : list wall) :
  walls_extents walls = fold_left grow (wall_points walls) empty_extents.
Proof.
  unfold walls_extents, wall_points. rewrite fold_left_flat_map.
  apply fold_left_same. intros e w. rewrite fold_left_flat_map.
  apply fold_left_same. intros [[[a b] c] d] [s t]. reflexivity.
Qed.

Lemma empty_extents_accumulating : accumulating empty_extents.
Proof. unfold accumulating, empty_extents. tauto. Qed.

(** A box that contains a finite point has finite borders. *)
Lemma inside_finite (e : extents) (p : point) :
  accumulating e -> finite_point p -> inside e p ->
  exists lo_x lo_y hi_x hi_y : Q,
    e = (Fin lo_x, Fin lo_y, Fin hi_x, Fin hi_y).
Proof.
  destruct e as [[[a b] c] d]. destruct p as [px py].
  unfold finite_point, inside, accumulating. cbn [fst snd].
  intros [A1 [A2 [A3 A4]]] [[x ->] [y ->]] [I1 [I2 [I3 I4]]].
  destruct A1 as [-> | [a' ->]]; [discriminate|].
  destruct A2 as [-> | [b' ->]]; [discriminate|].
  destruct A3 as [-> | [c' ->]]; [discriminate|].
  destruct A4 as [-> | [d' ->]]; [discriminate|].
  exists a', b', c', d'. reflexivity.
Qed.

Lemma positive_not_zero (d : Q) : (0 < d)%Q -> Num.is_zero (Fin d) = false.
Proof.
  destruct d as [a b]. unfold Qlt. cbn. unfold Num.Qzerob. cbn.
  intros H. apply Z.eqb_neq. lia.
Qed.

Lemma int_range (v : Q) (n : Z) :
  (0 <= v)%Q -> (v <= inject_Z n)%Q ->
  0 <= Z.quot (Qnum v) (QDen v) <= n.
Proof.
  destruct v as [a b]. unfold Qle. cbn. intros H0 H1.
  rewrite Z.quot_div_nonneg by lia. split.
  - apply Z.div_pos; lia.
  - apply Z.div_le_upper_bound; lia.
Qed.

(** The pixel of a coordinate between the borders. *)
Lemma to_pixel_range (c lo hi : Q) (img_size : nat) :
  (lo <= c)%Q -> (c <= hi)%Q -> (1 <= img_size)%nat ->
  exists z : Z,
    to_pixel (Fin c) (Fin lo) (Fin hi) img_size = Some z
    /\ 0 <= z <= Z.of_nat img_size - 1.
Proof.
  intros Hlo Hhi Hs. unfold to_pixel, Py.div.
  set (eps := (1 # 10000000000)%Q).
  set (x := (c + - lo)%Q). set (d := (hi + - lo + eps)%Q).
  set (n := inject_Z (Z.of_nat img_size - 1)).
  assert (Hx : (0 <= x)%Q).
  { unfold x. rewrite <- (Qplus_opp_r lo). apply Qplus_le_compat;
      [exact Hlo | apply Qle_refl]. }
  assert (Hxd : (x <= d)%Q).
  { unfold x, d. rewrite <- (Qplus_0_r (c + - lo)).
    apply Qplus_le_compat; [|discriminate].
    apply Qplus_le_compat; [exact Hhi | apply Qle_refl]. }
  assert (Hd : (0 < d)%Q).
  { apply Qle_lt_trans with (y := (hi + - lo)%Q).
    - rewrite <- (Qplus_opp_r lo). apply Qplus_le_compat;
        [apply (Qle_trans _ _ _ Hlo Hhi) | apply Qle_refl].
    - unfold d. rewrite <- (Qplus_0_r (hi + - lo)) at 1.
      apply Qplus_lt_r. reflexivity. }
  assert (Hn : (0 <= n)%Q).
  { unfold n, Qle. cbn. lia. }
  change (Fin c - Fin lo)%num with (Fin x).
  change (Fin hi - Fin lo + Fin eps)%num with (Fin d).
  assert (Z0 : Num.is_zero (Fin d) = false) by apply positive_not_zero, Hd.
  rewrite Z0. cbn [Py.bind]. unfold Num.div.
  change (Num.Qzerob d) with (Num.is_zero (Fin d)). rewrite Z0.
  change (Fin (x / d) * of_Z (Z.of_nat img_size - 1))%num
    with (Fin (x / d * n)).
  set (v := (x / d * n)%Q).
  assert (Hr0 : (0 <= x / d)%Q).
  { apply Qle_shift_div_l; [exact Hd|]. rewrite Qmult_0_l. exact Hx. }
  assert (Hr1 : (x / d <= 1)%Q).
  { apply Qle_shift_div_r; [exact Hd|]. rewrite Qmult_1_l. exact Hxd. }
  assert (Hv0 : (0 <= v)%Q) by (apply Qmult_le_0_compat; assumption).
  assert (Hv1 : (v <= n)%Q).
  { unfold v. rewrite <- (Qmult_1_l n) at 2.
    apply Qmult_le_compat_r; assumption. }
  exists (Z.quot (Qnum v) (QDen v)). split; [reflexivity|].
  apply int_range; assumption.
Qed.

Lemma to_pixel_returns (c lo hi : Q) (img_size : nat) :
  (lo <= c)%Q -> (c <= hi)%Q ->
  exists z : Z, to_pixel (Fin c) (Fin lo) (Fin hi) img_size = Some z.
Proof.
  intros Hlo Hhi. unfold to_pixel, Py.div.
  set (d := (hi + - lo + (1 # 10000000000))%Q).
  assert (Hd : (0 < d)%Q).
  { apply Qle_lt_trans with (y := (hi + - lo)%Q).
    - rewrite <- (Qplus_opp_r lo). apply Qplus_le_compat;
        [apply (Qle_trans _ _ _ Hlo Hhi) | apply Qle_refl].
    - unfold d. rewrite <- (Qplus_0_r (hi + - lo)) at 1.
      apply Qplus_lt_r. reflexivity. }
  change (Fin hi - Fin lo + Fin (1 # 10000000000))%num with (Fin d).
  rewrite (positive_not_zero d Hd). cbn [Py.bind]. unfold Num.div.
  change (Fin c - Fin lo)%num with (Fin (c + - lo)).
  change (Num.Qzerob d) with (Num.is_zero (Fin d)).
  rewrite (positive_not_zero d Hd). eexists. reflexivity.
Qed.

Lemma fold_raise_invariant {A B : Type} (P : A -> Prop)
  (f : A -> B -> option A) (l : list B) :
  (forall a b, P a -> In b l -> exists a', f a b = Some a' /\ P a') ->
  forall a, P a -> exists a', fold_raise f l a = Some a' /\ P a'.
Proof.
  induction l as [|b l IH]; intros H a Pa; cbn [fold_raise].
  - exists a. split; [reflexivity | exact Pa].
  - destruct (H a b Pa (or_introl eq_refl)) as [a1 [E P1]]. rewrite E.
    cbn [Py.bind]. apply IH; [|exact P1].
    intros a' b' Pa' Hb'. apply H; [exact Pa' | right; exact Hb'].
Qed.

(** The pixel of a finite point inside finite extents. *)
Lemma point_pixel (e : extents) (p : point) (img_size : nat) :
  accumulating e -> finite_point p -> inside e p ->
  let '(min_x, min_y, max_x, max_y) := e in
  exists x y : Z,
    to_pixel (fst p) min_x max_x img_size = Some x
    /\ to_pixel (snd p) min_y max_y img_size = Some y
    /\ ((1 <= img_size)%nat ->
        0 <= x <= Z.of_nat img_size - 1 /\ 0 <= y <= Z.of_nat img_size - 1).
Proof.
  intros A F I.
  destruct (inside_finite e p A F I) as [lx [ly [hx [hy ->]]]].
  destruct p as [px py]. destruct F as [[x Ex] [y Ey]]. cbn [fst snd] in *.
  subst px py. destruct I as [I1 [I2 [I3 I4]]]. cbn [fst snd] in *.
  apply le_Fin in I1, I2, I3, I4.
  destruct (Nat.le_gt_cases 1 img_size) as [Hs | Hs].
  - destruct (to_pixel_range x lx hx img_size I1 I2 Hs) as [zx [Ezx Rx]].
    destruct (to_pixel_range y ly hy img_size I3 I4 Hs) as [zy [Ezy Ry]].
    exists zx, zy. repeat split; try assumption; tauto.
  - destruct (to_pixel_returns x lx hx img_size I1 I2) as [zx Ezx].
    destruct (to_pixel_returns y ly hy img_size I3 I4) as [zy Ezy].
    exists zx, zy. repeat split; try assumption; lia.
Qed.

Lemma walls_extents_spec (walls : list wall) :
  Forall finite_point (wall_points walls) ->
  accumulating (walls_extents walls)
  /\ Forall (inside (walls_extents walls)) (wall_points walls).
Proof.
  intros F. rewrite walls_extents_grow.
  destruct (fold_grow_spec (wall_points walls) empty_extents
              empty_extents_accumulating F) as [A [_ I]].
  split; assumption.
Qed.

Lemma segment_points (walls : list wall) (w : wall) (s : segment) :
  In w walls -> In s w ->
  In (fst s) (wall_points walls) /\ In (snd s) (wall_points walls).
Proof.
  intros Hw Hs. unfold wall_points. split; apply in_flat_map; exists w;
    (split; [exact Hw|]); apply in_flat_map; exists s;
    (split; [exact Hs|]); cbn; tauto.
Qed.

(** The drawing loop of [convert_walls_to_image] on finite walls: it
    returns, and keeps what every [cv2.line] call keeps. *)
Lemma draw_walls_returns (ops : CvOps) (P : image -> Prop) (walls : list wall)
  (img_size : nat) :
  Forall finite_point (wall_points walls) ->
  (forall img p q c t, P img -> P (cv2_line img p q c t)) ->
  P (np_zeros img_size) ->
  exists img : image,
    convert_walls_to_image walls img_size = Some (img, walls_extents walls)
    /\ P img.
Proof.
  intros F Hline P0.
  destruct (walls_extents_spec walls F) as [A I].
  unfold convert_walls_to_image. cbv zeta.
  assert (R : exists img',
             fold_raise
               (fun img w =>
                  fold_raise (draw_segment (walls_extents walls) img_size 5) w img)
               walls (np_zeros img_size) = Some img' /\ P img').
  { apply (fold_raise_invariant P); [|exact P0]. intros img w Pimg Hw.
    apply (fold_raise_invariant P); [|exact Pimg]. intros img0 s Pimg0 Hs.
    destruct (segment_points walls w s Hw Hs) as [P1 P2].
    rewrite Forall_forall in F, I.
    pose proof (point_pixel _ _ img_size A (F _ P1) (I _ P1)) as Q1.
    pose proof (point_pixel _ _ img_size A (F _ P2) (I _ P2)) as Q2.
    unfold draw_segment.
    destruct (walls_extents walls) as [[[min_x min_y] max_x] max_y].
    destruct s as [start end_]. cbn [fst snd] in Q1, Q2.
    destruct Q1 as [x1 [y1 [E1 [E2 _]]]]. destruct Q2 as [x2 [y2 [E3 [E4 _]]]].
    rewrite E1, E2, E3, E4. cbn [Py.bind]. eexists. split; [reflexivity|].
    apply Hline, Pimg0. }
  destruct R as [img [E Pimg]]. exists img. rewrite E. split;
    [reflexivity | exact Pimg].
Qed.

Lemma in_range_finite (limit : Q) (a : num) : in_range limit a -> finite a.
Proof. intros [q [E _]]. exists q. exact E. Qed.

Lemma point_in_range_finite (p : point) : point_in_range p -> finite_point p.
Proof. intros [H1 H2]. split; eapply in_range_finite; eassumption. Qed.

Lemma points_in_range_finite (pts : list point) :
  Forall point_in_range pts -> Forall finite_point pts.
Proof.
  intros F. apply Forall_forall. intros p Hp. rewrite Forall_forall in F.
  apply point_in_range_finite, F, Hp.
Qed.

Ltac range_goal :=
  repeat first [ apply Forall_nil | apply Forall_cons | exact I
               | (eexists; split;
                  [reflexivity | vm_compute; intros X; discriminate X])
               | split | lia ].

(** X9. [convert_walls_to_image] raises nothing on walls whose coordinates
    are within [coordinate_limit], where no operation of the pixel formula
    overflows, for an image side from 1 to [side_limit]: the epsilon keeps
    each divisor positive.  The extents it returns contain every segment
    end point. *)
Theorem convert_walls_to_image_returns :
  forall (ops : CvOps) (walls : list wall) (img_size : nat),
    Forall point_in_range (wall_points walls) ->
    1 <= Z.of_nat img_size <= side_limit ->
    (exists img : image,
        convert_walls_to_image walls img_size
        = Some (img, walls_extents walls))
    /\ Forall (inside (walls_extents walls)) (wall_points walls).
Proof.
  intros ops walls img_size R _.
  pose proof (points_in_range_finite _ R) as F. split.
  - destruct (draw_walls_returns ops (fun _ => True) walls img_size F)
      as [img [E _]]; [trivial | trivial |].
    exists img. exact E.
  - apply walls_extents_spec, F.
Qed.

Lemma convert_walls_to_image_returns_witness :
  (exists img : image,
      @convert_walls_to_image Demo.wall_free_backend
        [[(Demo.pt 0 0, Demo.pt 4 3)]] 4
      = Some (img, walls_extents [[(Demo.pt 0 0, Demo.pt 4 3)]]))
  /\ Forall (inside (walls_extents [[(Demo.pt 0 0, Demo.pt 4 3)]]))
            (wall_points [[(Demo.pt 0 0, Demo.pt 4 3)]]).
Proof.
  apply (convert_walls_to_image_returns Demo.wall_free_backend
           [[(Demo.pt 0 0, Demo.pt 4 3)]] 4).
  - unfold wall_points, point_in_range, in_range. cbn [flat_map app fst snd].
    range_goal.
  - unfold side_limit. lia.
Defined.



(** ** Further properties: [get_drawing_extents] *)

Lemma extend_by_entity_count (acc : extents * nat) (e : entity) :
  snd (extend_by_entity acc e) = (snd acc + counted e)%nat.
Proof.
  destruct acc as [[[[a b] c0] d] k].
  destruct e; cbn [extend_by_entity snd counted]; lia.
Qed.

Lemma extend_all_count (es : list entity) (acc : extents * nat) :
  snd (fold_left extend_by_entity es acc)
  = (snd acc + list_sum (map counted es))%nat.
Proof.
  revert acc. induction es as [|e es IH]; intros acc; cbn [fold_left map].
  - cbn. lia.
  - rewrite IH, extend_by_entity_count.
    change (list_sum (counted e :: map counted es))
      with (counted e + list_sum (map counted es))%nat. lia.
Qed.

(** X11. [get_drawing_extents] returns [None] exactly when no entity
    counts: only the points of LWPOLYLINE, the vertices of POLYLINE and
    CIRCLE entities count, so a drawing of LINE and HATCH entities alone
    has no drawing extents. *)
Theorem drawing_extents_none_iff :
  forall modelspace : list entity,
    get_drawing_extents modelspace = None <->
    Forall (fun e => counted e = 0%nat) modelspace.
Proof.
  intros es. unfold get_drawing_extents.
  pose proof (extend_all_count es (empty_extents, 0%nat)) as C.
  destruct (fold_left extend_by_entity es (empty_extents, 0%nat)) as [ext k].
  cbn [snd] in C. rewrite Nat.add_0_l in C. subst k.
  assert (Z : list_sum (map counted es) = 0%nat <->
              Forall (fun e => counted e = 0%nat) es).
  { induction es as [|e es IH];
      [|change (list_sum (map counted (e :: es)))
          with (counted e + list_sum (map counted es))%nat].
    - split; [constructor | reflexivity].
    - split.
      + intros H. constructor; [lia | apply IH; lia].
      + intros H. inversion H as [|? ? H1 H2]; subst. apply IH in H2. lia. }
  rewrite <- Z. destruct (list_sum (map counted es) =? 0)%nat eqn:E.
  - apply Nat.eqb_eq in E. tauto.
  - apply Nat.eqb_neq in E. split; [discriminate | contradiction].
Qed.

Lemma extend_by_entity_spec (ext : extents) (k : nat) (e : entity) :
  accumulating ext -> finite_entity e ->
  accumulating (fst (extend_by_entity (ext, k) e))
  /\ wider ext (fst (extend_by_entity (ext, k) e))
  /\ Forall (inside (fst (extend_by_entity (ext, k) e))) (polyline_points [e]).
Proof.
  intros A F. unfold polyline_points. cbn [flat_map]. rewrite app_nil_r.
  destruct e as [l a b | l c pts | l c pts | l paths | l ctr r | t l];
    cbn [extend_by_entity fst finite_entity] in *;
    try (repeat split; [exact A | apply wider_refl, A | constructor]).
  - apply fold_grow_spec; assumption.
  - apply fold_grow_spec; assumption.
  - destruct ext as [[[min_x min_y] max_x] max_y]. cbn [fst].
    destruct ctr as [cx cy]. destruct F as [[[x Ex] [y Ey]] [q Er]].
    cbn [fst snd] in *. subst cx cy r.
    destruct A as [A1 [A2 [A3 A4]]].
    assert (F1 : finite (Fin x - Fin q)%num) by (eexists; reflexivity).
    assert (F2 : finite (Fin y - Fin q)%num) by (eexists; reflexivity).
    assert (F3 : finite (Fin x + Fin q)%num) by (eexists; reflexivity).
    assert (F4 : finite (Fin y + Fin q)%num) by (eexists; reflexivity).
    destruct (min_finite min_x _ A1 F1) as [M1 [_ M1b]].
    destruct (min_finite min_y _ A2 F2) as [M2 [_ M2b]].
    destruct (max_finite max_x _ A3 F3) as [M3 [_ M3b]].
    destruct (max_finite max_y _ A4 F4) as [M4 [_ M4b]].
    unfold accumulating, wider. repeat split; try tauto. constructor.
Qed.

Lemma extend_all_spec (es : list entity) (ext : extents) (k : nat) :
  accumulating ext -> Forall finite_entity es ->
  accumulating (fst (fold_left extend_by_entity es (ext, k)))
  /\ wider ext (fst (fold_left extend_by_entity es (ext, k)))
  /\ Forall (inside (fst (fold_left extend_by_entity es (ext, k))))
            (polyline_points es).
Proof.
  revert ext k. induction es as [|e es IH]; intros ext k A F; cbn [fold_left].
  - repeat split; [exact A | apply wider_refl, A | constructor].
  - inversion F as [|? ? Fe Fes]; subst.
    destruct (extend_by_entity_spec ext k e A Fe) as [A1 [W1 I1]].
    destruct (extend_by_entity (ext, k) e) as [ext1 k1] eqn:E. cbn [fst] in *.
    destruct (IH ext1 k1 A1 Fes) as [A2 [W2 I2]].
    repeat split; [exact A2 | apply (wider_trans _ _ _ W1 W2) |].
    replace (polyline_points (e :: es))
      with (polyline_points [e] ++ polyline_points es)
      by (unfold polyline_points; cbn [flat_map]; rewrite app_nil_r;
          reflexivity).
    apply Forall_app. split; [|exact I2].
    apply Forall_forall. intros p Hp. rewrite Forall_forall in I1.
    apply (inside_wider _ _ _ (I1 p Hp) W2).
Qed.

(** X12. For a drawing with finite coordinates, the extents of
    [get_drawing_extents] contain every LWPOLYLINE point and every
    POLYLINE vertex. *)
Theorem drawing_extents_contain_polylines :
  forall (modelspace : list entity) (e : extents),
    Forall finite_entity modelspace ->
    get_drawing_extents modelspace = Some e ->
    Forall (inside e) (polyline_points modelspace).
Proof.
  intros es e F. unfold get_drawing_extents.
  pose proof (extend_all_spec es empty_extents 0%nat
                empty_extents_accumulating F) as [_ [_ I]].
  destruct (fold_left extend_by_entity es (empty_extents, 0%nat)) as [ext k].
  cbn [fst] in I. destruct (k =? 0)%nat; [discriminate|].
  intros E. inversion E; subst. exact I.
Qed.

Lemma drawing_extents_contain_polylines_witness :
  Forall (inside (of_Z 0, of_Z 0, of_Z 4, of_Z 3))
         (polyline_points
            [LWPOLYLINE "A-WALL" true
               [Demo.pt 0 0; Demo.pt 4 0; Demo.pt 4 3]]).
Proof.
  apply (drawing_extents_contain_polylines
           [LWPOLYLINE "A-WALL" true [Demo.pt 0 0; Demo.pt 4 0; Demo.pt 4 3]]).
  - unfold finite_entity, finite_point, finite. finite_goal.
  - reflexivity.
Defined.

(** ** Further properties: the extents of the layer rooms *)

Lemma rooms_extents_fold (rooms : list polygon) (e : extents) :
  fold_left (fun e room => fold_left grow room e) rooms e
  = fold_left grow (flat_map (fun r : polygon => r) rooms) e.
Proof. symmetry. apply fold_left_flat_map. Qed.

(** X13. For rooms with finite coordinates, [rooms_extents] is [None]
    only when no room has a vertex; otherwise it is a box that contains
    every vertex of every room. *)
Theorem rooms_extents_contain_rooms :
  forall rooms : list polygon,
    Forall (Forall finite_point) rooms ->
    match rooms_extents rooms with
    | Some e => Forall (Forall (inside e)) rooms
    | None => Forall (fun r => r = []) rooms
    end.
Proof.
  intros rooms F.
  assert (Fp : Forall finite_point (flat_map (fun r : polygon => r) rooms)).
  { apply Forall_forall. intros p Hp. apply in_flat_map in Hp.
    destruct Hp as [r [Hr Hp]]. rewrite Forall_forall in F.
    specialize (F r Hr). rewrite Forall_forall in F. apply F, Hp. }
  destruct (fold_grow_spec _ empty_extents empty_extents_accumulating Fp)
    as [A [_ I]].
  unfold rooms_extents. destruct rooms as [|r0 rs]; [constructor|].
  rewrite rooms_extents_fold.
  set (pts := flat_map (fun r : polygon => r) (r0 :: rs)) in *.
  destruct (fold_left grow pts empty_extents) as [[[min_x min_y] max_x] max_y]
    eqn:E.
  assert (Box : forall r, In r (r0 :: rs) ->
                          Forall (inside (min_x, min_y, max_x, max_y)) r).
  { intros r Hr. apply Forall_forall. intros p Hp.
    rewrite Forall_forall in I. apply I. unfold pts. apply in_flat_map.
    exists r. split; assumption. }
  destruct ((min_x <? PInf)%num && (min_y <? PInf)%num
            && (max_x >? NInf)%num && (max_y >? NInf)%num) eqn:C.
  - apply Forall_forall. exact Box.
  - apply Forall_forall. intros r Hr. destruct r as [|p r]; [reflexivity|].
    exfalso. specialize (Box _ Hr). inversion Box as [|? ? Ip _]; subst.
    rewrite Forall_forall in F. specialize (F _ Hr).
    inversion F as [|? ? Fin_p _]; subst.
    destruct (inside_finite _ p A Fin_p Ip) as [a [b [c [d Eq]]]].
    inversion Eq; subst. cbn in C. discriminate.
Qed.

Lemma rooms_extents_contain_rooms_witness :
  match rooms_extents [[Demo.pt 0 0; Demo.pt 4 0; Demo.pt 4 3]] with
  | Some e => Forall (Forall (inside e)) [[Demo.pt 0 0; Demo.pt 4 0; Demo.pt 4 3]]
  | None => Forall (fun r => r = []) [[Demo.pt 0 0; Demo.pt 4 0; Demo.pt 4 3]]
  end.
Proof.
  apply (rooms_extents_contain_rooms [[Demo.pt 0 0; Demo.pt 4 0; Demo.pt 4 3]]).
  unfold finite_point, finite. finite_goal.
Defined.

(** ** Further properties: the raster room detector *)

Lemma set_mem_add_inv (l l' : Z) (s : list Z) :
  set_mem l (set_add l' s) = true -> l = l' \/ set_mem l s = true.
Proof.
  unfold set_add, set_mem. destruct (existsb (Z.eqb l') s); [tauto|].
  rewrite existsb_app. cbn [existsb]. rewrite orb_false_r.
  intros H. apply orb_true_iff in H. destruct H as [H | H]; [tauto|].
  left. apply Z.eqb_eq, H.
Qed.

Lemma add_if_floor_inv (labeled_img : image) (y x : nat) (l : Z) (s : list Z) :
  set_mem l (add_if_floor labeled_img y x s) = true ->
  set_mem l s = true \/ component_pixel labeled_img y x l.
Proof.
  unfold add_if_floor, component_pixel.
  destruct (Z.gtb_spec (pixel labeled_img y x) 0) as [P | P]; [|tauto].
  intros H. apply set_mem_add_inv in H. destruct H as [-> | H]; [|tauto].
  right. split; [lia | reflexivity].
Qed.

Lemma fold_left_set_mem_inv {A : Type} (f : list Z -> A -> list Z) (l : Z)
  (hit : A -> Prop) :
  (forall s x, set_mem l (f s x) = true -> set_mem l s = true \/ hit x) ->
  forall xs s,
    set_mem l (fold_left f xs s) = true ->
    set_mem l s = true \/ (exists x, In x xs /\ hit x).
Proof.
  intros Hf. induction xs as [|x xs IH]; cbn [fold_left]; intros s H.
  - left. exact H.
  - destruct (IH _ H) as [H1 | [x' [Hin Hx]]].
    + destruct (Hf s x H1) as [H2 | H2]; [left; exact H2|].
      right. exists x. split; [left; reflexivity | exact H2].
    + right. exists x'. split; [right; exact Hin | exact Hx].
Qed.

Lemma edge_labels_sound (labeled_img : image) (img_size : nat) (l : Z) :
  set_mem l (edge_labels labeled_img img_size) = true ->
  touches_border labeled_img img_size l.
Proof.
  unfold edge_labels. intros H.
  apply (fold_left_set_mem_inv _ l
           (fun y => component_pixel labeled_img y 0 l
                     \/ component_pixel labeled_img y (img_size - 1) l)) in H.
  2:{ intros s y Hs. apply add_if_floor_inv in Hs. destruct Hs as [Hs | Hs];
        [|tauto].
      apply add_if_floor_inv in Hs. tauto. }
  destruct H as [H | [y [Hy Hpix]]].
  - apply (fold_left_set_mem_inv _ l
             (fun x => component_pixel labeled_img 0 x l
                       \/ component_pixel labeled_img (img_size - 1) x l)) in H.
    2:{ intros s x Hs. apply add_if_floor_inv in Hs. destruct Hs as [Hs | Hs];
          [|tauto].
        apply add_if_floor_inv in Hs. tauto. }
    destruct H as [H | [x [Hx Hpix]]]; [discriminate|].
    exists x. apply in_seq in Hx. split; [lia | tauto].
  - exists y. apply in_seq in Hy. split; [lia | tauto].
Qed.

(** X14. The set [edge_labels] is exact: it holds a label if and only if
    the component with that label has a pixel on one of the four border
    lines, so the edge filter never drops a component that stays clear of
    the border. *)
Theorem edge_labels_exact :
  forall (labeled_img : image) (img_size : nat) (l : Z),
    set_mem l (edge_labels labeled_img img_size) = true <->
    touches_border labeled_img img_size l.
Proof.
  intros labeled_img img_size l. split.
  - apply edge_labels_sound.
  - apply edge_labels_complete.
Qed.

Lemma map_raise_returns {A B : Type} (f : A -> option B) (l : list A) :
  (forall a, exists b, f a = Some b) ->
  exists bs, map_raise f l = Some bs /\ List.length bs = List.length l.
Proof.
  intros H. induction l as [|a l IH]; cbn [map_raise].
  - exists []. split; reflexivity.
  - destruct (H a) as [b ->]. destruct IH as [bs [-> L]]. cbn [Py.bind].
    exists (b :: bs). split; [reflexivity | cbn; lia].
Qed.

Lemma kept_rooms_length (outcomes : list outcome) :
  (List.length (kept_rooms outcomes) <= List.length outcomes)%nat.
Proof.
  unfold kept_rooms. induction outcomes as [|o os IH]; cbn [flat_map];
    [apply Nat.le_refl|].
  rewrite length_app. destruct o; cbn [List.length app]; lia.
Qed.

Lemma of_nat_is_zero (n : nat) :
  Num.is_zero (of_nat n) = (n =? 0)%nat.
Proof.
  unfold of_nat, of_Z. cbn. unfold Num.Qzerob. cbn.
  destruct n; [reflexivity|]. cbn. reflexivity.
Qed.

Lemma identify_rooms_cases (ops : CvOps) (img : image) (ext : extents)
  (m : Q) :
  (identify_rooms img ext (Fin m) None = None <-> img = [])
  /\ (forall rooms,
         identify_rooms img ext (Fin m) None = Some rooms ->
         (List.length rooms
          <= List.length (measure_regionprops (labeled_floor img)))%nat).
Proof.
  unfold identify_rooms, identify_rooms_labelled.
  destruct ext as [[[min_x min_y] max_x] max_y].
  unfold Py.div at 1. rewrite of_nat_is_zero.
  destruct img as [|row img'].
  - cbn [List.length Nat.mul Nat.eqb Py.bind].
    split; [tauto | intros rooms E; discriminate E].
  - set (img := row :: img'). set (n := List.length img).
    assert (Z : (n * n =? 0)%nat = false).
    { apply Nat.eqb_neq. unfold n, img. cbn [List.length]. lia. }
    rewrite Z. cbn [Py.bind].
    assert (Hmin : exists z, min_pixels (Fin m) n = Some z).
    { unfold min_pixels. cbn. eexists. reflexivity. }
    assert (Hmax : exists z, max_pixels None n = Some z).
    { unfold max_pixels. cbn. eexists. reflexivity. }
    destruct Hmin as [mn ->]. destruct Hmax as [mx ->]. cbn [Py.bind].
    destruct (map_raise_returns
                (region_outcome (labeled_floor img)
                   (min_x, min_y, max_x, max_y) n mn mx
                   (edge_labels (labeled_floor img) n))
                (measure_regionprops (labeled_floor img))) as [os [-> L]].
    { intros a. apply region_outcome_returns. }
    cbn [Py.bind]. split.
    + split; discriminate.
    + intros rooms E. inversion E; subst. rewrite length_map, <- L.
      apply kept_rooms_length.
Qed.

(** X15. With a minimum area within [area_limit], an image side up to
    [side_limit] and the default maximum, [identify_rooms] raises exactly
    on the image without rows (the division for [pixel_area_ratio] is a
    division by zero); on every other image it returns, with at most one
    polygon for each region. *)
Theorem identify_rooms_raises_iff_empty :
  forall (ops : CvOps) (img : image) (ext : extents) (min_room_area : Q),
    (Qabs min_room_area <= area_limit)%Q ->
    Z.of_nat (List.length img) <= side_limit ->
    (identify_rooms img ext (Fin min_room_area) None = None <-> img = [])
    /\ (forall rooms,
           identify_rooms img ext (Fin min_room_area) None = Some rooms ->
           (List.length rooms
            <= List.length (measure_regionprops (labeled_floor img)))%nat).
Proof. intros ops img ext m _ _. apply identify_rooms_cases. Qed.

Lemma identify_rooms_raises_iff_empty_witness :
  (@identify_rooms Demo.ring_backend Demo.ring_image
     (of_Z 0, of_Z 0, of_Z 60, of_Z 60) (Fin 1) None = None
   <-> Demo.ring_image = [])
  /\ (forall rooms,
         @identify_rooms Demo.ring_backend Demo.ring_image
           (of_Z 0, of_Z 0, of_Z 60, of_Z 60) (Fin 1) None = Some rooms ->
         (List.length rooms
          <= List.length (@measure_regionprops Demo.ring_backend
                            (@labeled_floor Demo.ring_backend
                               Demo.ring_image)))%nat).
Proof.
  apply (identify_rooms_raises_iff_empty Demo.ring_backend Demo.ring_image
           (of_Z 0, of_Z 0, of_Z 60, of_Z 60) 1).
  - vm_compute. intros X. discriminate X.
  - vm_compute. intros X. discriminate X.
Defined.

(** X16. With the default maximum of 60 percent, a component that covers
    the whole image is always dropped by the area filter: the threshold
    [max_room_area_pixels] is below the number of pixels of any image of
    side 1 or more. *)
Theorem whole_image_component_rejected :
  forall (img_size : nat) (min_px : Z),
    (1 <= img_size)%nat ->
    exists max_px : Z,
      max_pixels None img_size = Some max_px
      /\ 0 <= max_px < Z.of_nat (img_size * img_size)
      /\ area_rejected min_px max_px (Z.of_nat (img_size * img_size)) = true.
Proof.
  intros img_size min_px H. unfold max_pixels.
  set (s := Z.of_nat img_size).
  assert (E : Py.int (Fin (3 # 5) * of_nat img_size * of_nat img_size)%num
              = Some (Z.quot (3 * s * s) 5)).
  { unfold of_nat, of_Z, Num.mul, Py.int, Qmult, inject_Z.
    cbn [Qnum Qden]. reflexivity. }
  rewrite E. exists (Z.quot (3 * s * s) 5).
  assert (S1 : 1 <= s) by (unfold s; lia).
  assert (R : 0 <= Z.quot (3 * s * s) 5 < Z.of_nat (img_size * img_size)).
  { rewrite Nat2Z.inj_mul. fold s. rewrite Z.quot_div_nonneg by nia. split.
    - apply Z.div_pos; nia.
    - apply Z.div_lt_upper_bound; nia. }
  split; [reflexivity|]. split; [exact R|].
  unfold area_rejected. apply orb_true_iff. right.
  destruct (Z.gtb_spec (Z.of_nat (img_size * img_size))
              (Z.quot (3 * s * s) 5)); [reflexivity | lia].
Qed.

Lemma whole_image_component_rejected_witness :
  exists max_px : Z,
    max_pixels None 10 = Some max_px
    /\ 0 <= max_px < Z.of_nat (10 * 10)
    /\ area_rejected 1 max_px (Z.of_nat (10 * 10)) = true.
Proof. apply (whole_image_component_rejected 10 1). lia. Defined.

Lemma longest_from_spec (rest : list contour) (best : contour) :
  In (longest_from best rest) (best :: rest)
  /\ forall c, In c (best :: rest) ->
                (List.length c <= List.length (longest_from best rest))%nat.
Proof.
  revert best. induction rest as [|c rest IH]; intros best; cbn [longest_from].
  - split; [left; reflexivity|]. intros c [<- | []]. apply Nat.le_refl.
  - destruct (List.length best <? List.length c)%nat eqn:E.
    + apply Nat.ltb_lt in E. destruct (IH c) as [I M]. split.
      * right. exact I.
      * intros c' [<- | H]; [|apply M, H].
        pose proof (M c (or_introl eq_refl)). lia.
    + apply Nat.ltb_ge in E. destruct (IH best) as [I M]. split.
      * destruct I as [I | I]; [left; exact I | right; right; exact I].
      * intros c' [<- | [<- | H]].
        -- apply M. left. reflexivity.
        -- pose proof (M best (or_introl eq_refl)). lia.
        -- apply M. right. exact H.
Qed.

(** X17. The contour [identify_rooms] picks with [max(contours, key=len)]
    is one of the contours of the region and no contour of the region has
    more points. *)
Theorem longest_contour_is_longest :
  forall (c : contour) (contours : list contour),
    In (longest_from c contours) (c :: contours)
    /\ Forall (fun c' => (List.length c'
                          <= List.length (longest_from c contours))%nat)
              (c :: contours).
Proof.
  intros c contours. destruct (longest_from_spec contours c) as [I M].
  split; [exact I | apply Forall_forall; exact M].
Qed.

(** ** Further properties: when the drivers return *)

Lemma consecutive_points (pts : list point) (s : segment) :
  In s (consecutive pts) -> In (fst s) pts /\ In (snd s) pts.
Proof.
  induction pts as [|p [|q rest] IH]; cbn [consecutive]; try contradiction.
  intros [<- | H].
  - cbn. tauto.
  - destruct (IH H) as [H1 H2]. split; right; assumption.
Qed.

Lemma last_finite (pts : list point) (d : point) :
  Forall finite_point pts -> finite_point d -> finite_point (last pts d).
Proof.
  intros F D. induction F as [|p pts Fp Fpts IH]; [exact D|].
  destruct pts as [|q pts]; [exact Fp | exact IH].
Qed.

Lemma origin_finite : finite_point (of_Z 0, of_Z 0).
Proof. split; eexists; reflexivity. Qed.

Lemma polyline_segments_finite (is_closed : bool) (pts : list point) :
  Forall finite_point pts ->
  Forall finite_point (wall_points (polyline_segments is_closed pts)).
Proof.
  intros F. unfold polyline_segments.
  destruct (2 <=? List.length pts)%nat; [|constructor].
  unfold wall_points. cbn [flat_map]. rewrite app_nil_r.
  apply Forall_forall. intros p Hp. apply in_flat_map in Hp.
  destruct Hp as [s [Hs Hp]].
  assert (Fs : finite_point (fst s) /\ finite_point (snd s)).
  { rewrite Forall_forall in F.
    assert (C : In s (consecutive pts) -> finite_point (fst s) /\ finite_point (snd s)).
    { intros H. destruct (consecutive_points pts s H) as [H1 H2].
      split; apply F; assumption. }
    destruct is_closed; [|apply C, Hs].
    apply in_app_iff in Hs. destruct Hs as [Hs | [<- | []]]; [apply C, Hs|].
    cbn [fst snd]. split.
    - apply last_finite; [apply Forall_forall, F | apply origin_finite].
    - destruct pts as [|q pts]; [apply origin_finite|].
      apply F. left. reflexivity. }
  destruct Hp as [<- | [<- | []]]; tauto.
Qed.

Lemma collect_walls_finite (doc : document) :
  Forall finite_entity (entities doc) ->
  Forall finite_point (wall_points (collect_walls doc)).
Proof.
  intros F. unfold collect_walls, wall_points.
  apply Forall_forall. intros p Hp. apply in_flat_map in Hp.
  destruct Hp as [w [Hw Hp]]. apply in_flat_map in Hw.
  destruct Hw as [e [He Hw]]. rewrite Forall_forall in F. specialize (F e He).
  assert (G : Forall finite_point
                (wall_points
                   (walls_of_entity
                      (find_exclude_layers (analyze_layers doc)) e))).
  { unfold walls_of_entity. destruct (Py.mem _ _); [constructor|].
    destruct e as [l a b | l c pts | l c pts | l paths | l ctr r | t l];
      cbn [finite_entity] in F.
    - destruct F as [Fa Fb]. unfold wall_points. cbn [flat_map app fst snd].
      apply Forall_cons; [exact Fa|]. apply Forall_cons; [exact Fb|].
      apply Forall_nil.
    - apply polyline_segments_finite, F.
    - apply polyline_segments_finite, F.
    - apply Forall_nil.
    - apply Forall_nil.
    - apply Forall_nil. }
  rewrite Forall_forall in G. apply G. unfold wall_points.
  apply in_flat_map. exists w. split; assumption.
Qed.

Lemma preprocessed_entities (lib : Ezdxf) (doc : document) :
  incl (entities (preprocessed doc)) (entities doc).
Proof.
  unfold preprocessed, preprocess_dwg. cbv zeta.
  destruct (List.length (entities doc) =? 0)%nat; [apply incl_refl|].
  unfold clean_layers. cbn [entities]. intros e He.
  apply filter_In in He. apply He.
Qed.

Lemma np_zeros_length (img_size : nat) :
  List.length (np_zeros img_size) = img_size.
Proof. unfold np_zeros. apply repeat_length. Qed.

Lemma extract_rooms_from_dwg_succeeds (lib : Ezdxf) (ops : CvOps)
  (doc : document) (img_size : nat) (m : Q) :
  (forall img p q c t, List.length (cv2_line img p q c t) = List.length img) ->
  Forall finite_entity (entities doc) ->
  (1 <= img_size)%nat ->
  exists rooms ext,
    extract_rooms_from_dwg doc img_size (Fin m) = Some (rooms, ext).
Proof.
  intros Hline F Hs.
  assert (Fpre : Forall finite_entity (entities (preprocessed doc))).
  { apply Forall_forall. intros e He. rewrite Forall_forall in F.
    apply F. apply (preprocessed_entities lib doc), He. }
  destruct (draw_walls_returns ops (fun img => List.length img = img_size)
              (collect_walls (preprocessed doc)) img_size
              (collect_walls_finite _ Fpre)) as [img [E L]].
  { intros img p q c t H. rewrite Hline. exact H. }
  { apply np_zeros_length. }
  unfold extract_rooms_from_dwg, extract_walls_and_rooms. cbv zeta.
  rewrite E. cbn [Py.bind].
  destruct (identify_rooms img (walls_extents (collect_walls (preprocessed doc)))
              (Fin m) None) as [raster|] eqn:I.
  - cbn [Py.bind]. eexists. eexists. reflexivity.
  - exfalso. apply (identify_rooms_cases ops img _ m) in I. subst img.
    cbn in L. lia.
Qed.

Lemma entity_in_range_finite (e : entity) :
  entity_in_range e -> finite_entity e.
Proof.
  destruct e as [l a b | l c pts | l c pts | l paths | l ctr r | t l];
    cbn [entity_in_range finite_entity].
  - intros [A B]. split; apply point_in_range_finite; assumption.
  - apply points_in_range_finite.
  - apply points_in_range_finite.
  - intros F. apply Forall_forall. intros p Hp. rewrite Forall_forall in F.
    apply points_in_range_finite, F, Hp.
  - intros [C R]. split;
      [apply point_in_range_finite, C | eapply in_range_finite, R].
  - trivial.
Qed.

(** X18. The pipeline raises nothing on a drawing whose coordinates are
    within [coordinate_limit]: when [cv2.line] keeps the number of image
    rows, the image side is from 1 to [side_limit] and the minimum room
    area is within [area_limit], [extract_rooms_from_dwg] returns a room
    list and extents. *)
Theorem extract_rooms_from_dwg_returns :
  forall (lib : Ezdxf) (ops : CvOps) (doc : document) (img_size : nat)
         (min_room_area : Q),
    (forall img p q c t,
        List.length (cv2_line img p q c t) = List.length img) ->
    Forall entity_in_range (entities doc) ->
    1 <= Z.of_nat img_size <= side_limit ->
    (Qabs min_room_area <= area_limit)%Q ->
    exists rooms ext,
      extract_rooms_from_dwg doc img_size (Fin min_room_area)
      = Some (rooms, ext).
Proof.
  intros lib ops doc img_size m Hline R Hs _.
  apply extract_rooms_from_dwg_succeeds; [exact Hline | | lia].
  apply Forall_forall. intros e He. rewrite Forall_forall in R.
  apply entity_in_range_finite, R, He.
Qed.

Lemma extract_rooms_from_dwg_returns_witness :
  exists rooms ext,
    @extract_rooms_from_dwg Demo.plain_ezdxf Demo.wall_free_backend
      Demo.hatch_and_line 4 (Fin 1)
    = Some (rooms, ext).
Proof.
  apply (extract_rooms_from_dwg_returns Demo.plain_ezdxf Demo.wall_free_backend
           Demo.hatch_and_line 4 1).
  - intros img p q c t. reflexivity.
  - unfold Demo.hatch_and_line, Demo.drawing, entity_in_range, point_in_range,
      in_range.
    cbn [entities path_vertices fst snd Demo.pt]. range_goal.
  - unfold side_limit. lia.
  - vm_compute. intros X. discriminate X.
Defined.

Lemma fold_raise_preserves {A B : Type} (P : A -> Prop)
  (f : A -> B -> option A) (l : list B) :
  (forall a b a', P a -> f a b = Some a' -> P a') ->
  forall a a', P a -> fold_raise f l a = Some a' -> P a'.
Proof.
  intros H. induction l as [|b l IH]; intros a a' Pa E; cbn [fold_raise] in E.
  - inversion E; subst. exact Pa.
  - apply bind_some in E. destruct E as [a1 [E1 E2]].
    apply (IH a1 a' (H a b a1 Pa E1) E2).
Qed.

Lemma convert_walls_to_image_rows (ops : CvOps) (walls : list wall)
  (img_size : nat) (img : image) (ext : extents) :
  (forall img p q c t, List.length (cv2_line img p q c t) = List.length img) ->
  convert_walls_to_image walls img_size = Some (img, ext) ->
  List.length img = img_size.
Proof.
  intros Hline. unfold convert_walls_to_image. cbv zeta. intros E.
  apply bind_some in E. destruct E as [img' [E1 E2]]. inversion E2; subst.
  revert E1.
  apply (fold_raise_preserves (fun i => List.length i = img_size));
    [|apply np_zeros_length].
  intros a w a' Pa. apply (fold_raise_preserves (fun i => List.length i = img_size));
    [|exact Pa].
  intros a0 s a0' Pa0. unfold draw_segment.
  destruct (walls_extents walls) as [[[min_x min_y] max_x] max_y].
  destruct s as [start end_]. intros E.
  apply bind_some in E. destruct E as [x1 [_ E]].
  apply bind_some in E. destruct E as [y1 [_ E]].
  apply bind_some in E. destruct E as [x2 [_ E]].
  apply bind_some in E. destruct E as [y2 [_ E]].
  inversion E; subst. rewrite Hline. exact Pa0.
Qed.

(** X19. An image side of 0 makes the pipeline raise, whatever the
    drawing and the minimum area: when [cv2.line] keeps the number of
    image rows, [extract_rooms_from_dwg] with [img_size = 0] ends in the
    division by zero of [identify_rooms]. *)
Theorem zero_image_size_raises :
  forall (lib : Ezdxf) (ops : CvOps) (doc : document) (min_room_area : num),
    (forall img p q c t,
        List.length (cv2_line img p q c t) = List.length img) ->
    extract_rooms_from_dwg doc 0 min_room_area = None.
Proof.
  intros lib ops doc m Hline.
  unfold extract_rooms_from_dwg, extract_walls_and_rooms. cbv zeta.
  destruct (convert_walls_to_image (collect_walls (preprocessed doc)) 0)
    as [[img ext]|] eqn:E; [|reflexivity].
  apply (convert_walls_to_image_rows ops _ _ _ _ Hline) in E.
  destruct img; [|discriminate E]. cbn [Py.bind].
  destruct ext as [[[a b] c] d]. reflexivity.
Qed.

Lemma zero_image_size_raises_witness :
  @extract_rooms_from_dwg Demo.plain_ezdxf Demo.wall_free_backend
    Demo.hatch_and_line 0 (of_Z 1)
  = None.
Proof.
  apply (zero_image_size_raises Demo.plain_ezdxf Demo.wall_free_backend
           Demo.hatch_and_line (of_Z 1)).
  intros img p q c t. reflexivity.
Defined.

(** ** Further properties: wall segments of a polyline *)

Lemma consecutive_length (pts : list point) :
  List.length (consecutive pts) = (List.length pts - 1)%nat.
Proof.
  induction pts as [|p [|q rest] IH]; [reflexivity | reflexivity|].
  change (consecutive (p :: q :: rest)) with ((p, q) :: consecutive (q :: rest)).
  change (List.length ((p, q) :: consecutive (q :: rest)))
    with (S (List.length (consecutive (q :: rest)))).
  rewrite IH. cbn [List.length]. lia.
Qed.

Lemma consecutive_chained (pts : list point) : chained (consecutive pts).
Proof.
  induction pts as [|p [|q [|r rest]] IH]; [exact I | exact I | exact I|].
  change (consecutive (p :: q :: r :: rest))
    with ((p, q) :: (q, r) :: consecutive (r :: rest)).
  split; [reflexivity|]. exact IH.
Qed.

Lemma consecutive_ends (p q : point) (rest : list point) (d : point)
  (ds : segment) :
  fst (hd ds (consecutive (p :: q :: rest))) = p
  /\ snd (last (consecutive (p :: q :: rest)) ds) = last (p :: q :: rest) d.
Proof.
  split; [reflexivity|].
  revert p q. induction rest as [|r rest IH]; intros p q; [reflexivity|].
  change (consecutive (p :: q :: r :: rest))
    with ((p, q) :: consecutive (q :: r :: rest)).
  change (last (p :: q :: r :: rest) d) with (last (q :: r :: rest) d).
  rewrite <- IH. reflexivity.
Qed.

Lemma chained_snoc (segs : list segment) (s ds : segment) :
  chained segs -> segs <> [] -> snd (last segs ds) = fst s ->
  chained (segs ++ [s]).
Proof.
  induction segs as [|a [|b rest] IH]; intros C N E; [congruence| |].
  - cbn. split; [exact E | exact I].
  - destruct C as [C1 C2]. change ((a :: b :: rest) ++ [s])
      with (a :: ((b :: rest) ++ [s])).
    cbn [chained app]. split; [exact C1|].
    apply IH; [exact C2 | discriminate | exact E].
Qed.

(** X20. The wall of a polyline: fewer than 2 points give no wall; 2 or
    more points give one wall of [n - 1] segments, and [n] when closed,
    each segment starting where the one before ends; a closed polyline
    ends at its first point (also with 2 points, where the closing segment
    runs back). *)
Theorem polyline_segments_chain :
  forall (is_closed : bool) (points : list point),
    ((List.length points < 2)%nat -> polyline_segments is_closed points = [])
    /\ ((2 <= List.length points)%nat ->
        exists segments : list segment,
          polyline_segments is_closed points = [segments]
          /\ List.length segments
             = (List.length points - 1 + (if is_closed then 1 else 0))%nat
          /\ chained segments
          /\ fst (hd ((of_Z 0, of_Z 0), (of_Z 0, of_Z 0)) segments)
             = hd (of_Z 0, of_Z 0) points
          /\ (is_closed = true ->
              snd (last segments ((of_Z 0, of_Z 0), (of_Z 0, of_Z 0)))
              = hd (of_Z 0, of_Z 0) points)).
Proof.
  intros is_closed points. unfold polyline_segments. split.
  - intros H. apply Nat.leb_gt in H. rewrite H. reflexivity.
  - intros H. pose proof H as Hb. apply Nat.leb_le in Hb. rewrite Hb.
    destruct points as [|p [|q rest]]; cbn [List.length] in H; try lia.
    set (o := (of_Z 0, of_Z 0)). set (ds := (o, o)).
    destruct (consecutive_ends p q rest o ds) as [Hhd Hlast].
    destruct is_closed.
    + eexists. split; [reflexivity|]. repeat split.
      * rewrite length_app, consecutive_length. cbn [List.length]. lia.
      * apply (chained_snoc _ _ ds); [apply consecutive_chained | discriminate|].
        rewrite Hlast. reflexivity.
      * intros _. rewrite last_last. reflexivity.
    + eexists. split; [reflexivity|]. repeat split.
      * rewrite consecutive_length. cbn [List.length]. lia.
      * apply consecutive_chained.
      * discriminate.
Qed.

Lemma polyline_segments_chain_witness :
  exists segments : list segment,
    polyline_segments true [Demo.pt 0 0; Demo.pt 4 0; Demo.pt 4 3]
    = [segments]
    /\ List.length segments = 3%nat
    /\ chained segments
    /\ fst (hd ((of_Z 0, of_Z 0), (of_Z 0, of_Z 0)) segments) = Demo.pt 0 0
    /\ (true = true ->
        snd (last segments ((of_Z 0, of_Z 0), (of_Z 0, of_Z 0)))
        = Demo.pt 0 0).
Proof.
  apply (proj2 (polyline_segments_chain true
                  [Demo.pt 0 0; Demo.pt 4 0; Demo.pt 4 3])).
  cbn [List.length]. lia.
Defined.

(** ** Further properties: the area test *)

Lemma shoelace_rectangle (x y w h : Q) :
  exists s : Q, shoelace (rectangle x y w h) = Fin s /\ (s == (2 # 1) * (w * h))%Q.
Proof.
  eexists. split.
  - unfold shoelace, rectangle, of_Z.
    cbn [List.length seq fold_left nth fst snd Nat.add Nat.modulo Nat.divmod
         Nat.sub Num.add Num.sub Num.mul Num.neg].
    reflexivity.
  - unfold inject_Z. ring.
Qed.

Lemma rectangle_area_test (x y w h m : Q) :
  is_valid_room (rectangle x y w h) (Fin m) = true
  <-> (m <= Qabs (w * h))%Q.
Proof.
  destruct (shoelace_rectangle x y w h) as [s [Hs Es]].
  unfold is_valid_room. rewrite Hs.
  change (List.length (rectangle x y w h) <? 3)%nat with false.
  cbv iota. unfold Num.abs, Num.div, of_Z.
  change (Qzerob (inject_Z 2)) with false. cbv iota.
  unfold Num.ge, Num.le, Num.lt.
  assert (E : (Qabs s / inject_Z 2 == Qabs (w * h))%Q).
  { rewrite Es, Qabs_Qmult. change (Qabs (2 # 1)) with (2 # 1).
    unfold inject_Z. field. }
  split.
  - intros H. apply negb_true_iff in H. apply Qltb_ge in H.
    rewrite <- E. exact H.
  - intros H. apply negb_true_iff.
    destruct (Qltb (Qabs s / inject_Z 2) m) eqn:L; [|reflexivity].
    apply Qltb_lt in L. rewrite E in L.
    exfalso. apply (Qlt_not_le _ _ L). exact H.
Qed.

(** X21. The area test on an axis-parallel rectangle with integer corners
    within [exact_limit], where the products and sums of the shoelace
    formula are exact in double arithmetic: [is_valid_room] accepts the
    rectangle of width [w] and height [h] exactly when the threshold is at
    most [|w * h|], whatever the signs of [w] and [h], that is whatever the
    orientation of the vertex list. *)
Theorem is_valid_room_rectangle :
  forall (x y w h : Z) (min_area : Q),
    Z.abs x <= exact_limit -> Z.abs y <= exact_limit ->
    Z.abs (x + w) <= exact_limit -> Z.abs (y + h) <= exact_limit ->
    is_valid_room
      (rectangle (inject_Z x) (inject_Z y) (inject_Z w) (inject_Z h))
      (Fin min_area) = true
    <-> (min_area <= inject_Z (Z.abs (w * h)))%Q.
Proof.
  intros x y w h m _ _ _ _. rewrite rectangle_area_test.
  assert (E : (Qabs (inject_Z w * inject_Z h) == inject_Z (Z.abs (w * h)))%Q).
  { rewrite <- inject_Z_mult. unfold Qabs, inject_Z, Qeq. cbn [Qnum Qden].
    reflexivity. }
  rewrite E. reflexivity.
Qed.

Lemma is_valid_room_rectangle_witness :
  is_valid_room
    (rectangle (inject_Z 0) (inject_Z 0) (inject_Z 4) (inject_Z (-3)))
    (Fin 12) = true
  <-> (12 <= inject_Z (Z.abs (4 * -3)))%Q.
Proof.
  apply (is_valid_room_rectangle 0 0 4 (-3) 12);
    unfold exact_limit; cbn; lia.
Defined.

(** ** Further properties: walls and doors by layer name *)

Lemma query_fold (msp : list entity) (walls doors : list entity) :
  fold_left query_step msp (walls, doors)
  = ((walls ++ filter (fun e => is_line_type e && names_wall e) msp)%list,
     (doors ++ filter (fun e => is_line_type e && negb (names_wall e)
                                && names_door e) msp)%list).
Proof.
  revert walls doors. induction msp as [|e msp IH]; intros walls doors.
  - cbn. rewrite !app_nil_r. reflexivity.
  - cbn [fold_left filter]. unfold query_step at 2.
    destruct (is_line_type e), (names_wall e), (names_door e);
      cbn [andb negb]; rewrite IH, <- ?app_assoc; reflexivity.
Qed.

(** X22. [query_walls_and_doors] returns, in drawing order, the LINE,
    LWPOLYLINE and POLYLINE entities whose lower-cased layer name holds a
    wall keyword, and those whose name holds a door keyword and no wall
    keyword: a layer named as both goes to the walls, and no entity is
    returned in both lists. *)
Theorem query_walls_and_doors_filters :
  forall msp : list entity,
    let walls := fst (query_walls_and_doors msp) in
    let doors := snd (query_walls_and_doors msp) in
    walls = filter (fun e => is_line_type e && names_wall e) msp
    /\ doors = filter (fun e => is_line_type e && negb (names_wall e)
                                && names_door e) msp
    /\ forall e : entity, ~ (In e walls /\ In e doors).
Proof.
  intros msp walls doors. subst walls doors.
  unfold query_walls_and_doors. rewrite query_fold. cbn [fst snd app].
  split; [reflexivity|]. split; [reflexivity|].
  intros e [Hw Hd].
  apply filter_In in Hw. apply filter_In in Hd.
  destruct Hw as [_ Hw], Hd as [_ Hd].
  destruct (is_line_type e), (names_wall e), (names_door e);
    cbn in Hw, Hd; discriminate.
Qed.

(** ** Further properties: walls that meet no door *)

Lemma cut_wall_untouched `{Shapely} (w : geom) (door_lines : list geom) :
  (forall d, In d door_lines -> intersects w d = false) ->
  cut_wall w door_lines = w.
Proof.
  induction door_lines as [|d rest IH]; intros Hno; [reflexivity|].
  cbn [cut_wall]. rewrite (Hno d (or_introl eq_refl)).
  apply IH. intros d' Hd'. apply Hno. right. exact Hd'.
Qed.

(** X23. Walls that intersect no door line come out of the door removal as
    they went in: the result is what the collecting step gives on the wall
    lines themselves (a non-empty LineString is returned as it is), in
    order, and does not depend on [difference]. *)
Theorem untouched_walls_are_kept :
  forall (S : Shapely) (wall_lines door_lines : list geom),
    (forall w d, In w wall_lines -> In d door_lines ->
                 intersects w d = false) ->
    remove_doors_from_lines wall_lines door_lines
    = flat_map residue wall_lines.
Proof.
  intros S wall_lines door_lines Hno. unfold remove_doors_from_lines.
  induction wall_lines as [|w rest IH]; [reflexivity|].
  cbn [flat_map]. rewrite cut_wall_untouched.
  - f_equal. apply IH. intros w' d Hw Hd. apply Hno; [right; exact Hw | exact Hd].
  - intros d Hd. apply Hno; [left; reflexivity | exact Hd].
Qed.

Lemma untouched_walls_are_kept_witness :
  @remove_doors_from_lines Demo.cell_geometry
    [[0; 1; 2]; [7; 8]] [[4; 5]]
  = [[0; 1; 2]; [7; 8]].
Proof.
  rewrite (untouched_walls_are_kept Demo.cell_geometry
             [[0; 1; 2]; [7; 8]] [[4; 5]]).
  - reflexivity.
  - intros w d [<- | [<- | []]] [<- | []]; reflexivity.
Defined.

(** ** Further properties: entities the vector assembler cannot convert *)

Lemma lines_of_raises_iff (S : Shapely) (ents : list entity) :
  lines_of ents = None <-> existsb slices_vector ents = true.
Proof.
  induction ents as [|e ents IH]; cbn [lines_of existsb].
  - split; discriminate.
  - destruct e as [l a b | l c pts | l c [|v vs] | l paths | l ctr r | t l];
      cbn [entity_to_lines slices_vector Py.bind orb];
      try (destruct (2 <=? List.length pts)%nat; cbn [Py.bind]);
      try (split; reflexivity);
      (destruct (lines_of ents) as [lines|]; cbn [Py.bind];
       [split; [discriminate | intros H; apply IH in H; discriminate H]
       |split; [intros _; apply IH; reflexivity | reflexivity]]).
Qed.

(** X26. The door removal of [extract_skeleton_1.py] raises exactly when a
    LINE, or a POLYLINE with a vertex, is among the wall or door entities:
    [entity_to_lines] slices the ezdxf vector of such an entity, which is
    a TypeError, and nothing catches it; [main] then has no polygons. *)
Theorem door_removal_raises_iff :
  forall (S : Shapely) (wall_ents door_ents : list entity),
    (remove_doors_from_walls wall_ents door_ents = None
     <-> existsb slices_vector (wall_ents ++ door_ents) = true)
    /\ (closed_polygons wall_ents door_ents = None
        <-> existsb slices_vector (wall_ents ++ door_ents) = true).
Proof.
  intros S wall_ents door_ents.
  assert (E : remove_doors_from_walls wall_ents door_ents = None
              <-> existsb slices_vector (wall_ents ++ door_ents) = true).
  { rewrite existsb_app, orb_true_iff.
    rewrite <- (lines_of_raises_iff S wall_ents).
    rewrite <- (lines_of_raises_iff S door_ents).
    unfold remove_doors_from_walls.
    destruct (lines_of wall_ents) as [wl|]; cbn [Py.bind];
      [destruct (lines_of door_ents) as [dl|]; cbn [Py.bind]|].
    - split; [intros H; discriminate H | intros [H | H]; discriminate H].
    - split; [intros _; right; reflexivity | reflexivity].
    - split; [intros _; left; reflexivity | reflexivity]. }
  split; [exact E|]. rewrite <- E. unfold closed_polygons.
  destruct (remove_doors_from_walls wall_ents door_ents); cbn [Py.bind];
    split; intros H; try discriminate H; reflexivity.
Qed.

Example wall_line_makes_door_removal_raise :
  @closed_polygons Demo.cell_geometry
     [LINE "wall" (Demo.pt 0 0) (Demo.pt 10 0)] Demo.doors_on_a_line
  = None.
Proof. vm_compute. reflexivity. Qed.

(** ** Further properties: the frame of the preview images *)

Lemma not_small_not_zero (w : num) :
  (w <? Fin (1 # 100000))%num = false -> Num.is_zero w = false.
Proof.
  destruct w as [| |q|]; try reflexivity.
  unfold Num.lt, Num.is_zero, Num.Qltb, Num.Qzerob. cbn [Qnum Qden].
  intros H. apply Z.ltb_ge in H. apply Z.eqb_neq. intros E. rewrite E in H.
  pose proof (Pos2Z.is_pos (Qden q)). lia.
Qed.

Lemma drawing_frame_returns (extents : option extents) (img_size : nat) :
  exists f : frame, drawing_frame extents img_size = Some f.
Proof.
  unfold drawing_frame.
  destruct (match extents with
            | Some e => e
            | None => (of_Z 0, of_Z 0, of_Z 1000, of_Z 1000)
            end) as [[[a b] c] d].
  destruct (if ((c - a <? Fin (1 # 10000000000)) || (d - b <? Fin (1 # 10000000000)))%num
            then (of_Z 0, of_Z 0, of_Z 1000, of_Z 1000)
            else (a, b, c, d)) as [[[min_x min_y] max_x] max_y].
  cbv zeta.
  destruct ((max_x - min_x <? Fin (1 # 100000))%num) eqn:W;
    [|destruct ((max_y - min_y <? Fin (1 # 100000))%num) eqn:H];
    cbn [orb Py.bind].
  - unfold Py.div. change (Num.is_zero (of_Z 2)) with false. cbv iota.
    cbn [Py.bind]. eexists. reflexivity.
  - unfold Py.div. change (Num.is_zero (of_Z 2)) with false. cbv iota.
    cbn [Py.bind]. eexists. reflexivity.
  - unfold Py.div. rewrite (not_small_not_zero _ W), (not_small_not_zero _ H).
    change (Num.is_zero (of_Z 2)) with false. cbv iota.
    cbn [Py.bind]. eexists. reflexivity.
Qed.

Lemma clamp_range (x : Z) (img_size : nat) :
  (1 <= img_size)%nat -> 0 <= clamp x img_size <= Z.of_nat img_size - 1.
Proof. unfold clamp. lia. Qed.

(** X24. The preview images never draw outside the image and their set-up
    never divides by zero: for every extents value, also [None], a
    degenerate or an infinite box, the scale and the offsets are computed,
    and for an image of side 1 or more [transform] sends every point, also
    one with infinite or NaN coordinates, to a pixel between 0 and
    [img_size - 1] on both axes. *)
Theorem preview_pixels_inside_image :
  forall (extents : option extents) (img_size : nat),
    (1 <= img_size)%nat ->
    exists f : frame,
      drawing_frame extents img_size = Some f
      /\ forall point : point,
           0 <= fst (transform f img_size point) <= Z.of_nat img_size - 1
           /\ 0 <= snd (transform f img_size point) <= Z.of_nat img_size - 1.
Proof.
  intros extents img_size Hs.
  destruct (drawing_frame_returns extents img_size) as [f E].
  exists f. split; [exact E|]. intros point. unfold transform.
  destruct (Py.int _) as [x|]; [destruct (Py.int _) as [y|]|]; cbn [fst snd];
    try lia.
  split; apply clamp_range; exact Hs.
Qed.

Lemma preview_pixels_inside_image_witness :
  exists f : frame,
    drawing_frame (Some (of_Z 0, of_Z 0, of_Z 4, of_Z 3)) 10 = Some f
    /\ forall point : point,
         0 <= fst (transform f 10 point) <= 9
         /\ 0 <= snd (transform f 10 point) <= 9.
Proof.
  apply (preview_pixels_inside_image
           (Some (of_Z 0, of_Z 0, of_Z 4, of_Z 3)) 10).
  lia.
Defined.

(** ** Further properties: the entities that survive the preprocessing *)

Lemma mem_keep_with_default (x : string) (keep_layers : list string) :
  Py.mem x (keep_with_default keep_layers)
  = String.eqb x "0" || Py.mem x keep_layers.
Proof.
  unfold keep_with_default.
  destruct (Py.mem "0" keep_layers) eqn:M; cbn [negb].
  - destruct (String.eqb_spec x "0") as [->|N]; [|reflexivity].
    rewrite M. reflexivity.
  - unfold Py.mem. rewrite existsb_app. cbn [existsb].
    rewrite orb_false_r. apply orb_comm.
Qed.

(** X25. What the preprocessing lets through.  [preprocess_dwg] gives up
    (its [except] branch returns [None]) exactly on a drawing without
    entities in the model space; otherwise the cleaned drawing holds, in
    drawing order, the entities of the model space on layer ["0"] and on
    the layers [identify_wall_layers] returns for the histogram of the
    entity database, and so no entity on a text or annotation layer other
    than ["0"]. *)
Theorem preprocess_dwg_entities :
  forall (lib : Ezdxf) (doc : document),
    (preprocess_dwg doc = None <-> entities doc = [])
    /\ forall cleaned : document,
         preprocess_dwg doc = Some cleaned ->
         entities cleaned
         = filter (fun e =>
                     String.eqb (entity_layer e) "0"
                     || Py.mem (entity_layer e)
                               (identify_wall_layers (analyze_layers doc)))
                  (entities doc)
         /\ Forall (fun e => entity_layer e = "0"%string
                             \/ is_text_layer (entity_layer e) = false)
                   (entities cleaned).
Proof.
  intros lib doc. unfold preprocess_dwg. cbv zeta. split.
  - destruct (entities doc) as [|e es]; cbn [List.length Nat.eqb].
    + split; reflexivity.
    + split; discriminate.
  - intros cleaned E.
    destruct (List.length (entities doc) =? 0)%nat; [discriminate|].
    inversion E; subst cleaned. clear E. unfold clean_layers. cbv zeta.
    cbn [entities].
    assert (F : forall l : list entity,
               filter (fun e => Py.mem (entity_layer e)
                     (keep_with_default (identify_wall_layers (analyze_layers doc)))) l
               = filter (fun e => String.eqb (entity_layer e) "0"
                     || Py.mem (entity_layer e)
                               (identify_wall_layers (analyze_layers doc))) l).
    { intros l. apply filter_ext. intros e. apply mem_keep_with_default. }
    rewrite F. split; [reflexivity|].
    apply Forall_forall. intros e He. apply filter_In in He.
    destruct He as [_ He]. apply orb_true_iff in He. destruct He as [Z | M].
    + left. apply String.eqb_eq. exact Z.
    + right. apply mem_In in M.
      pose proof (keep_set_has_no_text_layer_aux (analyze_layers doc)) as T.
      rewrite Forall_forall in T. apply T, M.
Qed.

Lemma preprocess_dwg_entities_witness :
  (@preprocess_dwg Demo.plain_ezdxf Demo.lines_in_a_block = None
   <-> entities Demo.lines_in_a_block = [])
  /\ entities (@preprocessed Demo.plain_ezdxf Demo.lines_in_a_block)
     = entities Demo.lines_in_a_block.
Proof.
  split.
  - apply (preprocess_dwg_entities Demo.plain_ezdxf Demo.lines_in_a_block).
  - destruct (proj2 (preprocess_dwg_entities Demo.plain_ezdxf
                       Demo.lines_in_a_block)
                (@preprocessed Demo.plain_ezdxf Demo.lines_in_a_block) eq_refl)
      as [E _].
    rewrite E. reflexivity.
Defined.

(** The line of [Demo.lines_in_a_block] is kept for the lines of the block
    definition: without them the layer has too few lines to be a wall
    layer and the preprocessing drops the line. *)
Example block_entities_decide_the_keep_set :
  entities (@preprocessed Demo.plain_ezdxf
              (Demo.drawing (layers Demo.lines_in_a_block)
                            (entities Demo.lines_in_a_block)))
  = [].
Proof. vm_compute. reflexivity. Qed.
